(** * Crypto trading shell and random strategy: a shallow embedding

    The development embeds the two Python sources of the repository,

    - [crypto_journey/crypto_shell.py]: the [CryptoShell] command handlers
      [do_show_config], [do_set_parameter], [do_save_config] and
      [do_load_config], then the other handlers, the command loop of
      [cmd.Cmd] and [main], and
    - [crypto_journey/randobot.py]: [MLTrader.position_sizing] and
      [MLTrader.on_trading_iteration],

    and states the properties of the specification over them.

    Conventions.
    - A Python [str] is a Rocq [string]; the character with code [n] stands
      for the code point U+00[n], so the model covers the strings whose code
      points are below 256.
    - A Python [float] is an IEEE 754 binary64 number, a [spec_float] with
      precision 53 and maximal exponent 1024.
    - A handler is a function from the state before to the state after
      together with what it printed, and the exception that left it if any.
    - The Python library ([str] methods, [float], [datetime.strptime],
      [json], [open]) and the trading framework are modelled next to the
      code that calls them; each model says what it stands for. *)

From Stdlib Require Import ZArith Bool List String Ascii Lia SpecFloat.
From stdpp Require Import base option list strings gmap.
Import ListNotations.
Open Scope Z_scope.

Set Warnings "-register-all".

(* ===================================================================== *)
(** * Python strings                                                      *)
(* ===================================================================== *)

Module PyStr.

Definition ord (c : ascii) : Z := Z.of_N (N_of_ascii c).

Definition chr (n : Z) : ascii := ascii_of_N (Z.to_N n).

Definition between (lo hi : Z) (c : ascii) : bool :=
  (lo <=? ord c) && (ord c <=? hi).

(** [str.isspace] on one character: the ASCII separators and, above
    them, NEL (U+0085) and the no-break space (U+00A0). *)
Definition isspace (c : ascii) : bool :=
  between 9 13 c || between 28 32 c || (ord c =? 133) || (ord c =? 160).

Definition isdigit (c : ascii) : bool := between 48 57 c.

(** Value of a decimal digit. *)
Definition digit_val (c : ascii) : Z := ord c - 48.

(** [str.lower] on one character: A-Z, and the capital letters of the
    Latin-1 block (U+00C0 to U+00DE without the multiplication sign). *)
Definition lower_char (c : ascii) : ascii :=
  if between 65 90 c || (between 192 222 c && negb (ord c =? 215))
  then chr (ord c + 32) else c.

Fixpoint lower (s : string) : string :=
  match s with
  | EmptyString => EmptyString
  | String c s' => String (lower_char c) (lower s')
  end.

(** [s.split()]: the maximal runs of characters that are not white
    space, in order.  [cur] is the run being read, if one has begun. *)
Fixpoint split_from (cur : option string) (s : string) : list string :=
  match s with
  | EmptyString =>
      match cur with Some w => [w] | None => [] end
  | String c s' =>
      if isspace c then
        match cur with
        | Some w => w :: split_from None s'
        | None => split_from None s'
        end
      else
        split_from (Some (default EmptyString cur +:+ String c EmptyString)) s'
  end.

Definition split (s : string) : list string := split_from None s.

Fixpoint startswith (s p : string) : bool :=
  match p, s with
  | EmptyString, _ => true
  | String a p', String b s' => if Ascii.eqb a b then startswith s' p' else false
  | String _ _, EmptyString => false
  end.

Definition endswith (s p : string) : bool :=
  let n := String.length s in
  let k := String.length p in
  (k <=? n)%nat && String.eqb (String.substring (n - k) k s) p.

(** [p in s] for two strings: [p] occurs in [s]. *)
Fixpoint contains (s p : string) : bool :=
  startswith s p ||
  match s with
  | EmptyString => false
  | String _ s' => contains s' p
  end.

(** The text without the characters at its two ends that satisfy [p]. *)
Fixpoint lstrip (p : ascii -> bool) (s : string) : string :=
  match s with
  | String c s' => if p c then lstrip p s' else s
  | EmptyString => EmptyString
  end.

Fixpoint rev_string (acc s : string) : string :=
  match s with
  | EmptyString => acc
  | String c s' => rev_string (String c acc) s'
  end.

Definition strip (p : ascii -> bool) (s : string) : string :=
  rev_string EmptyString (lstrip p (rev_string EmptyString (lstrip p s))).

(** A token: what [split] returns as one piece. *)
Fixpoint no_space (s : string) : bool :=
  match s with
  | EmptyString => true
  | String c s' => negb (isspace c) && no_space s'
  end.

Definition is_token (s : string) : bool :=
  negb (String.eqb s EmptyString) && no_space s.

(** [sep.join(l)]. *)
Fixpoint join (sep : string) (l : list string) : string :=
  match l with
  | [] => EmptyString
  | [x] => x
  | x :: l' => x +:+ sep +:+ join sep l'
  end.

End PyStr.

(* ===================================================================== *)
(** * Python floats                                                       *)
(* ===================================================================== *)

Module PyFloat.

Definition prec : Z := 53.
Definition emax : Z := 1024.

Abbreviation float := spec_float.

Definition fzero : float := S754_zero false.
Definition fone : float := S754_finite false 4503599627370496 (-52).

Definition fmul : float -> float -> float := SFmul prec emax.
Definition fdiv : float -> float -> float := SFdiv prec emax.

(** The comparisons of two floats; each one is false when an operand is
    a NaN. *)
Definition flt (x y : float) : bool := SFltb x y.
Definition fle (x y : float) : bool := SFleb x y.
Definition fgt (x y : float) : bool := SFltb y x.

Definition is_zero (x : float) : bool :=
  match x with S754_zero _ => true | _ => false end.

Definition is_nan (x : float) : bool :=
  match x with S754_nan => true | _ => false end.

(** The float nearest to [n / d] (ties to even), with sign [s]. *)
Definition of_ratio (s : bool) (n d : positive) : float :=
  let '(q, e, l) := SFdiv_core_binary prec emax (Zpos n) 0 (Zpos d) 0 in
  binary_round_aux prec emax s q e l.

(** The float nearest to [m * 10 ^ e], with sign [s]. *)
Definition of_decimal (s : bool) (m : Z) (e : Z) : float :=
  match m with
  | Zpos p =>
      if 0 <=? e then of_ratio s (p * Z.to_pos (10 ^ e)) 1
      else of_ratio s p (Z.to_pos (10 ^ (- e)))
  | _ => S754_zero s
  end.

(** ** [float(s)] for a string [s]

    The text is stripped of blanks; an underscore may stand between two
    digits; what is left is an optional sign followed by a decimal
    number with an optional exponent, or by [inf], [infinity] or [nan]
    in any letter case.  [None] is the [ValueError]. *)

(** The blanks [float] strips: the white space of [str.isspace] without
    the four separators U+001C to U+001F. *)
Definition is_blank (c : ascii) : bool :=
  PyStr.between 9 13 c || (PyStr.ord c =? 32)
  || (PyStr.ord c =? 133) || (PyStr.ord c =? 160).

(** Underscores: allowed after a digit and before a digit only. *)
Fixpoint drop_underscores (prev : option ascii) (s : string) : option string :=
  match s with
  | EmptyString =>
      match prev with
      | Some "_"%char => None
      | _ => Some EmptyString
      end
  | String c s' =>
      if Ascii.eqb c "_" then
        match prev with
        | Some p => if PyStr.isdigit p then drop_underscores (Some c) s' else None
        | None => None
        end
      else
        match prev with
        | Some "_"%char =>
            if PyStr.isdigit c
            then String c <$> drop_underscores (Some c) s'
            else None
        | _ => String c <$> drop_underscores (Some c) s'
        end
  end.

(** Reads a run of digits: its value continuing [acc], how many digits
    there were, and the rest. *)
Fixpoint digits (acc : Z) (n : Z) (s : string) : Z * Z * string :=
  match s with
  | String c s' =>
      if PyStr.isdigit c then digits (10 * acc + PyStr.digit_val c) (n + 1) s'
      else (acc, n, s)
  | EmptyString => (acc, n, s)
  end.

Definition sign (s : string) : bool * string :=
  match s with
  | String "-" s' => (true, s')
  | String "+" s' => (false, s')
  | _ => (false, s)
  end.

(** The exponent part, which must reach the end of the text. *)
Definition exponent (s : string) : option Z :=
  match s with
  | EmptyString => Some 0
  | String c s' =>
      if Ascii.eqb c "e" || Ascii.eqb c "E" then
        let '(neg, s1) := sign s' in
        let '(v, n, rest) := digits 0 0 s1 in
        if (0 <? n) && String.eqb rest EmptyString
        then Some (if neg then - v else v)
        else None
      else None
  end.

(** The mantissa as an integer and the power of ten it is scaled by. *)
Definition decimal (s : string) : option (Z * Z) :=
  let '(i, ni, s1) := digits 0 0 s in
  let '(m, nf, s2) :=
    match s1 with
    | String "." s1' => digits i 0 s1'
    | _ => (i, 0, s1)
    end in
  if 0 <? ni + nf then
    e ← exponent s2; Some (m, e - nf)
  else None.

Definition inf_or_nan (neg : bool) (s : string) : option float :=
  let l := PyStr.lower s in
  if String.eqb l "inf" || String.eqb l "infinity" then Some (S754_infinity neg)
  else if String.eqb l "nan" then Some S754_nan
  else None.

Definition py_float (s : string) : option float :=
  t ← drop_underscores None (PyStr.strip is_blank s);
  let '(neg, body) := sign t in
  match decimal body with
  | Some (m, e) => Some (of_decimal neg m e)
  | None => inf_or_nan neg body
  end.

End PyFloat.

(* ===================================================================== *)
(** * Dates                                                               *)
(* ===================================================================== *)

Module PyTime.

Definition is_leap (y : Z) : bool :=
  (y mod 4 =? 0) && (negb (y mod 100 =? 0) || (y mod 400 =? 0)).

Definition days_in_month (y m : Z) : Z :=
  if (m =? 2) then (if is_leap y then 29 else 28)
  else if (m =? 4) || (m =? 6) || (m =? 9) || (m =? 11) then 30
  else 31.

(** ** [datetime.datetime.strptime(s, '%Y-%m-%d')]

    The format is compiled to the regular expression
    [(\d\d\d\d)-(1[0-2]|0[1-9]|[1-9])-(3[01]|[12]\d|0[1-9]|[1-9]| [1-9])],
    matched at the start of the text; the match must end where the text
    ends, and the three numbers must name a day of the calendar (years
    from 1).  A group is the list of the ways it matches, in the order
    the expression tries them; each way is the number read and the rest
    of the text. *)

Definition two (p q : ascii -> bool) (s : string) : list (Z * string) :=
  match s with
  | String a (String b r) =>
      if p a && q b then [(10 * PyStr.digit_val a + PyStr.digit_val b, r)] else []
  | _ => []
  end.

Definition one (p : ascii -> bool) (s : string) : list (Z * string) :=
  match s with
  | String a r => if p a then [(PyStr.digit_val a, r)] else []
  | _ => []
  end.

Definition year_group (s : string) : list (Z * string) :=
  match s with
  | String a (String b (String c (String d r))) =>
      if PyStr.isdigit a && PyStr.isdigit b && PyStr.isdigit c && PyStr.isdigit d
      then [(1000 * PyStr.digit_val a + 100 * PyStr.digit_val b
             + 10 * PyStr.digit_val c + PyStr.digit_val d, r)]
      else []
  | _ => []
  end.

Definition month_group (s : string) : list (Z * string) :=
  two (Ascii.eqb "1") (PyStr.between 48 50) s
  ++ two (Ascii.eqb "0") (PyStr.between 49 57) s
  ++ one (PyStr.between 49 57) s.

Definition day_group (s : string) : list (Z * string) :=
  two (Ascii.eqb "3") (PyStr.between 48 49) s
  ++ two (PyStr.between 49 50) PyStr.isdigit s
  ++ two (Ascii.eqb "0") (PyStr.between 49 57) s
  ++ one (PyStr.between 49 57) s
  ++ match s with
     | String " " r => one (PyStr.between 49 57) r
     | _ => []
     end.

Definition dash (s : string) : list string :=
  match s with
  | String "-" r => [r]
  | _ => []
  end.

(** The first match of the whole expression. *)
Definition match_ymd (s : string) : option (Z * Z * Z * string) :=
  head
    ('(y, r0) ← year_group s; r1 ← dash r0;
     '(m, r2) ← month_group r1; r3 ← dash r2;
     '(d, r4) ← day_group r3;
     [(y, m, d, r4)]).

(** The date read, or [None] for the [ValueError]. *)
Definition strptime_ymd (s : string) : option (Z * Z * Z) :=
  match match_ymd s with
  | Some (y, m, d, rest) =>
      if String.eqb rest EmptyString && (1 <=? y) && (d <=? days_in_month y m)
      then Some (y, m, d)
      else None
  | None => None
  end.

End PyTime.

(* ===================================================================== *)
(** * Python values                                                       *)
(* ===================================================================== *)

(** The values a configuration can hold: what the literals of the shell
    and [json.load] build.  A [dict] keeps its items in insertion order. *)
Inductive pyval :=
  | VNone
  | VBool (b : bool)
  | VInt (n : Z)
  | VFloat (x : PyFloat.float)
  | VStr (s : string)
  | VList (l : list pyval)
  | VDict (d : list (string * pyval)).

Abbreviation items := (list (string * pyval)).

Module Dict.

Fixpoint get (k : string) (d : items) : option pyval :=
  match d with
  | [] => None
  | (k', v) :: d' => if String.eqb k' k then Some v else get k d'
  end.

Definition has (k : string) (d : items) : bool :=
  match get k d with Some _ => true | None => false end.

(** [d[k] = v]: the value of an existing key is replaced in place, a new
    key is added at the end. *)
Fixpoint set (k : string) (v : pyval) (d : items) : items :=
  match d with
  | [] => [(k, v)]
  | (k', v') :: d' =>
      if String.eqb k' k then (k', v) :: d' else (k', v') :: set k v d'
  end.

Definition keys (d : items) : list string := map fst d.

(** [dict(pairs)]: later pairs overwrite earlier ones. *)
Definition of_pairs (l : items) : items :=
  fold_left (fun d kv => set (fst kv) (snd kv) d) l [].

End Dict.

(** Python exceptions that the modelled code can meet. *)
Inductive exn :=
  | ValueError
  | TypeError
  | AttributeError
  | ZeroDivisionError
  | FileNotFoundError
  | PermissionError
  | IsADirectoryError
  | NotADirectoryError
  | UnicodeDecodeError
  | OSError.

(** [json.dump(obj, f, indent=4)] writes the text [json_dumps obj];
    [json.load(f)] of a file holding [text] returns [v] when
    [json_loads text = Some v] and raises [json.JSONDecodeError] when it
    is [None]. *)
Class Json := {
  json_dumps : pyval -> string;
  json_loads : string -> option pyval
}.

(* ===================================================================== *)
(** * Files                                                               *)
(* ===================================================================== *)

Module Disk.

(** A disk maps the path of a file or a directory to what is there.  The
    paths that are its keys are written from the working directory, or
    from the root with a leading slash, without empty, [.] or [..]
    components, as in [crypto_journey/crypto_config.json].  A directory
    is there when the disk says so, or when the disk holds something
    below it; the working directory, the root and the directories above
    the working directory are always there.

    The disk is that of a POSIX system with names of at most 255 bytes
    and paths of less than 4096.  It has no links, and every directory
    can be searched and written to.  The name of the working directory
    is not known: a path that leaves the working directory and comes
    back into it by that name, or a path from the root that leads into
    it, is the key of another place. *)
Inductive node :=
  | File (text : string)       (* a regular file, readable and writable *)
  | ReadOnly (text : string)   (* a regular file that cannot be written *)
  | Undecodable                (* a regular file whose bytes are no text *)
  | Directory.                 (* a directory *)

Inductive kind :=
  | Regular
  | Folder
  | Nothing.

Definition has_nul (path : string) : bool :=
  PyStr.contains path (String (PyStr.chr 0) EmptyString).

(** The number of bytes of a path in UTF-8. *)
Fixpoint byte_length (s : string) : Z :=
  match s with
  | EmptyString => 0
  | String c s' => (if PyStr.ord c <? 128 then 1 else 2) + byte_length s'
  end.

(** The components of a path: what stands between its slashes. *)
Fixpoint components (path : string) : list string :=
  match path with
  | EmptyString => [EmptyString]
  | String c path' =>
      if Ascii.eqb c "/" then EmptyString :: components path'
      else match components path' with
           | w :: ws => String c w :: ws
           | [] => [String c EmptyString]
           end
  end.

(** The key of the place reached by the names of [stack], from the root
    or from the working directory. *)
Definition key (absolute : bool) (stack : list string) : string :=
  (if absolute then "/" else EmptyString) +:+ PyStr.join "/" stack.

(** The directory above the one reached by [stack]. *)
Definition parent (absolute : bool) (stack : list string) : list string :=
  match last stack with
  | None => if absolute then [] else [".."]
  | Some name =>
      if String.eqb name ".." then stack ++ [".."] else removelast stack
  end.

(** The places that are always there: the working directory, the root
    and the directories above the working directory. *)
Definition is_above (k : string) : bool :=
  String.eqb k EmptyString || String.eqb k "/"
  || forallb (String.eqb "..") (components k).

(** The disk holds something below [k]. *)
Definition has_below (k : string) (disk : gmap string node) : bool :=
  existsb (fun kv => PyStr.startswith (fst kv) (k +:+ "/")) (map_to_list disk).

Definition kind_of (k : string) (disk : gmap string node) : kind :=
  if is_above k then Folder
  else match disk !! k with
       | Some Directory => Folder
       | Some _ => Regular
       | None => if has_below k disk then Folder else Nothing
       end.

(** Follows the components of a path from the place reached by [stack]:
    every component that another one follows must name a directory.
    [create] tells that the path is opened to be written, when a name
    that only slashes follow is refused as a directory. *)
Fixpoint walk (disk : gmap string node) (create absolute : bool)
    (stack comps : list string) : exn + list string :=
  match comps with
  | [] => inr stack
  | c :: rest =>
      if String.eqb c EmptyString || String.eqb c "." then
        walk disk create absolute stack rest
      else if String.eqb c ".." then
        walk disk create absolute (parent absolute stack) rest
      else
        match rest with
        | [] => if 255 <? byte_length c then inl OSError else inr (stack ++ [c])
        | _ =>
            if create && forallb (String.eqb EmptyString) rest
            then inl IsADirectoryError
            else if 255 <? byte_length c then inl OSError
            else
              match kind_of (key absolute (stack ++ [c])) disk with
              | Folder => walk disk create absolute (stack ++ [c]) rest
              | Regular => inl NotADirectoryError
              | Nothing => inl FileNotFoundError
              end
        end
  end.

(** The key of the place a path names, or the exception that the
    look-up of the path raises. *)
Definition resolve (create : bool) (path : string) (disk : gmap string node)
  : exn + string :=
  if has_nul path then inl ValueError
  else if String.eqb path EmptyString then inl FileNotFoundError
  else if 4096 <=? byte_length path then inl OSError
  else
    let absolute := PyStr.startswith path "/" in
    match walk disk create absolute [] (components path) with
    | inl e => inl e
    | inr stack => inr (key absolute stack)
    end.

(** [open(path, 'r')] followed by reading the whole file. *)
Definition read (path : string) (disk : gmap string node) : exn + string :=
  match resolve false path disk with
  | inl e => inl e
  | inr k =>
      match kind_of k disk with
      | Folder => inl IsADirectoryError
      | Nothing => inl FileNotFoundError
      | Regular =>
          match disk !! k with
          | Some (File text) | Some (ReadOnly text) => inr text
          | _ => inl UnicodeDecodeError
          end
      end
  end.

(** [open(path, 'w')] followed by writing [text] and closing. *)
Definition write (path text : string) (disk : gmap string node)
  : exn + gmap string node :=
  match resolve true path disk with
  | inl e => inl e
  | inr k =>
      match kind_of k disk with
      | Folder => inl IsADirectoryError
      | Nothing => inr (<[k := File text]> disk)
      | Regular =>
          match disk !! k with
          | Some (ReadOnly _) => inl PermissionError
          | _ => inr (<[k := File text]> disk)
          end
      end
  end.

(** [os.path.join(a, b)] with POSIX paths, for [a] not empty and not
    ending in a slash. *)
Definition path_join (a b : string) : string :=
  if PyStr.startswith b "/" then b else a +:+ "/" +:+ b.

End Disk.

(* ===================================================================== *)
(** * crypto_shell.py                                                     *)
(* ===================================================================== *)

Module CryptoShell.

Import PyFloat.

(** One constructor for each [print] of the four handlers. *)
Inductive message :=
  | MsgCurrentConfiguration                         (* "Current configuration:" *)
  | MsgItem (key : string) (value : pyval)          (* "{key}: {value}" *)
  | ErrMissingParameter                             (* "Error: Missing parameter name or value" *)
  | MsgUsage                                        (* "Usage: set_parameter <name> <value>" *)
  | ErrUnknownExchange (value : string)             (* "Error: Unknown exchange: {value}" *)
  | MsgUseListExchanges                             (* "Use 'list_exchanges' to see available options." *)
  | ErrUnknownStrategy (value : string)             (* "Error: Unknown strategy: {value}" *)
  | MsgUseListStrategies                            (* "Use 'list_strategies' to see available options." *)
  | ErrCashAtRiskRange                              (* "Error: cash_at_risk must be between 0 and 1" *)
  | ErrCashAtRiskFloat                              (* "Error: cash_at_risk must be a float value" *)
  | ErrDateFormat                                   (* "Error: Invalid date format. Use YYYY-MM-DD" *)
  | MsgParameterSet (name : string) (value : pyval) (* "Parameter {name} set to {value}" *)
  | ErrUnknownParameter (name : string)             (* "Error: Unknown parameter: {name}" *)
  | MsgAvailableParameters (names : string)         (* "Available parameters: " + names *)
  | MsgSaved (filename : string)                    (* "Configuration saved to {filename}" *)
  | ErrSaving (e : exn)                             (* "Error saving configuration: {e}" *)
  | MsgLoaded (filename : string)                   (* "Configuration loaded from {filename}" *)
  | ErrFileNotFound (filename : string)             (* "Error: File not found: {filename}" *)
  | ErrInvalidJson (filename : string)              (* "Error: Invalid JSON format in {filename}" *)
  | ErrLoading (e : exn).                           (* "Error loading configuration: {e}" *)

(** The messages printed in red that start with [Error]. *)
Definition is_error (m : message) : bool :=
  match m with
  | ErrMissingParameter | ErrUnknownExchange _ | ErrUnknownStrategy _
  | ErrCashAtRiskRange | ErrCashAtRiskFloat | ErrDateFormat
  | ErrUnknownParameter _ | ErrSaving _ | ErrLoading _
  | ErrFileNotFound _ | ErrInvalidJson _ => true
  | _ => false
  end.

(** The shell: its [config] attribute and the files it can reach.  The
    attribute starts as the dictionary of the class, which
    [do_set_parameter] updates in place, and [do_load_config] rebinds it
    on the instance; the program has one shell, so one value stands for
    both. *)
Record shell := {
  config : pyval;
  disk : gmap string Disk.node
}.

(** What running a handler shows: the lines printed, and the exception
    that left the handler, if one did. *)
Record outcome := {
  printed : list message;
  raised : option exn
}.

Definition returns (out : list message) : outcome :=
  {| printed := out; raised := None |}.

Definition raises (out : list message) (e : exn) : outcome :=
  {| printed := out; raised := Some e |}.

Definition surfaces_error (o : outcome) : bool :=
  existsb is_error (printed o) || bool_decide (is_Some (raised o)).

Definition default_config : pyval :=
  VDict [ ("exchange", VStr "coinbase");
          ("strategy", VStr "random");
          ("coin", VStr "BTC");
          ("quote", VStr "USD");
          ("cash_at_risk", VFloat (S754_finite false 4503599627370496 (-54)));
          ("start_date", VStr "2023-06-01");
          ("end_date", VStr "2023-12-31");
          ("min_timestep", VStr "day") ].

Definition available_exchanges : list string :=
  ["coinbase"; "kraken"; "binance"; "bitfinex"].

Definition available_strategies : list string :=
  ["random"; "sma_crossover"; "rsi_strategy"; "sentiment_based"].

Definition start (files : gmap string Disk.node) : shell :=
  {| config := default_config; disk := files |}.

(** [x in l] for a string and a list of strings. *)
Definition str_in (x : string) (l : list string) : bool :=
  existsb (String.eqb x) l.

(** [name in config]; [None] is the [TypeError] of a value that is not a
    container. *)
Definition py_in (name : string) (c : pyval) : option bool :=
  match c with
  | VDict d => Some (Dict.has name d)
  | VList l =>
      Some (existsb (fun v => match v with
                              | VStr s => String.eqb name s
                              | _ => false
                              end) l)
  | VStr s => Some (PyStr.contains s name)
  | _ => None
  end.

(** [config[name] = value]; [None] is the [TypeError] of a value that
    has no item assignment by a string. *)
Definition py_setitem (c : pyval) (name : string) (value : pyval) : option pyval :=
  match c with
  | VDict d => Some (VDict (Dict.set name value d))
  | _ => None
  end.

(** ** [do_show_config] *)
Definition do_show_config (arg : string) (sh : shell) : shell * outcome :=
  match config sh with
  | VDict d =>
      (sh, returns (MsgCurrentConfiguration :: map (fun kv => MsgItem (fst kv) (snd kv)) d))
  | _ => (sh, raises [MsgCurrentConfiguration] AttributeError)
  end.

(** ** [do_set_parameter]

    The validation of lines 115 to 140: the messages of a rejection, or
    the value that goes on to the update. *)
Inductive checked :=
  | Rejected (out : list message)
  | Passed (param_value : pyval).

Definition validate (param_name param_value : string) : checked :=
  if String.eqb param_name "exchange" then
    if negb (str_in param_value available_exchanges)
    then Rejected [ErrUnknownExchange param_value; MsgUseListExchanges]
    else Passed (VStr param_value)
  else if String.eqb param_name "strategy" then
    if negb (str_in param_value available_strategies)
    then Rejected [ErrUnknownStrategy param_value; MsgUseListStrategies]
    else Passed (VStr param_value)
  else if String.eqb param_name "cash_at_risk" then
    match py_float param_value with
    | Some x =>
        if fle x fzero || fgt x fone
        then Rejected [ErrCashAtRiskRange]
        else Passed (VFloat x)
    | None => Rejected [ErrCashAtRiskFloat]
    end
  else if str_in param_name ["start_date"; "end_date"] then
    match PyTime.strptime_ymd param_value with
    | Some _ => Passed (VStr param_value)
    | None => Rejected [ErrDateFormat]
    end
  else Passed (VStr param_value).

(** Lines 142 to 148. *)
Definition update (param_name : string) (param_value : pyval) (sh : shell)
  : shell * outcome :=
  match py_in param_name (config sh) with
  | None => (sh, raises [] TypeError)
  | Some true =>
      match py_setitem (config sh) param_name param_value with
      | Some c =>
          ({| config := c; disk := disk sh |},
           returns [MsgParameterSet param_name param_value])
      | None => (sh, raises [] TypeError)
      end
  | Some false =>
      match config sh with
      | VDict d =>
          (sh, returns [ErrUnknownParameter param_name;
                        MsgAvailableParameters (PyStr.join ", " (Dict.keys d))])
      | _ => (sh, raises [ErrUnknownParameter param_name] AttributeError)
      end
  end.

Definition do_set_parameter (arg : string) (sh : shell) : shell * outcome :=
  match PyStr.split arg with
  | name :: param_value :: _ =>
      let param_name := PyStr.lower name in
      match validate param_name param_value with
      | Rejected out => (sh, returns out)
      | Passed v => update param_name v sh
      end
  | _ => (sh, returns [ErrMissingParameter; MsgUsage])
  end.

(** The file name of [do_save_config] and [do_load_config]. *)
Definition config_filename (arg : string) : string :=
  if String.eqb arg EmptyString then "crypto_config.json"
  else if PyStr.endswith arg ".json" then arg
  else arg +:+ ".json".

Definition config_path (arg : string) : string :=
  Disk.path_join "crypto_journey" (config_filename arg).

Section WithJson.

Context `{Json}.

(** ** [do_save_config] *)
Definition do_save_config (arg : string) (sh : shell) : shell * outcome :=
  let filename := config_filename arg in
  match Disk.write (Disk.path_join "crypto_journey" filename)
                   (json_dumps (config sh)) (disk sh) with
  | inr disk' =>
      ({| config := config sh; disk := disk' |}, returns [MsgSaved filename])
  | inl e => (sh, returns [ErrSaving e])
  end.

(** ** [do_load_config] *)
Definition do_load_config (arg : string) (sh : shell) : shell * outcome :=
  let filename := config_filename arg in
  match Disk.read (Disk.path_join "crypto_journey" filename) (disk sh) with
  | inr text =>
      match json_loads text with
      | Some v =>
          ({| config := v; disk := disk sh |}, returns [MsgLoaded filename])
      | None => (sh, returns [ErrInvalidJson filename])
      end
  | inl FileNotFoundError => (sh, returns [ErrFileNotFound filename])
  | inl e => (sh, returns [ErrLoading e])
  end.

(** ** Sequences of commands

    A command line of the four commands, and the loop that runs them:
    an exception that leaves a handler ends the loop. *)
Inductive command :=
  | ShowConfig (arg : string)
  | SetParameter (arg : string)
  | SaveConfig (arg : string)
  | LoadConfig (arg : string).

Definition exec (c : command) (sh : shell) : shell * outcome :=
  match c with
  | ShowConfig arg => do_show_config arg sh
  | SetParameter arg => do_set_parameter arg sh
  | SaveConfig arg => do_save_config arg sh
  | LoadConfig arg => do_load_config arg sh
  end.

Fixpoint run (cs : list command) (sh : shell) : shell :=
  match cs with
  | [] => sh
  | c :: cs' =>
      let '(sh', o) := exec c sh in
      match raised o with
      | Some _ => sh'
      | None => run cs' sh'
      end
  end.

Definition is_load (c : command) : bool :=
  match c with LoadConfig _ => true | _ => false end.

End WithJson.

(** The keys of the configuration, when it is a [dict]. *)
Definition config_keys (sh : shell) : option (list string) :=
  match config sh with
  | VDict d => Some (Dict.keys d)
  | _ => None
  end.

Definition eight_keys : list string :=
  ["exchange"; "strategy"; "coin"; "quote"; "cash_at_risk";
   "start_date"; "end_date"; "min_timestep"].

End CryptoShell.

(* ===================================================================== *)
(** * randobot.py                                                         *)
(* ===================================================================== *)

Module Randobot.

Import PyFloat.

(** [Asset(symbol=..., asset_type=...)]; [Asset.AssetType.CRYPTO] is the
    string [crypto]. *)
Record asset := {
  symbol : string;
  asset_type : string
}.

Definition crypto (sym : string) : asset :=
  {| symbol := sym; asset_type := "crypto" |}.

(** What [create_order(asset, quantity, side, type=..., quote=...)] is
    asked to build. *)
Record order := {
  order_asset : asset;
  order_quantity : float;
  order_side : string;
  order_type : string;
  order_quote : asset
}.

(** What one iteration does to the world outside the strategy, in the
    order it does it: calls of the framework, the draw of the random
    module, and lines printed. *)
Inductive event :=
  | GetCash                               (* self.get_cash() *)
  | GetLastPrice (base quote : asset)     (* self.get_last_price(base, quote=quote) *)
  | PrintWarning (coin quote : string)    (* print("Warning: Could not get price for ...") *)
  | RandomChoice (options : list Z)       (* random.choice(options) *)
  | SellAll                               (* self.sell_all() *)
  | CreateOrder (o : order)               (* self.create_order(...) *)
  | PrintOrder (o : order)                (* print(... str(order) ...) *)
  | SubmitOrder (o : order).              (* self.submit_order(order) *)

(** The calls that trade: liquidation and orders. *)
Definition is_trade (e : event) : bool :=
  match e with
  | SellAll | CreateOrder _ | SubmitOrder _ => true
  | _ => false
  end.

(** The attributes of the strategy set by [initialize]. *)
Record trader := {
  sleeptime : string;
  last_trade : option string;
  cash_at_risk : float;
  coin : string;
  quote : string
}.

(** [initialize(cash_at_risk, coin, quote)]; the framework passes the
    parameters of the run ([0.2], [BTC] and [USDT] when it has none). *)
Definition initialize (cash_at_risk : float) (coin quote : string) : trader :=
  {| sleeptime := "1D"; last_trade := None;
     cash_at_risk := cash_at_risk; coin := coin; quote := quote |}.

Definition set_last_trade (self : trader) (side : string) : trader :=
  {| sleeptime := sleeptime self; last_trade := Some side;
     cash_at_risk := cash_at_risk self; coin := coin self; quote := quote self |}.

(** What the world answers during one iteration: the cash and the last
    price the framework reports ([None] when it has no price), and the
    number [random.choice] returns if it is called. *)
Record tick := {
  cash : float;
  last_price : option float;
  choice : Z
}.

(** The two questions [position_sizing] puts to the framework. *)
Definition asked (self : trader) : list event :=
  [GetCash; GetLastPrice (crypto (coin self)) (crypto (quote self))].

(** [a / b] on floats. *)
Definition truediv (a b : float) : exn + float :=
  if is_zero b then inl ZeroDivisionError else inr (fdiv a b).

(** ** [position_sizing]

    The quantity of the branch without a price is the integer [0] in the
    source; it is only ever compared with [0], and is the float zero
    here. *)
Definition position_sizing (self : trader) (env : tick)
  : list event * (exn + float * option float * float) :=
  match last_price env with
  | None =>
      (asked self ++ [PrintWarning (coin self) (quote self)],
       inr (cash env, None, fzero))
  | Some p =>
      match truediv (fmul (cash env) (cash_at_risk self)) p with
      | inr quantity => (asked self, inr (cash env, Some p, quantity))
      | inl e => (asked self, inl e)
      end
  end.

Definition market_order (self : trader) (quantity : float) (side : string) : order :=
  {| order_asset := crypto (coin self);
     order_quantity := quantity;
     order_side := side;
     order_type := "market";
     order_quote := crypto (quote self) |}.

(** ** [on_trading_iteration]

    The strategy after the iteration, the events of the iteration and
    the exception that left it, if one did. *)
Definition on_trading_iteration (self : trader) (env : tick)
  : trader * list event * option exn :=
  match position_sizing self env with
  | (evs, inl e) => (self, evs, Some e)
  | (evs, inr (cash, None, quantity)) => (self, evs, None)
  | (evs, inr (cash, Some last_price, quantity)) =>
      if fgt quantity fzero then
        if fgt cash (fmul quantity last_price) then
          let evs := evs ++ [RandomChoice [0; 1; 2]] in
          if choice env =? 0 then
            (self, evs, None)
          else if choice env =? 1 then
            let evs :=
              if bool_decide (last_trade self = Some "sell")
              then evs ++ [SellAll] else evs in
            let order := market_order self quantity "buy" in
            (set_last_trade self "buy",
             evs ++ [CreateOrder order; PrintOrder order; SubmitOrder order],
             None)
          else if choice env =? 2 then
            let evs :=
              if bool_decide (last_trade self = Some "buy")
              then evs ++ [SellAll] else evs in
            let order := market_order self quantity "sell" in
            (set_last_trade self "sell",
             evs ++ [CreateOrder order; PrintOrder order; SubmitOrder order],
             None)
          else (self, evs, None)
        else (self, evs, None)
      else (self, evs, None)
  end.

End Randobot.

(* ===================================================================== *)
(** * The json module                                                     *)
(* ===================================================================== *)

(** [json.dumps(v, indent=4)] and [json.loads(text)] of the Python
    library, on the strings of this development.  An escape [\uXXXX] for a
    code point from 256 on names a character these strings do not have;
    the reader refuses it.  The limits of the interpreter (the depth of
    recursion, the number of digits of an integer) are not modelled. *)
Module PyJson.

Import PyFloat.

Definition dquote : ascii := PyStr.chr 34.
Definition backslash : ascii := PyStr.chr 92.
Definition newline : ascii := PyStr.chr 10.

Definition str1 (c : ascii) : string := String c EmptyString.

(** ** Reading *)

Definition is_ws (c : ascii) : bool :=
  (PyStr.ord c =? 32) || (PyStr.ord c =? 9) || (PyStr.ord c =? 10) || (PyStr.ord c =? 13).

Fixpoint skip_ws (s : string) : string :=
  match s with
  | String c s' => if is_ws c then skip_ws s' else s
  | EmptyString => s
  end.

Definition hex_val (c : ascii) : option Z :=
  if PyStr.isdigit c then Some (PyStr.ord c - 48)
  else if PyStr.between 97 102 c then Some (PyStr.ord c - 87)
  else if PyStr.between 65 70 c then Some (PyStr.ord c - 55)
  else None.

(** The character a one-letter escape stands for. *)
Definition unescape (c : ascii) : option ascii :=
  if Ascii.eqb c dquote then Some dquote
  else if Ascii.eqb c backslash then Some backslash
  else if Ascii.eqb c "/" then Some "/"%char
  else if Ascii.eqb c "b" then Some (PyStr.chr 8)
  else if Ascii.eqb c "f" then Some (PyStr.chr 12)
  else if Ascii.eqb c "n" then Some (PyStr.chr 10)
  else if Ascii.eqb c "r" then Some (PyStr.chr 13)
  else if Ascii.eqb c "t" then Some (PyStr.chr 9)
  else None.

(** The string that begins after an opening quote, and what follows its
    closing quote.  An escape [\uXXXX] from 0100 on is refused, since no
    string here can hold the character it names: a text with such an
    escape is outside this model, which [json.dumps] never writes for
    the strings of this development. *)
Fixpoint scan_string (s : string) : option (string * string) :=
  match s with
  | EmptyString => None
  | String c s' =>
      if Ascii.eqb c dquote then Some (EmptyString, s')
      else if Ascii.eqb c backslash then
        match s' with
        | String "u" (String h1 (String h2 (String h3 (String h4 r)))) =>
            a ← hex_val h1; b ← hex_val h2; c ← hex_val h3; d ← hex_val h4;
            let n := 4096 * a + 256 * b + 16 * c + d in
            if n <? 256 then
              '(t, r') ← scan_string r; Some (String (PyStr.chr n) t, r')
            else None
        | String e r =>
            ch ← unescape e;
            '(t, r') ← scan_string r; Some (String ch t, r')
        | EmptyString => None
        end
      else if PyStr.ord c <? 32 then None
      else '(t, r') ← scan_string s'; Some (String c t, r')
  end.

(** The integer part of a number: a zero, or a run of digits. *)
Definition int_part (s : string) : Z * Z * string :=
  match s with
  | String "0" r => (0, 1, r)
  | _ => digits 0 0 s
  end.

(** The fraction that continues the digits [i]: a point and at least
    one digit. *)
Definition frac_part (i : Z) (s : string) : Z * Z * string :=
  match s with
  | String "." r =>
      let '(m, n, r') := digits i 0 r in
      if 0 <? n then (m, n, r') else (i, 0, s)
  | _ => (i, 0, s)
  end.

(** The exponent: [e] or [E], a sign or none, and at least one digit. *)
Definition exp_part (s : string) : Z * Z * string :=
  match s with
  | String x r =>
      if Ascii.eqb x "e" || Ascii.eqb x "E" then
        let '(eneg, r1) := sign r in
        let '(v, n, r2) := digits 0 0 r1 in
        if 0 <? n then ((if eneg then - v else v), n, r2) else (0, 0, s)
      else (0, 0, s)
  | EmptyString => (0, 0, s)
  end.

(** A number at the start of the text: the integer part, then a
    fraction and an exponent when they are complete. *)
Definition scan_number (s : string) : option (pyval * string) :=
  let '(neg, s0) :=
    match s with
    | String "-" r => (true, r)
    | _ => (false, s)
    end in
  match s0 with
  | String c _ =>
      if PyStr.isdigit c then
        let '(i, _, s1) := int_part s0 in
        let '(m, nf, s2) := frac_part i s1 in
        let '(e, ne, s3) := exp_part s2 in
        if (0 <? nf) || (0 <? ne)
        then Some (VFloat (of_decimal neg m (e - nf)), s3)
        else Some (VInt (if neg then - i else i), s3)
      else None
  | EmptyString => None
  end.

Definition after (word s : string) : option string :=
  if PyStr.startswith s word
  then Some (String.substring (String.length word)
                              (String.length s - String.length word) s)
  else None.

Definition scan_word (s : string) : option (pyval * string) :=
  match scan_number s with
  | Some r => Some r
  | None =>
      match after "null" s, after "true" s, after "false" s with
      | Some r, _, _ => Some (VNone, r)
      | _, Some r, _ => Some (VBool true, r)
      | _, _, Some r => Some (VBool false, r)
      | _, _, _ =>
          match after "NaN" s, after "Infinity" s, after "-Infinity" s with
          | Some r, _, _ => Some (VFloat S754_nan, r)
          | _, Some r, _ => Some (VFloat (S754_infinity false), r)
          | _, _, Some r => Some (VFloat (S754_infinity true), r)
          | _, _, _ => None
          end
      end
  end.

(** A value at the start of the text; [members] and [elements] read what
    follows the opening bracket of a non-empty object or array. *)
Fixpoint value (fuel : nat) (s : string) : option (pyval * string) :=
  match fuel with
  | O => None
  | S f =>
      match s with
      | EmptyString => None
      | String c r =>
          if Ascii.eqb c dquote then
            '(t, r1) ← scan_string r; Some (VStr t, r1)
          else if Ascii.eqb c "{" then
            match skip_ws r with
            | String "}" r1 => Some (VDict [], r1)
            | r1 => '(l, r2) ← members f r1; Some (VDict (Dict.of_pairs l), r2)
            end
          else if Ascii.eqb c "[" then
            match skip_ws r with
            | String "]" r1 => Some (VList [], r1)
            | r1 => '(l, r2) ← elements f r1; Some (VList l, r2)
            end
          else scan_word s
      end
  end
with members (fuel : nat) (s : string) : option (items * string) :=
  match fuel with
  | O => None
  | S f =>
      match s with
      | String c r =>
          if Ascii.eqb c dquote then
            '(k, r1) ← scan_string r;
            match skip_ws r1 with
            | String ":" r2 =>
                '(v, r3) ← value f (skip_ws r2);
                match skip_ws r3 with
                | String "}" r4 => Some ([(k, v)], r4)
                | String "," r4 =>
                    '(l, r5) ← members f (skip_ws r4); Some ((k, v) :: l, r5)
                | _ => None
                end
            | _ => None
            end
          else None
      | EmptyString => None
      end
  end
with elements (fuel : nat) (s : string) : option (list pyval * string) :=
  match fuel with
  | O => None
  | S f =>
      '(v, r1) ← value f s;
      match skip_ws r1 with
      | String "]" r2 => Some ([v], r2)
      | String "," r2 =>
          '(l, r3) ← elements f (skip_ws r2); Some (v :: l, r3)
      | _ => None
      end
  end.

Definition loads (text : string) : option pyval :=
  '(v, r) ← value (S (String.length text)) (skip_ws text);
  if String.eqb (skip_ws r) EmptyString then Some v else None.

(** ** Writing *)

Definition digit_char (n : Z) : ascii := PyStr.chr (48 + n).

Fixpoint digits_of (fuel : nat) (n : Z) (acc : string) : string :=
  match fuel with
  | O => acc
  | S f =>
      let acc' := String (digit_char (n mod 10)) acc in
      if n <? 10 then acc' else digits_of f (n / 10) acc'
  end.

(** The decimal digits of [n >= 0]. *)
Definition decimal_digits (n : Z) : string :=
  digits_of (S (Z.to_nat (Z.log2 n))) n EmptyString.

Definition repr_int (n : Z) : string :=
  if n <? 0 then String "-" (decimal_digits (- n)) else decimal_digits n.

Fixpoint repeat_char (c : ascii) (n : nat) : string :=
  match n with
  | O => EmptyString
  | S n' => String c (repeat_char c n')
  end.

(** [n] without the zeros at its end, their number added to [z]. *)
Fixpoint strip_zeros (fuel : nat) (n z : Z) : Z * Z :=
  match fuel with
  | O => (n, z)
  | S f =>
      if (0 <? n) && (n mod 10 =? 0) then strip_zeros f (n / 10) (z + 1)
      else (n, z)
  end.

(** The digits and the exponent that are written for [D * 10 ^ q]: the
    digits without zeros at their end. *)
Definition written (D q : Z) : Z * Z :=
  strip_zeros (S (Z.to_nat (Z.log2 D))) D q.

(** The text of the positive number [D * 10 ^ q], for digits [D] that do
    not end in a zero: with an exponent when the decimal point is more
    than 16 places or less than -3 places after the first digit, and
    with a point and at least one digit after it otherwise. *)
Definition float_text (D q : Z) : string :=
  let ds := decimal_digits D in
  let len := Z.of_nat (String.length ds) in
  let decpt := len + q in
  if (decpt <=? -4) || (16 <? decpt) then
    let e10 := decpt - 1 in
    let mant :=
      match ds with
      | String c EmptyString => str1 c
      | String c rest => String c (String "." rest)
      | EmptyString => EmptyString
      end in
    let ex := decimal_digits (Z.abs e10) in
    mant +:+ "e" +:+ (if e10 <? 0 then "-" else "+")
         +:+ (if Z.abs e10 <? 10 then String "0" ex else ex)
  else if decpt <=? 0 then
    "0." +:+ repeat_char "0" (Z.to_nat (- decpt)) +:+ ds
  else if len <=? decpt then
    ds +:+ repeat_char "0" (Z.to_nat (decpt - len)) +:+ ".0"
  else
    String.substring 0 (Z.to_nat decpt) ds +:+ "."
      +:+ String.substring (Z.to_nat decpt) (Z.to_nat (len - decpt)) ds.

(** The mantissa and the power of ten that are read in [float_text D q]:
    the digits before and after the point, and the exponent less the
    number of digits after the point. *)
Definition text_pair (D q : Z) : Z * Z :=
  let len := Z.of_nat (String.length (decimal_digits D)) in
  if (0 <=? q) && (len + q <=? 16) then (D * 10 ^ (q + 1), -1) else (D, q).

(** The text written for [D * 10 ^ q] reads as [x], the sign apart. *)
Definition reads_as (x : float) (D q : Z) : bool :=
  let '(D', q') := written D q in
  let '(m, e) := text_pair D' q' in
  match of_decimal false m e, x with
  | S754_finite _ m1 e1, S754_finite _ m2 e2 => (Zpos m1 =? Zpos m2) && (e1 =? e2)
  | _, _ => false
  end.

(** [10 ^ k <= n / d]. *)
Definition ge_pow10 (n d k : Z) : bool :=
  if 0 <=? k then d * 10 ^ k <=? n else d <=? n * 10 ^ (- k).

(** The least [k] from [k0] on with [n / d < 10 ^ k]. *)
Fixpoint decpt_from (fuel : nat) (n d k : Z) : Z :=
  match fuel with
  | O => k
  | S f => if ge_pow10 n d k then decpt_from f n d (k + 1) else k
  end.

(** The shortest digits whose text reads as [x = n / d]: an integer [D]
    and an exponent [q], with [D * 10 ^ q] the nearest to [x] of the two
    numbers of that many digits around it when both read as [x].  [k]
    is the decimal point of [x] and [p] the number of digits tried.
    The digits of [x] written out in full read as [x], and the search
    need not go further. *)
Fixpoint shortest (fuel : nat) (x : float) (n d k p : Z) : Z * Z :=
  let q := k - p in
  let num := if 0 <=? - q then n * 10 ^ (- q) else n in
  let den := if 0 <=? - q then d else d * 10 ^ q in
  let lo := num / den in
  let r := num mod den in
  let ok_lo := reads_as x lo q in
  let ok_hi := reads_as x (lo + 1) q in
  let low_nearer := (2 * r <? den) || ((2 * r =? den) && Z.even lo) in
  if ok_lo && (negb ok_hi || low_nearer) then (lo, q)
  else if ok_hi then (lo + 1, q)
  else match fuel with
       | O => (lo, q)
       | S f => shortest f x n d k (p + 1)
       end.

(** [repr(x)] of a float, which is the shortest text that [float] reads
    as [x], with the names [json] gives to the values that are not
    numbers. *)
Definition repr_float (x : float) : string :=
  match x with
  | S754_nan => "NaN"
  | S754_infinity false => "Infinity"
  | S754_infinity true => "-Infinity"
  | S754_zero false => "0.0"
  | S754_zero true => "-0.0"
  | S754_finite s m e =>
      let n := if 0 <=? e then Zpos m * 2 ^ e else Zpos m in
      let d := if 0 <=? e then 1 else 2 ^ (- e) in
      let k := decpt_from 700 n d (-330) in
      let '(D0, q0) := shortest 1500 x n d k 1 in
      let '(D, q) := written D0 q0 in
      let body := float_text D q in
      if s then String "-" body else body
  end.

Definition hex_char (n : Z) : ascii :=
  if n <? 10 then PyStr.chr (48 + n) else PyStr.chr (87 + n).

(** One character between the quotes of a string, all output in ASCII. *)
Definition escape (c : ascii) : string :=
  let n := PyStr.ord c in
  if Ascii.eqb c dquote then String backslash (str1 dquote)
  else if Ascii.eqb c backslash then String backslash (str1 backslash)
  else if n =? 10 then String backslash "n"
  else if n =? 13 then String backslash "r"
  else if n =? 9 then String backslash "t"
  else if n =? 8 then String backslash "b"
  else if n =? 12 then String backslash "f"
  else if (32 <=? n) && (n <=? 126) then str1 c
  else String backslash ("u00" +:+ String (hex_char (n / 16)) (str1 (hex_char (n mod 16)))).

Fixpoint escape_all (s : string) : string :=
  match s with
  | EmptyString => EmptyString
  | String c s' => escape c +:+ escape_all s'
  end.

Definition quoted (s : string) : string :=
  String dquote (escape_all s +:+ str1 dquote).

(** A new line and the indentation of [level], four spaces a level. *)
Definition indent (level : nat) : string :=
  String newline (repeat_char " " (4 * level)).

Fixpoint dumps_at (level : nat) (v : pyval) : string :=
  match v with
  | VNone => "null"
  | VBool true => "true"
  | VBool false => "false"
  | VInt n => repr_int n
  | VFloat x => repr_float x
  | VStr s => quoted s
  | VList [] => "[]"
  | VList l =>
      "[" +:+ indent (S level)
          +:+ PyStr.join ("," +:+ indent (S level)) (map (dumps_at (S level)) l)
          +:+ indent level +:+ "]"
  | VDict [] => "{}"
  | VDict d =>
      "{" +:+ indent (S level)
          +:+ PyStr.join ("," +:+ indent (S level))
                (map (fun kv => match kv with
                                | (k, w) => quoted k +:+ ": " +:+ dumps_at (S level) w
                                end) d)
          +:+ indent level +:+ "}"
  end.

Definition dumps (v : pyval) : string := dumps_at 0 v.

(** ** The values of Python

    The keys of a dictionary are distinct, and a float is a binary64
    number. *)
Fixpoint python_value (v : pyval) : bool :=
  match v with
  | VFloat x => valid_binary prec emax x
  | VList l => forallb python_value l
  | VDict d =>
      bool_decide (NoDup (map fst d))
      && forallb (fun kv => let '(_, w) := kv in python_value w) d
  | _ => true
  end.


(** The number that a run of digits stands for. *)
Fixpoint numeral (acc : Z) (s : string) : Z :=
  match s with
  | EmptyString => acc
  | String c s' => numeral (10 * acc + PyStr.digit_val c) s'
  end.





#[export] Instance python : Json := {|
  json_dumps := dumps;
  json_loads := loads
|}.

End PyJson.

(* ===================================================================== *)
(** * The rules of the specification                                      *)
(* ===================================================================== *)

(** The validation rules as the specification words them, to compare the
    handlers with. *)
Module Rules.

Import PyFloat CryptoShell.

(** A floating value in (0,1]: [0 < x] and [x <= 1]. *)
Definition in_unit_interval (x : float) : bool :=
  flt fzero x && fle x fone.

(** The value a parameter takes from a raw string, or [None] when the
    rules reject the string or the name: [exchange] and [strategy] must
    be members of their sets, [cash_at_risk] must parse as a floating
    value in (0,1], the two dates must parse under the date pattern, the
    other recognized keys accept any string, unknown keys are
    rejected. *)
Definition accepts (name value : string) : option pyval :=
  if String.eqb name "exchange" then
    if str_in value available_exchanges then Some (VStr value) else None
  else if String.eqb name "strategy" then
    if str_in value available_strategies then Some (VStr value) else None
  else if String.eqb name "cash_at_risk" then
    match py_float value with
    | Some x => if in_unit_interval x then Some (VFloat x) else None
    | None => None
    end
  else if String.eqb name "start_date" || String.eqb name "end_date" then
    match PyTime.strptime_ymd value with
    | Some _ => Some (VStr value)
    | None => None
    end
  else if str_in name ["coin"; "quote"; "min_timestep"] then Some (VStr value)
  else None.

End Rules.

(* ===================================================================== *)
(** * crypto_shell.py: the other handlers and the command loop            *)
(* ===================================================================== *)

Module Commands.

Import PyFloat CryptoShell.

(** What can leave a handler: the exceptions above, and the [KeyError] of
    a dictionary without the key asked for. *)
Inductive error :=
  | Builtin (e : exn)
  | KeyError (key : string).

(** The lines on the terminal.  [Plain] is a line of fixed text, without
    its colour codes. *)
Inductive line :=
  | Shown (m : message)                 (* a line of the four handlers above *)
  | Plain (text : string)
  | PythonVersion                       (* "Running on Python {sys.version.split()[0]}" *)
  | ListLine (name status : string)     (* "{name} {status}" *)
  | BacktestRunning (coin quote exchange_id : pyval) (start_date end_date : Z * Z * Z)
      (* "Running backtest for {coin}/{quote} on {exchange_id} from {start_date} to {end_date}" *)
  | BacktestFuture (strategy : pyval)
      (* "In the future, this will run the actual {strategy} strategy." *)
  | ErrBacktest (e : error)             (* "Error running backtest: {e}" *)
  | UnknownCommand (text : string)      (* "Unknown command: {line}" *)
  | MainError (e : error)               (* "Error: {e}" *)
  | Intro                               (* the banner of the shell *)
  | Prompt.                             (* "crypto> " *)

(** What a handler called by the loop gives: the lines it printed, the
    exception that left it, and whether it returned a true value, which
    stops the loop. *)
Record result := {
  shown : list line;
  failed : option error;
  stop : bool
}.

Definition done (out : list line) : result :=
  {| shown := out; failed := None; stop := false |}.

(** One of the four handlers above, as the loop sees it. *)
Definition lifted (r : shell * outcome) : shell * result :=
  (fst r,
   {| shown := map Shown (printed (snd r));
      failed := Builtin <$> raised (snd r);
      stop := false |}).

(** [config[key]]. *)
Definition py_getitem (c : pyval) (key : string) : error + pyval :=
  match c with
  | VDict d =>
      match Dict.get key d with
      | Some v => inr v
      | None => inl (KeyError key)
      end
  | _ => inl (Builtin TypeError)
  end.

(** [name == v] for a string [name]. *)
Definition str_eq (name : string) (v : pyval) : bool :=
  match v with
  | VStr s => String.eqb name s
  | _ => false
  end.

(** ** [do_exit] and [do_quit] *)
Definition do_exit (arg : string) (sh : shell) : shell * result :=
  (sh, {| shown := [Plain "Goodbye!"]; failed := None; stop := true |}).

Definition do_quit (arg : string) (sh : shell) : shell * result :=
  do_exit arg sh.

(** ** [do_help]

    With an argument the handler of the library answers: the docstring of
    the command of that name, or that there is no help on it. *)
Definition docstring (cmd : string) : option string :=
  if String.eqb cmd "exit" || String.eqb cmd "quit" then Some "Exit the shell."
  else if String.eqb cmd "help" then
    Some ("List available commands with " +:+ String (PyStr.chr 34) "help"
          +:+ String (PyStr.chr 34) " or detailed help with "
          +:+ String (PyStr.chr 34) "help cmd" +:+ String (PyStr.chr 34) ".")
  else if String.eqb cmd "version" then Some "Show version information."
  else if String.eqb cmd "list_exchanges" then Some "List available exchanges."
  else if String.eqb cmd "list_strategies" then Some "List available trading strategies."
  else if String.eqb cmd "show_config" then Some "Show current configuration."
  else if String.eqb cmd "set_parameter" then Some "Set configuration parameter."
  else if String.eqb cmd "save_config" then Some "Save configuration to file."
  else if String.eqb cmd "load_config" then Some "Load configuration from file."
  else if String.eqb cmd "run_backtest" then Some "Run backtest with current configuration."
  else None.

Definition help_menu : list line :=
  [ Plain "Available commands:";
    Plain "help - Show this help message";
    Plain "quit, exit - Exit the shell";
    Plain "version - Show version information";
    Plain (String (PyStr.chr 10) "Trading Commands:");
    Plain "list_exchanges - List available exchanges";
    Plain "list_strategies - List available trading strategies";
    Plain "show_config - Show current configuration";
    Plain "set_parameter <name> <value> - Set configuration parameter";
    Plain "save_config <filename> - Save configuration to file";
    Plain "load_config <filename> - Load configuration from file";
    Plain "run_backtest - Run backtest with current configuration" ].

Definition do_help (arg : string) (sh : shell) : shell * result :=
  if negb (String.eqb arg EmptyString) then
    match docstring arg with
    | Some doc => (sh, done [Plain doc])
    | None => (sh, done [Plain ("*** No help on " +:+ arg)])
    end
  else (sh, done help_menu).

(** ** [do_version] *)
Definition do_version (arg : string) (sh : shell) : shell * result :=
  (sh, done [Plain "Crypto Trading Shell v0.1"; PythonVersion]).

(** ** [do_list_exchanges] and [do_list_strategies]

    The loop of both: one line for each name, marked when the name is the
    value of the configuration under [key], which is looked up at every
    turn. *)
Fixpoint list_lines (names : list string) (c : pyval) (key : string)
  : list line * option error :=
  match names with
  | [] => ([], None)
  | name :: names' =>
      match py_getitem c key with
      | inl e => ([], Some e)
      | inr v =>
          let status := if str_eq name v then "(current)" else EmptyString in
          let '(out, e) := list_lines names' c key in
          (ListLine name status :: out, e)
      end
  end.

Definition do_list_exchanges (arg : string) (sh : shell) : shell * result :=
  let '(out, e) := list_lines available_exchanges (config sh) "exchange" in
  (sh, {| shown := Plain "Available exchanges:" :: out; failed := e; stop := false |}).

Definition do_list_strategies (arg : string) (sh : shell) : shell * result :=
  let '(out, e) := list_lines available_strategies (config sh) "strategy" in
  (sh, {| shown := Plain "Available strategies:" :: out; failed := e; stop := false |}).

(** ** [do_run_backtest] *)

(** [datetime.datetime.strptime(config[key], '%Y-%m-%d')]. *)
Definition parse_date (c : pyval) (key : string) : error + Z * Z * Z :=
  match py_getitem c key with
  | inl e => inl e
  | inr (VStr s) =>
      match PyTime.strptime_ymd s with
      | Some date => inr date
      | None => inl (Builtin ValueError)
      end
  | inr _ => inl (Builtin TypeError)
  end.

(** The handler of the [except Exception] clause. *)
Definition backtest_error (out : list line) (e : error) : result :=
  done (out ++ [ErrBacktest e]).

Definition do_run_backtest (arg : string) (sh : shell) : shell * result :=
  let c := config sh in
  let shown_config := snd (do_show_config EmptyString sh) in
  let out1 :=
    Plain "Initializing backtest with configuration:"
    :: map Shown (printed shown_config) in
  match raised shown_config with
  | Some e => (sh, backtest_error out1 (Builtin e))
  | None =>
      let out2 :=
        out1 ++ [Plain (String (PyStr.chr 10)
                          "Starting backtest... This may take a moment.")] in
      match parse_date c "start_date" with
      | inl e => (sh, backtest_error out2 e)
      | inr start_date =>
      match parse_date c "end_date" with
      | inl e => (sh, backtest_error out2 e)
      | inr end_date =>
      match py_getitem c "exchange" with
      | inl e => (sh, backtest_error out2 e)
      | inr exchange_id =>
      match py_getitem c "coin" with
      | inl e => (sh, backtest_error out2 e)
      | inr coin =>
      match py_getitem c "quote" with
      | inl e => (sh, backtest_error out2 e)
      | inr quote =>
          let out3 :=
            out2 ++ [BacktestRunning coin quote exchange_id start_date end_date;
                     Plain (String (PyStr.chr 10)
                              "Note: This is a placeholder for the backtest functionality.")] in
          match py_getitem c "strategy" with
          | inl e => (sh, backtest_error out3 e)
          | inr strategy => (sh, done (out3 ++ [BacktestFuture strategy]))
          end
      end end end end end
  end.

(** ** [emptyline] and [default] *)
Definition emptyline (sh : shell) : shell * result := (sh, done []).

Definition default (text : string) (sh : shell) : shell * result :=
  (sh, done [UnknownCommand text; Plain "Type 'help' to see available commands."]).

(** ** The loop of [cmd.Cmd] *)

(** The characters of a command name: ASCII letters, digits and the
    underscore. *)
Definition identchar (c : ascii) : bool :=
  PyStr.between 65 90 c || PyStr.between 97 122 c || PyStr.isdigit c
  || (PyStr.ord c =? 95).

(** The longest prefix of characters that satisfy [p], and the rest. *)
Fixpoint span (p : ascii -> bool) (s : string) : string * string :=
  match s with
  | String c s' =>
      if p c then let '(a, b) := span p s' in (String c a, b)
      else (EmptyString, s)
  | EmptyString => (EmptyString, EmptyString)
  end.

(** The text without the white space at its end; [strip] removes the
    white space at the start and then this. *)
Definition rstrip (s : string) : string :=
  PyStr.rev_string EmptyString
    (PyStr.lstrip PyStr.isspace (PyStr.rev_string EmptyString s)).

(** [parseline]: the command, its argument and the line, the first two
    absent when the line is empty or begins with an exclamation mark. *)
Definition parseline (text : string) : option (string * string) * string :=
  let text := PyStr.strip PyStr.isspace text in
  match text with
  | EmptyString => (None, text)
  | String c rest =>
      if Ascii.eqb c "!" then (None, text)
      else
        let text := if Ascii.eqb c "?" then "help " +:+ rest else text in
        let '(cmd, arg) := span identchar text in
        (Some (cmd, PyStr.strip PyStr.isspace arg), text)
  end.

Section WithJson.

Context `{Json}.

(** The method [do_] + [cmd] of the shell, when there is one. *)
Definition handler (cmd : string) : option (string -> shell -> shell * result) :=
  if String.eqb cmd "exit" then Some do_exit
  else if String.eqb cmd "quit" then Some do_quit
  else if String.eqb cmd "help" then Some do_help
  else if String.eqb cmd "version" then Some do_version
  else if String.eqb cmd "list_exchanges" then Some do_list_exchanges
  else if String.eqb cmd "list_strategies" then Some do_list_strategies
  else if String.eqb cmd "show_config" then
    Some (fun arg sh => lifted (do_show_config arg sh))
  else if String.eqb cmd "set_parameter" then
    Some (fun arg sh => lifted (do_set_parameter arg sh))
  else if String.eqb cmd "save_config" then
    Some (fun arg sh => lifted (do_save_config arg sh))
  else if String.eqb cmd "load_config" then
    Some (fun arg sh => lifted (do_load_config arg sh))
  else if String.eqb cmd "run_backtest" then Some do_run_backtest
  else None.

(** [onecmd]. *)
Definition onecmd (text : string) (sh : shell) : shell * result :=
  match parseline text with
  | (_, EmptyString) => emptyline sh
  | (None, text') => default text' sh
  | (Some (cmd, arg), text') =>
      if String.eqb cmd EmptyString then default text' sh
      else match handler cmd with
           | Some func => func arg sh
           | None => default text' sh
           end
  end.

(** How a session stands when the lines typed so far are used up: the
    shell waits at its prompt, it has stopped, or an exception has left
    the loop. *)
Inductive status :=
  | Waiting
  | Stopped
  | Crashed (e : error).

(** The loop of [cmdloop] over the lines typed, one after each prompt. *)
Fixpoint loop (texts : list string) (sh : shell) : shell * list line * status :=
  match texts with
  | [] => (sh, [Prompt], Waiting)
  | text :: texts' =>
      let '(sh', r) := onecmd text sh in
      match failed r with
      | Some e => (sh', Prompt :: shown r, Crashed e)
      | None =>
          if stop r then (sh', Prompt :: shown r, Stopped)
          else
            let '(sh'', out, st) := loop texts' sh' in
            (sh'', Prompt :: shown r ++ out, st)
      end
  end.

Definition cmdloop (texts : list string) (sh : shell) : shell * list line * status :=
  let '(sh', out, st) := loop texts sh in (sh', Intro :: out, st).

(** ** [main]: a new shell, its loop, and the report of an exception. *)
Definition main (texts : list string) (files : gmap string Disk.node)
  : shell * list line * status :=
  let '(sh, out, st) := cmdloop texts (start files) in
  match st with
  | Crashed e => (sh, out ++ [MainError e], st)
  | _ => (sh, out, st)
  end.

(** The lines that call [load_config]. *)
Definition is_load_line (text : string) : bool :=
  match parseline text with
  | (Some (cmd, _), _) => String.eqb cmd "load_config"
  | _ => false
  end.

End WithJson.

(** ** The shape of a configuration that the validation maintains *)

Definition is_str (v : option pyval) : bool :=
  match v with Some (VStr _) => true | _ => false end.

Definition is_member (l : list string) (v : option pyval) : bool :=
  match v with Some (VStr s) => str_in s l | _ => false end.

Definition is_date (v : option pyval) : bool :=
  match v with
  | Some (VStr s) => bool_decide (is_Some (PyTime.strptime_ymd s))
  | _ => false
  end.

(** A float that passes the range test of [do_set_parameter]. *)
Definition is_fraction (v : option pyval) : bool :=
  match v with
  | Some (VFloat x) => negb (fle x fzero || fgt x fone)
  | _ => false
  end.

(** What the validation of [do_set_parameter] makes sure of for the value
    under [key]. *)
Definition field_ok (key : string) (v : option pyval) : bool :=
  if String.eqb key "exchange" then is_member available_exchanges v
  else if String.eqb key "strategy" then is_member available_strategies v
  else if String.eqb key "cash_at_risk" then is_fraction v
  else if str_in key ["start_date"; "end_date"] then is_date v
  else is_str v.

(** A configuration with the eight keys, each with a value of its
    kind. *)
Definition valid_config (c : pyval) : bool :=
  match c with
  | VDict d =>
      bool_decide (Dict.keys d = eight_keys)
      && forallb (fun key => field_ok key (Dict.get key d)) eight_keys
  | _ => false
  end.

(** How many lines of a listing are marked as current. *)
Definition marked (out : list line) : nat :=
  length (List.filter (fun l => match l with
                                | ListLine _ status => String.eqb status "(current)"
                                | _ => false
                                end) out).

End Commands.

(* ===================================================================== *)
(** * randobot.py: iterations in sequence                                 *)
(* ===================================================================== *)

Module Runs.

Import PyFloat Randobot.

(** The framework calls [on_trading_iteration] once for each tick, until
    an exception leaves it. *)
Fixpoint iterations (self : trader) (envs : list tick)
  : trader * list event * option exn :=
  match envs with
  | [] => (self, [], None)
  | env :: envs' =>
      match on_trading_iteration self env with
      | (self', evs, Some e) => (self', evs, Some e)
      | (self', evs, None) =>
          let '(self'', evs', err) := iterations self' envs' in
          (self'', evs ++ evs', err)
      end
  end.

(** The side of the last order submitted in [evs], or [prev] when there
    is none. *)
Fixpoint last_submitted (prev : option string) (evs : list event) : option string :=
  match evs with
  | [] => prev
  | SubmitOrder o :: evs' => last_submitted (Some (order_side o)) evs'
  | _ :: evs' => last_submitted prev evs'
  end.

(** [prev] is the side opposite to [side]. *)
Definition opposite (prev : option string) (side : string) : bool :=
  (bool_decide (prev = Some "sell") && String.eqb side "buy")
  || (bool_decide (prev = Some "buy") && String.eqb side "sell").

(** A trace liquidates on changes of side only: with [prev] the side of
    the last order submitted, a [sell_all] is followed at once by the
    creation of an order, and an order is created after a [sell_all]
    exactly when its side is opposite to [prev].  [pending] tells that a
    [sell_all] has just been seen. *)
Fixpoint liquidates_on_change (prev : option string) (pending : bool)
    (evs : list event) : bool :=
  match evs with
  | [] => negb pending
  | SellAll :: evs' => negb pending && liquidates_on_change prev true evs'
  | CreateOrder o :: evs' =>
      Bool.eqb pending (opposite prev (order_side o))
      && liquidates_on_change prev false evs'
  | SubmitOrder o :: evs' =>
      negb pending && liquidates_on_change (Some (order_side o)) false evs'
  | _ :: evs' => negb pending && liquidates_on_change prev false evs'
  end.

End Runs.

(* ===================================================================== *)
(** * Properties of the library models                                    *)
(* ===================================================================== *)

Section StringFacts.

Import PyStr.

Lemma app_cons (x : ascii) (a b : string) :
  String x a +:+ b = String x (a +:+ b).
Proof. reflexivity. Qed.

Lemma app_assoc_string (a b c : string) : (a +:+ b) +:+ c = a +:+ (b +:+ c).
Proof.
  induction a as [|x a IH]; [reflexivity|].
  rewrite !app_cons. now f_equal.
Qed.

Lemma app_empty_r (a : string) : a +:+ EmptyString = a.
Proof.
  induction a as [|x a IH]; [reflexivity|].
  rewrite app_cons. now f_equal.
Qed.

(** Reading a run of characters that are not white space extends the
    word being read. *)
Lemma split_from_word (w rest : string) (cur : option string) :
  no_space w = true ->
  split_from cur (w +:+ rest) =
  split_from (match w with
              | EmptyString => cur
              | _ => Some (default EmptyString cur +:+ w)
              end) rest.
Proof.
  revert cur. induction w as [|c w IH]; intros cur Hw.
  - reflexivity.
  - cbn [no_space] in Hw. apply andb_prop in Hw as [Hc Hw].
    apply negb_true_iff in Hc.
    rewrite app_cons. cbn [split_from]. rewrite Hc.
    rewrite (IH _ Hw). destruct w as [|c' w]; [reflexivity|].
    cbn [default from_option]. unfold id at 1.
    now rewrite app_assoc_string.
Qed.

(** A command line of two tokens splits into these tokens. *)
Lemma split_two_tokens (n v : string) :
  is_token n = true -> is_token v = true ->
  split (n +:+ " " +:+ v) = [n; v].
Proof.
  unfold is_token, split. intros Hn Hv.
  apply andb_prop in Hn as [Hn0 Hn], Hv as [Hv0 Hv].
  rewrite (split_from_word n _ None Hn).
  destruct n as [|c n]; [discriminate|]. simpl default.
  change (" " +:+ v) with (String " " v). cbn [split_from].
  change (isspace " ") with true. cbv iota.
  replace v with (v +:+ EmptyString) at 1 by apply app_empty_r.
  rewrite (split_from_word v _ None Hv).
  destruct v as [|c' v]; [discriminate|]. reflexivity.
Qed.

End StringFacts.

Section DictFacts.

Lemma dict_has_keys (k : string) (d : items) :
  Dict.has k d = true <-> In k (Dict.keys d).
Proof.
  unfold Dict.has, Dict.keys.
  induction d as [|[k' v'] d IH]; simpl.
  - split; [discriminate | tauto].
  - destruct (String.eqb_spec k' k) as [->|Hne].
    + split; auto.
    + rewrite IH. split; [auto | intros [?|?]; [contradiction | assumption]].
Qed.

(** Assigning to a key that is present keeps the keys and their order. *)
Lemma dict_keys_set (k : string) (v : pyval) (d : items) :
  Dict.has k d = true -> Dict.keys (Dict.set k v d) = Dict.keys d.
Proof.
  unfold Dict.has, Dict.keys.
  induction d as [|[k' v'] d IH]; simpl; [discriminate|].
  destruct (String.eqb k' k); simpl; [reflexivity|].
  intros Hd. now rewrite IH.
Qed.

Lemma dict_get_set_eq (k : string) (v : pyval) (d : items) :
  Dict.get k (Dict.set k v d) = Some v.
Proof.
  induction d as [|[k' v'] d IH]; simpl.
  - now rewrite String.eqb_refl.
  - destruct (String.eqb k' k) eqn:E; simpl; rewrite E; [reflexivity | exact IH].
Qed.

Lemma dict_get_set_ne (k k0 : string) (v : pyval) (d : items) :
  k0 <> k -> Dict.get k0 (Dict.set k v d) = Dict.get k0 d.
Proof.
  intros Hne. induction d as [|[k' v'] d IH]; simpl.
  - destruct (String.eqb_spec k k0); [congruence | reflexivity].
  - destruct (String.eqb_spec k' k) as [->|Hk]; simpl.
    + destruct (String.eqb_spec k k0); [congruence | reflexivity].
    + now rewrite IH.
Qed.

(** The items after an assignment: the new value under its key, the old
    item under every other key. *)
Lemma dict_set_items (k : string) (v : pyval) (d : items) (k0 : string) (w : pyval) :
  NoDup (Dict.keys d) -> In (k0, w) (Dict.set k v d) ->
  if String.eqb k0 k then w = v else In (k0, w) d.
Proof.
  unfold Dict.keys.
  induction d as [|[k' v'] d IH]; simpl; intros Hnd Hin.
  - destruct Hin as [[= <- <-]|[]]. now rewrite String.eqb_refl.
  - apply NoDup_cons in Hnd as [Hk' Hnd]. rewrite list_elem_of_In in Hk'.
    destruct (String.eqb_spec k' k) as [->|Hk]; simpl in Hin.
    + destruct Hin as [[= <- <-]|Hin].
      * now rewrite String.eqb_refl.
      * destruct (String.eqb_spec k0 k) as [->|Hne]; [|now right].
        exfalso. apply Hk'. apply (in_map fst) in Hin. exact Hin.
    + destruct Hin as [[= <- <-]|Hin].
      * destruct (String.eqb_spec k' k); [contradiction | now left].
      * specialize (IH Hnd Hin).
        destruct (String.eqb k0 k); [exact IH | now right].
Qed.

Lemma dict_set_in (k : string) (v : pyval) (d : items) :
  In (k, v) (Dict.set k v d).
Proof.
  induction d as [|[k' v'] d IH]; simpl.
  - now left.
  - destruct (String.eqb_spec k' k) as [->|Hk]; simpl; [now left | now right].
Qed.

End DictFacts.

Section FloatFacts.

Import PyFloat.

(** Comparing the other way round gives the opposite answer. *)
Lemma SFcompare_swap (x y : float) :
  SFcompare y x = option_map CompOpp (SFcompare x y).
Proof.
  destruct x as [sx|sx| |sx mx ex], y as [sy|sy| |sy my ey];
    try reflexivity;
    try (destruct sx; reflexivity);
    try (destruct sy; reflexivity);
    try (destruct sx, sy; reflexivity).
  simpl. destruct sx, sy; try reflexivity.
  - rewrite (Z.compare_antisym ex ey).
    destruct (ex ?= ey); simpl; try reflexivity.
    do 2 f_equal. symmetry. exact (Pos.compare_cont_antisym mx my Eq).
  - rewrite (Z.compare_antisym ex ey).
    destruct (ex ?= ey); simpl; try reflexivity.
    f_equal. symmetry. exact (Pos.compare_cont_antisym mx my Eq).
Qed.

Lemma flt_not_fle (x y : float) : flt x y = true -> fle y x = false.
Proof.
  unfold flt, fle, SFltb, SFleb. rewrite (SFcompare_swap x y).
  destruct (SFcompare x y) as [[]|]; simpl; congruence.
Qed.

Lemma fle_not_fgt (x y : float) : fle x y = true -> fgt x y = false.
Proof.
  unfold fgt, fle, SFltb, SFleb. rewrite (SFcompare_swap x y).
  destruct (SFcompare x y) as [[]|]; simpl; congruence.
Qed.

(** Two floats that are not NaN compare one way or the other. *)
Lemma fle_or_fgt (x y : float) :
  is_nan x = false -> is_nan y = false -> fle x y = true \/ fgt x y = true.
Proof.
  unfold fgt, fle, SFltb, SFleb. rewrite (SFcompare_swap x y).
  destruct x as [sx|sx| |sx mx ex], y as [sy|sy| |sy my ey];
    try discriminate; intros _ _;
    destruct (SFcompare _ _) as [[]|] eqn:E; simpl; auto;
    exfalso; revert E; simpl;
    repeat match goal with |- context [if ?b then _ else _] => destruct b end;
    discriminate.
Qed.

(** The test of [do_set_parameter] rejects what lies outside (0,1],
    except a NaN, which it lets through. *)
Lemma range_test (x : float) :
  (fle x fzero || fgt x fone) = negb (Rules.in_unit_interval x || is_nan x).
Proof.
  unfold Rules.in_unit_interval.
  destruct (is_nan x) eqn:Hn.
  - destruct x; try discriminate. reflexivity.
  - rewrite orb_false_r.
    destruct (flt fzero x) eqn:H0.
    + rewrite (flt_not_fle _ _ H0). simpl.
      destruct (fle x fone) eqn:H1.
      * now rewrite (fle_not_fgt _ _ H1).
      * simpl. destruct (fle_or_fgt x fone Hn eq_refl); congruence.
    + simpl. destruct (fle_or_fgt x fzero Hn eq_refl) as [H|H]; [now rewrite H|].
      unfold fgt in H. unfold flt in H0. congruence.
Qed.

End FloatFacts.

(* ===================================================================== *)
(** * Properties of the disk                                              *)
(* ===================================================================== *)

Section DiskFacts.

Import Disk.











(** A write that fails leaves the disk, and fails again. *)
Lemma write_failed (path text : string) (disk : gmap string node) (e : exn) :
  write path text disk = inl e ->
  forall text', write path text' disk = inl e.
Proof.
  unfold write. intros Hw text'.
  destruct (resolve true path disk) as [e'|k]; [exact Hw|].
  destruct (kind_of k disk); [|exact Hw|discriminate].
  destruct (disk !! k) as [[]|]; try discriminate. exact Hw.
Qed.

End DiskFacts.

(* ===================================================================== *)
(** * Properties of the json module                                       *)
(* ===================================================================== *)

Section JsonStrings.

Import PyStr PyFloat PyJson.


Lemma chr_ord (c : ascii) : chr (ord c) = c.
Proof.
  unfold chr, ord. rewrite N2Z.id. apply ascii_N_embedding.
Qed.

Lemma hex_val_char (k : Z) :
  0 <= k < 16 -> hex_val (hex_char k) = Some k.
Proof.
  intros Hk.
  assert (H : k = 0 \/ k = 1 \/ k = 2 \/ k = 3 \/ k = 4 \/ k = 5 \/ k = 6 \/ k = 7
              \/ k = 8 \/ k = 9 \/ k = 10 \/ k = 11 \/ k = 12 \/ k = 13 \/ k = 14
              \/ k = 15) by lia.
  repeat destruct H as [-> | H]; try reflexivity. subst. reflexivity.
Qed.



End JsonStrings.

Section Numerals.

Import PyStr PyFloat PyJson.







Lemma numeral_shift (a : Z) (s : string) :
  numeral a s = a * 10 ^ Z.of_nat (String.length s) + numeral 0 s.
Proof.
  revert a. induction s as [|x s IH]; intros a.
  - cbn. lia.
  - cbn [numeral String.length]. rewrite IH, (IH (10 * 0 + digit_val x)).
    rewrite Nat2Z.inj_succ, Z.pow_succ_r by lia. ring.
Qed.






End Numerals.

Section Numbers.

Import PyStr PyFloat PyJson.











End Numbers.

Section FloatTexts.

Import PyStr PyFloat PyJson.










End FloatTexts.

Section Rounding.

Import PyFloat.

Lemma fexp_eq (x : Z) : fexp prec emax x = Z.max (x - 53) (-1074).
Proof. reflexivity. Qed.

Lemma digits2_log2 (p : positive) :
  Zpos (digits2_pos p) = Z.log2 (Zpos p) + 1.
Proof.
  induction p as [p IH|p IH|]; cbn [digits2_pos].
  - rewrite Pos2Z.inj_succ, IH.
    change (Zpos p~1) with (2 * Zpos p + 1).
    rewrite Z.log2_succ_double by lia. lia.
  - rewrite Pos2Z.inj_succ, IH.
    change (Zpos p~0) with (2 * Zpos p).
    rewrite Z.log2_double by lia. lia.
  - reflexivity.
Qed.

Lemma Zdigits2_log2 (n : Z) : 0 < n -> Zdigits2 n = Z.log2 n + 1.
Proof.
  destruct n as [|p|p]; try lia. intros _. apply digits2_log2.
Qed.

Lemma shr_fexp_eq (m e : Z) (l : location) :
  shr_fexp prec emax m e l
  = shr (shr_record_of_loc m l) e (Z.max (Zdigits2 m + e - 53) (-1074) - e).
Proof. reflexivity. Qed.

Lemma iter_pos_iter {A : Type} (f : A -> A) (p : positive) (x : A) :
  SpecFloat.iter_pos f p x = Pos.iter f x p.
Proof.
  revert x. induction p as [p IH|p IH|]; intros x; cbn [SpecFloat.iter_pos Pos.iter].
  - now rewrite !IH, !Pos.iter_swap.
  - now rewrite !IH.
  - reflexivity.
Qed.





Lemma div_eucl_div_mod (a b : Z) : Z.div_eucl a b = (a / b, a mod b).
Proof. unfold Z.div, Z.modulo. now destruct (Z.div_eucl a b). Qed.

(** The quotient that is rounded for [N / Dn], and what is left. *)
Lemma div_core (N Dn : positive) :
  SFdiv_core_binary prec emax (Zpos N) 0 (Zpos Dn) 0
  = let e' := Z.min (Z.max (Z.log2 (Zpos N) - Z.log2 (Zpos Dn) - 53) (-1074)) 0 in
    (Zpos N * 2 ^ (- e') / Zpos Dn, e',
     new_location (Zpos Dn) ((Zpos N * 2 ^ (- e')) mod Zpos Dn)).
Proof.
  change (SFdiv_core_binary prec emax (Zpos N) 0 (Zpos Dn) 0)
    with (let e' := Z.min (Z.max (Zpos (digits2_pos N) + 0
                                  - (Zpos (digits2_pos Dn) + 0) - 53) (-1074))
                          (0 - 0) in
          let s := 0 - 0 - e' in
          let m' := match s with
                    | Zpos _ => Z.shiftl (Zpos N) s
                    | Z0 => Zpos N
                    | Zneg _ => 0
                    end in
          let '(q, r) := Z.div_eucl m' (Zpos Dn) in
          (q, e', new_location (Zpos Dn) r)).
  cbv zeta. rewrite !digits2_log2.
  replace (Z.min (Z.max (Z.log2 (Zpos N) + 1 + 0 - (Z.log2 (Zpos Dn) + 1 + 0) - 53)
                        (-1074)) (0 - 0))
    with (Z.min (Z.max (Z.log2 (Zpos N) - Z.log2 (Zpos Dn) - 53) (-1074)) 0)
    by (f_equal; lia).
  set (e' := Z.min _ 0).
  assert (He' : e' <= 0) by (unfold e'; lia).
  assert (Hm : match 0 - 0 - e' with
               | Zpos _ => Z.shiftl (Zpos N) (0 - 0 - e')
               | Z0 => Zpos N
               | Zneg _ => 0
               end = Zpos N * 2 ^ (- e')).
  { replace (0 - 0 - e') with (- e') by lia.
    destruct (- e') as [|p|p] eqn:E; try lia.
    - now rewrite Z.shiftl_mul_pow2. }
  rewrite Hm, div_eucl_div_mod. reflexivity.
Qed.



End Rounding.

Section ShortestDigits.

Import PyFloat PyJson.

















End ShortestDigits.

Section RoundTrip.

Import PyStr PyFloat PyJson.

(** ** The first character of a value *)

Lemma value_step (f : nat) (c : ascii) (r : string) :
  value (S f) (String c r) =
  if Ascii.eqb c dquote then
    '(t, r1) ← scan_string r; Some (VStr t, r1)
  else if Ascii.eqb c "{" then
    match skip_ws r with
    | String "}" r1 => Some (VDict [], r1)
    | r1 => '(l, r2) ← members f r1; Some (VDict (Dict.of_pairs l), r2)
    end
  else if Ascii.eqb c "[" then
    match skip_ws r with
    | String "]" r1 => Some (VList [], r1)
    | r1 => '(l, r2) ← elements f r1; Some (VList l, r2)
    end
  else scan_word (String c r).
Proof. reflexivity. Qed.

Lemma elements_step (f : nat) (s : string) :
  elements (S f) s =
  '(v, r1) ← value f s;
  match skip_ws r1 with
  | String "]" r2 => Some ([v], r2)
  | String "," r2 => '(l, r3) ← elements f (skip_ws r2); Some (v :: l, r3)
  | _ => None
  end.
Proof. reflexivity. Qed.

Lemma members_step (f : nat) (r : string) :
  members (S f) (String dquote r) =
  '(k, r1) ← scan_string r;
  match skip_ws r1 with
  | String ":" r2 =>
      '(v, r3) ← value f (skip_ws r2);
      match skip_ws r3 with
      | String "}" r4 => Some ([(k, v)], r4)
      | String "," r4 => '(l, r5) ← members f (skip_ws r4); Some ((k, v) :: l, r5)
      | _ => None
      end
  | _ => None
  end.
Proof. reflexivity. Qed.









(** ** Words and numbers *)





(** ** Arrays and objects *)




Lemma set_new (k : string) (v : pyval) (d : items) :
  ~ In k (map fst d) -> Dict.set k v d = d ++ [(k, v)].
Proof.
  induction d as [|[k' v'] d IH]; intros Hk; [reflexivity|].
  cbn [Dict.set]. cbn [map fst In] in Hk.
  destruct (String.eqb_spec k' k) as [->|_]; [tauto|].
  cbn [app]. f_equal. apply IH. tauto.
Qed.















End RoundTrip.

Section Validity.

Import PyStr PyFloat PyJson.

Lemma shr_1_half (r : shr_record) :
  0 <= shr_m r -> shr_m (shr_1 r) = shr_m r / 2.
Proof.
  destruct r as [m b s]. cbn [shr_m]. intros Hm.
  destruct m as [|[p|p|]|p]; try lia; cbn [shr_1 shr_m].
  - reflexivity.
  - change (Zpos p~1) with (2 * Zpos p + 1).
    apply (Z.div_unique _ _ _ 1); lia.
  - change (Zpos p~0) with (2 * Zpos p).
    apply (Z.div_unique _ _ _ 0); lia.
  - reflexivity.
Qed.

Lemma iter_shr_m (p : positive) (r : shr_record) :
  0 <= shr_m r ->
  shr_m (SpecFloat.iter_pos shr_1 p r) = shr_m r / 2 ^ Zpos p.
Proof.
  intros Hr. rewrite iter_pos_iter.
  induction p as [|p IH] using Pos.peano_ind.
  - cbn [Pos.iter]. now rewrite shr_1_half.
  - rewrite Pos.iter_succ, shr_1_half, IH.
    + rewrite Pos2Z.inj_succ, Z.pow_succ_r, Z.div_div by lia.
      f_equal. ring.
    + rewrite IH. apply Z.div_pos; [exact Hr | apply Z.pow_pos_nonneg; lia].
Qed.

(** The first step of rounding: the mantissa shifted to the exponent of
    the format. *)
Lemma shr_fexp_m (m e : Z) (l : location) :
  0 <= m ->
  shr_m (fst (shr_fexp prec emax m e l))
  = m / 2 ^ Z.max 0 (Z.max (Zdigits2 m + e - 53) (-1074) - e)
  /\ snd (shr_fexp prec emax m e l)
     = e + Z.max 0 (Z.max (Zdigits2 m + e - 53) (-1074) - e).
Proof.
  intros Hm. rewrite shr_fexp_eq.
  assert (Hrec : shr_m (shr_record_of_loc m l) = m) by (now destruct l as [|[]]).
  destruct (Z.max (Zdigits2 m + e - 53) (-1074) - e) as [|p|p] eqn:Hn;
    cbn [shr fst snd].
  - rewrite Hrec, Z.pow_0_r, Z.div_1_r. lia.
  - rewrite iter_shr_m, Hrec by (now rewrite Hrec).
    rewrite Z.max_r by lia. split; [reflexivity | lia].
  - rewrite Hrec, Z.max_l, Z.pow_0_r, Z.div_1_r by lia. lia.
Qed.

Lemma round_range (m : Z) (l : location) :
  m <= round_nearest_even m l <= m + 1.
Proof. destruct l as [|[]]; cbn [round_nearest_even]; try destruct (Z.even m); lia. Qed.

(** The number of binary digits, by bounds. *)
Lemma Zdigits2_le (m k : Z) : 0 <= m -> 0 <= k -> (Zdigits2 m <= k <-> m < 2 ^ k).
Proof.
  intros Hm Hk. destruct (Z.eq_dec m 0) as [->|Hne].
  - cbn [Zdigits2]. split; intros _; [apply Z.pow_pos_nonneg; lia | lia].
  - rewrite Zdigits2_log2 by lia.
    rewrite (Z.log2_lt_pow2 m k) by lia. lia.
Qed.

Lemma Zdigits2_nonneg (m : Z) : 0 <= m -> 0 <= Zdigits2 m.
Proof.
  intros Hm. destruct (Z.eq_dec m 0) as [->|Hne]; [cbn; lia|].
  rewrite Zdigits2_log2 by lia. pose proof (Z.log2_nonneg m). lia.
Qed.

Lemma Zdigits2_ge (m k : Z) : 0 <= m -> 0 <= k -> (k < Zdigits2 m <-> 2 ^ k <= m).
Proof.
  intros Hm Hk. pose proof (Zdigits2_le m k Hm Hk). lia.
Qed.

(** Rounding gives a binary64 number, when the mantissa to round has
    the digits of the format or the least exponent. *)
Lemma round_valid (s : bool) (mx ex : Z) (lx : location) :
  0 <= mx ->
  ex <= Z.max (Zdigits2 mx + ex - 53) (-1074) ->
  valid_binary prec emax (binary_round_aux prec emax s mx ex lx) = true.
Proof.
  intros Hm He. unfold binary_round_aux.
  destruct (shr_fexp_m mx ex lx Hm) as [H1 H2].
  destruct (shr_fexp prec emax mx ex lx) as [mrs e1]. cbn [fst snd] in H1, H2.
  pose proof (Zdigits2_nonneg mx Hm) as Hd0.
  pose proof (proj1 (Zdigits2_le mx (Zdigits2 mx) Hm Hd0) (Z.le_refl _)) as Hupper.
  set (d := Zdigits2 mx) in *.
  set (n := Z.max (d + ex - 53) (-1074) - ex) in *.
  rewrite Z.max_r in H1, H2 by lia.
  assert (Hn : 0 < 2 ^ n) by (apply Z.pow_pos_nonneg; lia).
  assert (Hm1 : 0 <= shr_m mrs < 2 ^ 53).
  { rewrite H1. split; [apply Z.div_pos; lia|].
    apply Z.div_lt_upper_bound; [lia|].
    rewrite <- Z.pow_add_r by lia.
    apply Z.lt_le_trans with (2 ^ d); [exact Hupper|].
    apply Z.pow_le_mono_r; lia. }
  assert (Hm1' : -1074 < e1 -> 2 ^ 52 <= shr_m mrs).
  { intros He1. rewrite H1.
    apply Z.div_le_lower_bound; [lia|].
    rewrite <- Z.pow_add_r by lia.
    replace (n + 52) with (d - 1) by lia.
    apply (Zdigits2_ge mx (d - 1)); lia. }
  pose proof (round_range (shr_m mrs) (loc_of_shr_record mrs)) as Hr.
  set (m2 := round_nearest_even _ _) in *.
  assert (Hm2 : 0 <= m2) by lia.
  destruct (shr_fexp_m m2 e1 loc_Exact Hm2) as [H3 H4].
  destruct (shr_fexp prec emax m2 e1 loc_Exact) as [mrs2 e3]. cbn [fst snd] in H3, H4.
  pose proof (Zdigits2_nonneg m2 Hm2) as Hd2.
  assert (Hcan : Z.max (Zdigits2 (shr_m mrs2) + e3 - 53) (-1074) = e3).
  { change (2 ^ 53) with 9007199254740992 in *.
    change (2 ^ 52) with 4503599627370496 in *.
    destruct (Z.lt_ge_cases m2 9007199254740992) as [Hlt|Hge].
    - assert (Hd53 : Zdigits2 m2 <= 53) by (apply Zdigits2_le; [lia | lia | exact Hlt]).
      assert (Hd52 : -1074 < e1 -> 52 < Zdigits2 m2).
      { intros He1. apply Zdigits2_ge; [lia | lia |].
        change (2 ^ 52) with 4503599627370496. specialize (Hm1' He1). lia. }
      assert (Hn2 : Z.max (Zdigits2 m2 + e1 - 53) (-1074) - e1 = 0) by lia.
      rewrite Hn2 in H3, H4. cbn [Z.max Z.compare] in H3, H4.
      rewrite Z.pow_0_r, Z.div_1_r in H3. rewrite H3, H4. lia.
    - assert (Heq : m2 = 9007199254740992) by lia.
      rewrite Heq in H3, H4.
      change (Zdigits2 9007199254740992) with 54 in H3, H4.
      assert (Hn2 : Z.max (54 + e1 - 53) (-1074) - e1 = 1) by lia.
      rewrite Hn2 in H3, H4.
      change (9007199254740992 / 2 ^ Z.max 0 1) with 4503599627370496 in H3.
      rewrite H3, H4.
      change (Zdigits2 4503599627370496) with 53.
      change (Z.max 0 1) with 1. lia. }
  destruct (shr_m mrs2) as [|p|p]; try reflexivity.
  destruct (Z.leb_spec e3 (emax - prec)) as [Hle|Hgt]; [|reflexivity].
  cbn [valid_binary]. unfold bounded, canonical_mantissa.
  rewrite fexp_eq. apply andb_true_intro. split.
  - apply Z.eqb_eq. exact Hcan.
  - now apply Z.leb_le.
Qed.

(** The float nearest to a ratio is a binary64 number. *)
Lemma of_ratio_valid (s : bool) (N Dn : positive) :
  valid_binary prec emax (of_ratio s N Dn) = true.
Proof.
  unfold of_ratio. rewrite div_core. cbv zeta.
  pose proof (Z.log2_spec (Zpos N) (Pos2Z.is_pos N)) as HN.
  pose proof (Z.log2_spec (Zpos Dn) (Pos2Z.is_pos Dn)) as HD.
  pose proof (Z.log2_nonneg (Zpos N)) as HN0.
  pose proof (Z.log2_nonneg (Zpos Dn)) as HD0.
  set (X := Z.log2 (Zpos N) - Z.log2 (Zpos Dn) - 53) in *.
  set (e' := Z.min (Z.max X (-1074)) 0).
  assert (He' : -1074 <= e' <= 0) by (unfold e'; lia).
  assert (Hpow : 0 < 2 ^ (- e')) by (apply Z.pow_pos_nonneg; lia).
  set (q := Zpos N * 2 ^ (- e') / Zpos Dn).
  assert (Hq : 0 <= q) by (apply Z.div_pos; lia).
  apply round_valid; [exact Hq|].
  destruct (Z.eq_dec e' (-1074)) as [->|Hne]; [lia|].
  assert (H52 : 2 ^ 52 <= q).
  { apply Z.div_le_lower_bound; [lia|].
    destruct (Z.le_gt_cases X 0) as [HX|HX].
    - assert (e' = X) by (unfold e'; lia).
      apply Z.le_trans with (2 ^ Z.succ (Z.log2 (Zpos Dn)) * 2 ^ 52).
      + apply Z.mul_le_mono_nonneg_r; lia.
      + rewrite <- Z.pow_add_r by lia.
        replace (Z.succ (Z.log2 (Zpos Dn)) + 52) with (Z.log2 (Zpos N) + - e') by lia.
        rewrite Z.pow_add_r by lia.
        apply Z.mul_le_mono_nonneg_r; lia.
    - assert (e' = 0) by (unfold e'; lia).
      replace (- e') with 0 by lia. rewrite Z.pow_0_r, Z.mul_1_r.
      apply Z.le_trans with (2 ^ Z.succ (Z.log2 (Zpos Dn)) * 2 ^ 52).
      + apply Z.mul_le_mono_nonneg_r; lia.
      + rewrite <- Z.pow_add_r by lia.
        apply Z.le_trans with (2 ^ Z.log2 (Zpos N)); [|lia].
        apply Z.pow_le_mono_r; lia. }
  assert (52 < Zdigits2 q) by (apply Zdigits2_ge; lia).
  lia.
Qed.

Lemma of_decimal_valid (s : bool) (m e : Z) :
  valid_binary prec emax (of_decimal s m e) = true.
Proof.
  unfold of_decimal. destruct m as [|p|p]; try reflexivity.
  destruct (0 <=? e); apply of_ratio_valid.
Qed.

(** [float(s)] is a binary64 number. *)
Lemma py_float_valid (s : string) (x : float) :
  py_float s = Some x -> valid_binary prec emax x = true.
Proof.
  unfold py_float.
  destruct (drop_underscores _ _) as [t|]; [|discriminate]. cbn [mbind option_bind].
  destruct (sign t) as [neg body].
  destruct (decimal body) as [[m e]|].
  - intros [= <-]. apply of_decimal_valid.
  - unfold inf_or_nan. destruct (_ || _); [now intros [= <-]|].
    destruct (String.eqb _ _); [now intros [= <-] | discriminate].
Qed.

(** ** What [json.loads] gives *)

Lemma scan_number_valid (s : string) (v : pyval) (r : string) :
  scan_number s = Some (v, r) -> python_value v = true.
Proof.
  unfold scan_number.
  destruct (match s with String "-" r0 => (true, r0) | _ => (false, s) end)
    as [neg s0].
  destruct s0 as [|c s0']; [discriminate|].
  destruct (isdigit c); [|discriminate].
  destruct (int_part _) as [[i ni] s1].
  destruct (frac_part i s1) as [[m nf] s2].
  destruct (exp_part s2) as [[e ne] s3].
  destruct (_ || _); intros [= <- _]; [apply of_decimal_valid | reflexivity].
Qed.

Lemma scan_word_valid (s : string) (v : pyval) (r : string) :
  scan_word s = Some (v, r) -> python_value v = true.
Proof.
  unfold scan_word.
  destruct (scan_number s) as [[v' r']|] eqn:Hn.
  - intros [= <- _]. exact (scan_number_valid _ _ _ Hn).
  - repeat match goal with
           | |- context [match after ?w s with _ => _ end] => destruct (after w s)
           end;
      try discriminate; now intros [= <- _].
Qed.

Lemma set_valid (k : string) (v : pyval) (d : items) :
  python_value (VDict d) = true -> python_value v = true ->
  python_value (VDict (Dict.set k v d)) = true.
Proof.
  cbn [python_value]. intros [Hk Hd]%andb_prop Hv.
  assert (Hnew : Dict.has k d = false -> ~ In k (map fst d)).
  { intros Hhas Hin. apply dict_has_keys in Hin. congruence. }
  apply andb_true_intro. split.
  - apply bool_decide_eq_true_2. apply bool_decide_eq_true_1 in Hk.
    destruct (Dict.has k d) eqn:Hhas.
    + change (map fst (Dict.set k v d)) with (Dict.keys (Dict.set k v d)).
      now rewrite dict_keys_set.
    + rewrite (set_new k v d (Hnew eq_refl)), map_app. cbn [map fst].
      apply NoDup_app. split; [exact Hk|]. split.
      * intros x Hx [->|[]]%list_elem_of_In.
        apply list_elem_of_In in Hx. now apply (Hnew eq_refl).
      * apply NoDup_singleton.
  - clear Hk Hnew. induction d as [|[k' w] d IH]; cbn [Dict.set forallb].
    + now rewrite Hv.
    + cbn [forallb] in Hd. apply andb_prop in Hd as [Hw Hd].
      destruct (String.eqb k' k); cbn [forallb].
      * now rewrite Hv, Hd.
      * now rewrite Hw, IH.
Qed.

Lemma of_pairs_valid (l : items) :
  forallb (fun kv => let '(_, w) := kv in python_value w) l = true ->
  python_value (VDict (Dict.of_pairs l)) = true.
Proof.
  unfold Dict.of_pairs.
  assert (Hgen : forall d, python_value (VDict d) = true ->
            forallb (fun kv => let '(_, w) := kv in python_value w) l = true ->
            python_value (VDict (fold_left (fun d kv => Dict.set (fst kv) (snd kv) d) l d))
            = true).
  { induction l as [|[k w] l IH]; intros d Hd Hl; [exact Hd|].
    cbn [forallb] in Hl. apply andb_prop in Hl as [Hw Hl].
    cbn [fold_left fst snd]. apply IH; [|exact Hl]. now apply set_valid. }
  apply Hgen. reflexivity.
Qed.

Lemma value_step_cases (f : nat) (c : ascii) (r : string) (v : pyval) (t : string) :
  value (S f) (String c r) = Some (v, t) ->
  (exists u, v = VStr u)
  \/ v = VDict []
  \/ v = VList []
  \/ (exists l t', members f (skip_ws r) = Some (l, t') /\ v = VDict (Dict.of_pairs l))
  \/ (exists l t', elements f (skip_ws r) = Some (l, t') /\ v = VList l)
  \/ scan_word (String c r) = Some (v, t).
Proof.
  rewrite value_step.
  destruct (Ascii.eqb c dquote).
  { destruct (scan_string r) as [[u r1]|]; [|discriminate].
    cbn [mbind option_bind]. intros [= <- _]. left. now exists u. }
  destruct (Ascii.eqb c "{").
  { destruct (skip_ws r) as [|c' r1].
    - destruct (members f EmptyString) as [[l t']|] eqn:Hm; [|discriminate].
      cbn [mbind option_bind]. intros [= <- _]. do 3 right. left. now exists l, t'.
    - destruct c' as [[] [] [] [] [] [] [] []];
        try (destruct (members f _) as [[l t']|] eqn:Hm; [|discriminate];
             cbn [mbind option_bind]; intros [= <- _]; do 3 right; left; now exists l, t').
      intros [= <- _]. right. now left. }
  destruct (Ascii.eqb c "[").
  { destruct (skip_ws r) as [|c' r1].
    - destruct (elements f EmptyString) as [[l t']|] eqn:Hm; [|discriminate].
      cbn [mbind option_bind]. intros [= <- _]. do 4 right. left. now exists l, t'.
    - destruct c' as [[] [] [] [] [] [] [] []];
        try (destruct (elements f _) as [[l t']|] eqn:Hm; [|discriminate];
             cbn [mbind option_bind]; intros [= <- _]; do 4 right; left; now exists l, t').
      intros [= <- _]. do 2 right. now left. }
  intros Hw. now do 5 right.
Qed.

Lemma elements_step_cases (f : nat) (s : string) (l : list pyval) (t : string) :
  elements (S f) s = Some (l, t) ->
  exists v r1, value f s = Some (v, r1)
    /\ (l = [v] \/ exists l' r2, elements f r2 = Some (l', t) /\ l = v :: l').
Proof.
  rewrite elements_step.
  destruct (value f s) as [[v r1]|]; [|discriminate]. cbn [mbind option_bind].
  intros Hl. exists v, r1. split; [reflexivity|].
  destruct (skip_ws r1) as [|c r2]; [discriminate|].
  destruct c as [[] [] [] [] [] [] [] []]; try discriminate.
  - injection Hl as <- _. now left.
  - destruct (elements f (skip_ws r2)) as [[l' r3]|] eqn:He; [|discriminate].
    cbn [mbind option_bind] in Hl. injection Hl as <- <-. right. now exists l', (skip_ws r2).
Qed.

Lemma members_step_cases (f : nat) (s : string) (l : items) (t : string) :
  members (S f) s = Some (l, t) ->
  exists k v r r3, value f r = Some (v, r3)
    /\ (l = [(k, v)]
        \/ exists l' r4, members f r4 = Some (l', t) /\ l = (k, v) :: l').
Proof.
  destruct s as [|c r]; [discriminate|].
  change (members (S f) (String c r))
    with (if Ascii.eqb c dquote then members (S f) (String dquote r) else None).
  destruct (Ascii.eqb c dquote); [|discriminate].
  rewrite members_step.
  destruct (scan_string r) as [[k r1]|]; [|discriminate]. cbn [mbind option_bind].
  destruct (skip_ws r1) as [|c1 r2]; [discriminate|].
  destruct c1 as [[] [] [] [] [] [] [] []]; try discriminate.
  destruct (value f (skip_ws r2)) as [[v r3]|] eqn:Hv; [|discriminate].
  cbn [mbind option_bind]. intros Hl.
  exists k, v, (skip_ws r2), r3. split; [exact Hv|].
  destruct (skip_ws r3) as [|c3 r4]; [discriminate|].
  destruct c3 as [[] [] [] [] [] [] [] []]; try discriminate.
  - injection Hl as <- _. now left.
  - destruct (members f (skip_ws r4)) as [[l' r5]|] eqn:Hm; [|discriminate].
    cbn [mbind option_bind] in Hl. injection Hl as <- <-.
    right. now exists l', (skip_ws r4).
Qed.

(** Every value that [json.loads] gives is a value of Python. *)
Lemma value_valid (fuel : nat) :
  (forall s v t, value fuel s = Some (v, t) -> python_value v = true)
  /\ (forall s l t, members fuel s = Some (l, t) ->
        forallb (fun kv => let '(_, w) := kv in python_value w) l = true)
  /\ (forall s l t, elements fuel s = Some (l, t) ->
        forallb python_value l = true).
Proof.
  induction fuel as [|f (IHv & IHm & IHe)]; [repeat split; discriminate|].
  repeat split.
  - intros s v t Hv. destruct s as [|c r]; [discriminate|].
    destruct (value_step_cases _ _ _ _ _ Hv)
      as [[u ->] | [-> | [-> | [(l & t' & Hm & ->) | [(l & t' & He & ->) | Hw]]]]];
      try reflexivity.
    + apply of_pairs_valid. exact (IHm _ _ _ Hm).
    + exact (IHe _ _ _ He).
    + exact (scan_word_valid _ _ _ Hw).
  - intros s l t Hm.
    destruct (members_step_cases _ _ _ _ Hm)
      as (k & v & r & r3 & Hv & [-> | (l' & r4 & Hm' & ->)]);
      cbn [forallb]; rewrite (IHv _ _ _ Hv); [reflexivity|].
    exact (IHm _ _ _ Hm').
  - intros s l t He.
    destruct (elements_step_cases _ _ _ _ He)
      as (v & r1 & Hv & [-> | (l' & r2 & He' & ->)]);
      cbn [forallb]; rewrite (IHv _ _ _ Hv); [reflexivity|].
    exact (IHe _ _ _ He').
Qed.

Lemma loads_valid (text : string) (v : pyval) :
  loads text = Some v -> python_value v = true.
Proof.
  unfold loads.
  destruct (value _ _) as [[v' r]|] eqn:Hv; [|discriminate].
  cbn [mbind option_bind]. destruct (String.eqb _ _); [|discriminate].
  intros [= <-]. exact (proj1 (value_valid _) _ _ _ Hv).
Qed.

End Validity.

(* ===================================================================== *)
(** * Properties of the shell                                             *)
(* ===================================================================== *)

Section ShellFacts.

Import PyFloat CryptoShell.

Context `{Json}.

(** The eight parameter names are lower-case tokens. *)
Lemma eight_keys_plain (n : string) :
  str_in n eight_keys = true -> PyStr.lower n = n /\ PyStr.is_token n = true.
Proof.
  unfold str_in, eight_keys. cbn [existsb]. intros Hn.
  repeat (apply orb_prop in Hn as [Hn|Hn]);
    try discriminate; apply String.eqb_eq in Hn; subst n; split; reflexivity.
Qed.

(** What the rules accept, the validation passes on with the same
    value. *)
Lemma validate_accepts (n v : string) (x : pyval) :
  Rules.accepts n v = Some x -> validate n v = Passed x.
Proof.
  unfold Rules.accepts, validate, str_in. cbn [existsb].
  destruct (String.eqb n "exchange").
  { destruct (existsb _ available_exchanges); [|discriminate].
    now intros [= <-]. }
  destruct (String.eqb n "strategy").
  { destruct (existsb _ available_strategies); [|discriminate].
    now intros [= <-]. }
  destruct (String.eqb n "cash_at_risk").
  { destruct (py_float v) as [y|]; [|discriminate].
    rewrite range_test.
    destruct (Rules.in_unit_interval y); [|discriminate].
    now intros [= <-]. }
  rewrite !orb_false_r.
  destruct (String.eqb n "start_date" || String.eqb n "end_date").
  { destruct (PyTime.strptime_ymd v); [|discriminate]. now intros [= <-]. }
  destruct (_ || _); [|discriminate]. now intros [= <-].
Qed.

(** The update never changes the keys of a configuration. *)
Lemma update_keys (n : string) (v : pyval) (sh : shell) :
  config_keys (fst (update n v sh)) = config_keys sh.
Proof.
  unfold update, config_keys.
  destruct (config sh) as [| | | |s|l|d] eqn:Hc; cbn [py_in py_setitem fst];
    rewrite ?Hc; try reflexivity.
  - destruct (PyStr.contains s n); cbn [fst]; now rewrite Hc.
  - destruct (existsb _ l); cbn [fst]; now rewrite Hc.
  - destruct (Dict.has n d) eqn:Hd; cbn [fst config].
    + now rewrite dict_keys_set.
    + now rewrite Hc.
Qed.

Lemma set_parameter_keys (arg : string) (sh : shell) :
  config_keys (fst (do_set_parameter arg sh)) = config_keys sh.
Proof.
  unfold do_set_parameter.
  destruct (PyStr.split arg) as [|name [|value rest]]; try reflexivity.
  destruct (validate _ _); [reflexivity | apply update_keys].
Qed.

Lemma save_config_config (arg : string) (sh : shell) :
  config (fst (do_save_config arg sh)) = config sh.
Proof.
  unfold do_save_config. destruct (Disk.write _ _ _); reflexivity.
Qed.

Lemma show_config_same (arg : string) (sh : shell) :
  fst (do_show_config arg sh) = sh.
Proof. unfold do_show_config. destruct (config sh); reflexivity. Qed.

Lemma exec_keys (c : command) (sh : shell) :
  is_load c = false -> config_keys (fst (exec c sh)) = config_keys sh.
Proof.
  destruct c as [arg|arg|arg|arg]; cbn [is_load exec]; intros Hc.
  - now rewrite show_config_same.
  - apply set_parameter_keys.
  - unfold config_keys. now rewrite save_config_config.
  - discriminate.
Qed.

Lemma run_keys (cs : list command) (sh : shell) :
  forallb (fun c => negb (is_load c)) cs = true ->
  config_keys (run cs sh) = config_keys sh.
Proof.
  revert sh. induction cs as [|c cs IH]; intros sh Hcs; [reflexivity|].
  cbn [forallb] in Hcs. apply andb_prop in Hcs as [Hc Hcs].
  apply negb_true_iff in Hc.
  cbn [run]. pose proof (exec_keys c sh Hc) as Hk.
  destruct (exec c sh) as [sh' o]. cbn [fst] in Hk.
  destruct (raised o); [exact Hk|].
  now rewrite (IH sh' Hcs).
Qed.

(** C1, as the code has it.  Commands other than [load_config] keep the
    keys of the configuration: from the default configuration, every
    sequence of [show_config], [set_parameter] and [save_config]
    commands leaves exactly the eight keys, in their order.  A
    [load_config] that reads a file replaces the configuration by the
    value read, whatever its keys are. *)
Theorem key_set_preserved :
  (forall (cs : list command) (files : gmap string Disk.node),
      forallb (fun c => negb (is_load c)) cs = true ->
      config_keys (run cs (start files)) = Some eight_keys)
  /\ (forall (arg text : string) (v : pyval) (sh : shell),
         Disk.read (config_path arg) (disk sh) = inr text ->
         json_loads text = Some v ->
         config (fst (do_load_config arg sh)) = v).
Proof.
  split.
  - intros cs files Hcs. now rewrite (run_keys cs _ Hcs).
  - intros arg text v sh Hread Hv. unfold do_load_config.
    fold (config_path arg). now rewrite Hread, Hv.
Qed.

(** C3, as the code has it.  For a configuration that has the key [n],
    one of the eight parameter names, and a value [v] in range for [n]
    that is one token, without white space, with [x] the value the rules
    give it: after [set_parameter n v], [show_config] lists the items of
    the new configuration, which has the keys of the old one in the same
    order, [x] under [n], and under every other key the value it had
    before. *)
Theorem set_parameter_then_show_config
    (sh : shell) (d : items) (n v : string) (x : pyval) :
  config sh = VDict d ->
  NoDup (Dict.keys d) ->
  Dict.has n d = true ->
  str_in n eight_keys = true ->
  PyStr.is_token v = true ->
  Rules.accepts n v = Some x ->
  let sh' := fst (do_set_parameter (n +:+ " " +:+ v) sh) in
  exists d' : items,
    config sh' = VDict d'
    /\ disk sh' = disk sh
    /\ do_show_config EmptyString sh'
       = (sh', returns (MsgCurrentConfiguration
                          :: map (fun kv => MsgItem (fst kv) (snd kv)) d'))
    /\ Dict.keys d' = Dict.keys d
    /\ Dict.get n d' = Some x
    /\ (forall k : string, k <> n -> Dict.get k d' = Dict.get k d)
    /\ In (n, x) d'
    /\ (forall (k : string) (w : pyval),
           In (k, w) d' -> if String.eqb k n then w = x else In (k, w) d).
Proof.
  intros Hcfg Hnd Hhas Hn Hv Hacc sh'.
  destruct (eight_keys_plain n Hn) as [Hlow Htok].
  assert (Hsh : sh' = {| config := VDict (Dict.set n x d); disk := disk sh |}).
  { subst sh'. unfold do_set_parameter.
    rewrite (split_two_tokens n v Htok Hv). cbv zeta.
    rewrite Hlow, (validate_accepts n v x Hacc).
    unfold update. rewrite Hcfg. cbn [py_in py_setitem]. now rewrite Hhas. }
  rewrite Hsh. exists (Dict.set n x d). repeat split.
  - now apply dict_keys_set.
  - apply dict_get_set_eq.
  - intros k Hk. now apply dict_get_set_ne.
  - apply dict_set_in.
  - intros k w. now apply dict_set_items.
Qed.

(** The two ways a value that the rules reject is turned down, for a
    configuration with the eight keys: by the validation, or by the
    update that does not find the key. *)
Lemma rejection_paths (sh : shell) (d : items) (n v : string) :
  config sh = VDict d ->
  Dict.keys d = eight_keys ->
  Rules.accepts n v = None ->
  ~ (n = "cash_at_risk" /\ py_float v = Some S754_nan) ->
  exists out,
    validate n v = Rejected out /\ existsb is_error out = true
    \/ (validate n v = Passed (VStr v)
        /\ update n (VStr v) sh = (sh, returns out)
        /\ existsb is_error out = true).
Proof.
  intros Hcfg Hkeys Hacc Hnan.
  unfold Rules.accepts in Hacc. unfold validate, str_in. cbn [existsb].
  destruct (String.eqb_spec n "exchange") as [->|Hn1].
  { destruct (str_in v available_exchanges) eqn:E; [discriminate|].
    unfold str_in in E. rewrite E. eexists. left. split; reflexivity. }
  destruct (String.eqb_spec n "strategy") as [->|Hn2].
  { destruct (str_in v available_strategies) eqn:E; [discriminate|].
    unfold str_in in E. rewrite E. eexists. left. split; reflexivity. }
  destruct (String.eqb_spec n "cash_at_risk") as [->|Hn3].
  { destruct (py_float v) as [y|].
    - rewrite range_test.
      destruct (Rules.in_unit_interval y); [discriminate|].
      destruct y; try (eexists; left; split; reflexivity).
      exfalso. now apply Hnan.
    - eexists. left. split; reflexivity. }
  rewrite !orb_false_r.
  destruct (String.eqb n "start_date" || String.eqb n "end_date") eqn:Ed.
  { destruct (PyTime.strptime_ymd v); [discriminate|].
    eexists. left. split; reflexivity. }
  destruct (str_in n ["coin"; "quote"; "min_timestep"]) eqn:Ef; [discriminate|].
  eexists. right. split; [reflexivity|].
  unfold update. rewrite Hcfg. cbn [py_in].
  assert (Hhas : Dict.has n d = false).
  { destruct (Dict.has n d) eqn:Hd; [|reflexivity].
    apply dict_has_keys in Hd. rewrite Hkeys in Hd.
    unfold eight_keys in Hd. cbn [In] in Hd.
    unfold str_in in Ef. cbn [existsb] in Ef.
    apply orb_false_elim in Ed as [Ed1 Ed2].
    repeat (apply orb_false_elim in Ef as [? Ef]).
    repeat match goal with
           | E : String.eqb _ _ = false |- _ => apply String.eqb_neq in E
           end.
    repeat destruct Hd as [Hd|Hd]; try congruence. destruct Hd. }
  rewrite Hhas. split; reflexivity.
Qed.

(** [cash_at_risk] is set exactly for the texts read as a float of
    (0,1] or as a NaN. *)
Lemma cash_at_risk_validation (v : string) (w : pyval) :
  validate "cash_at_risk" v = Passed w <->
  exists x : float,
    py_float v = Some x /\ w = VFloat x
    /\ (Rules.in_unit_interval x = true \/ is_nan x = true).
Proof.
  unfold validate. cbn [String.eqb Ascii.eqb Bool.eqb].
  destruct (py_float v) as [y|].
  - rewrite range_test. split.
    + destruct (Rules.in_unit_interval y) eqn:Hu; cbn [orb negb].
      * intros [= <-]. exists y. auto.
      * destruct (is_nan y) eqn:Hn; cbn [negb]; [|discriminate].
        intros [= <-]. exists y. auto.
    + intros (x & [= <-] & -> & Hx).
      destruct Hx as [-> | ->]; [reflexivity | now rewrite orb_true_r].
  - split; [discriminate | intros (x & Hx & _); discriminate].
Qed.

(** For a configuration with the eight keys, a command of two tokens
    whose value the rules reject for its name prints an error and leaves
    the shell as it was, unless the value is read as a NaN for
    [cash_at_risk]. *)
Lemma set_parameter_rejection (sh : shell) (d : items) (n v : string) :
  config sh = VDict d ->
  Dict.keys d = eight_keys ->
  PyStr.is_token n = true ->
  PyStr.is_token v = true ->
  Rules.accepts (PyStr.lower n) v = None ->
  ~ (PyStr.lower n = "cash_at_risk" /\ py_float v = Some S754_nan) ->
  fst (do_set_parameter (n +:+ " " +:+ v) sh) = sh
  /\ surfaces_error (snd (do_set_parameter (n +:+ " " +:+ v) sh)) = true.
Proof.
  intros Hcfg Hkeys Hn Hv Hacc Hnan.
  unfold do_set_parameter. rewrite (split_two_tokens n v Hn Hv). cbv zeta.
  destruct (rejection_paths sh d (PyStr.lower n) v Hcfg Hkeys Hacc Hnan)
    as (out & [[-> Herr] | (-> & -> & Herr)]);
    cbn [fst snd]; unfold surfaces_error; cbn [printed returns];
    now rewrite Herr.
Qed.

(** Whenever [set_parameter] prints an error or raises, it leaves the
    shell as it was. *)
Lemma set_parameter_error_unchanged (arg : string) (sh : shell) :
  surfaces_error (snd (do_set_parameter arg sh)) = true ->
  fst (do_set_parameter arg sh) = sh.
Proof.
  unfold do_set_parameter.
  destruct (PyStr.split arg) as [|name [|value rest]]; try reflexivity.
  destruct (validate _ _); [reflexivity|].
  unfold update. destruct (py_in _ _) as [[]|]; try reflexivity.
  - destruct (py_setitem _ _ _); [discriminate | reflexivity].
  - destruct (config sh); reflexivity.
Qed.


(** C6, as the code has it.  No exception ever leaves [load_config],
    and a [load_config] that prints an error leaves the shell as it was.
    It prints the file-not-found error when opening the file raises
    [FileNotFoundError], as it does when the path leads to a place where
    nothing is; it prints the JSON-format error when the text read is
    not JSON; and for every other exception of opening or of reading the
    file it prints the error of loading with that exception. *)
Theorem load_config_failure_keeps_config (sh : shell) (arg : string) :
  raised (snd (do_load_config arg sh)) = None
  /\ (surfaces_error (snd (do_load_config arg sh)) = true ->
      fst (do_load_config arg sh) = sh)
  /\ (Disk.read (config_path arg) (disk sh) = inl FileNotFoundError ->
      do_load_config arg sh = (sh, returns [ErrFileNotFound (config_filename arg)]))
  /\ (forall k : string,
         Disk.resolve false (config_path arg) (disk sh) = inr k ->
         Disk.kind_of k (disk sh) = Disk.Nothing ->
         do_load_config arg sh = (sh, returns [ErrFileNotFound (config_filename arg)]))
  /\ (forall text : string,
         Disk.read (config_path arg) (disk sh) = inr text ->
         json_loads text = None ->
         do_load_config arg sh = (sh, returns [ErrInvalidJson (config_filename arg)]))
  /\ (forall e : exn,
         Disk.read (config_path arg) (disk sh) = inl e ->
         e <> FileNotFoundError ->
         do_load_config arg sh = (sh, returns [ErrLoading e])).
Proof.
  unfold do_load_config, config_path.
  split; [|split; [|split; [|split; [|split]]]].
  - destruct (Disk.read _ _) as [[]|text]; try reflexivity.
    destruct (json_loads text); reflexivity.
  - destruct (Disk.read _ _) as [[]|text]; try reflexivity.
    destruct (json_loads text); [discriminate | reflexivity].
  - now intros ->.
  - intros k Hk Hnothing. unfold Disk.read. now rewrite Hk, Hnothing.
  - now intros text -> ->.
  - intros e -> He. destruct e; try reflexivity. contradiction.
Qed.

End ShellFacts.

(** ** The shell on concrete inputs *)

Section ShellCases.

Import PyFloat CryptoShell PyJson.

(** C1 fails as written: loading a file that holds the empty JSON object
    leaves a configuration without any of the eight keys. *)
Lemma load_config_replaces_keys :
  config_keys
    (run [LoadConfig EmptyString]
         (start {[ "crypto_journey/crypto_config.json" := Disk.File "{}" ]}))
  <> Some eight_keys.
Proof. vm_compute. discriminate. Qed.

(** For instance: setting the exchange, saving and showing keep the eight
    keys, and loading a file that holds the empty object gives the empty
    configuration. *)
Lemma key_set_preserved_witness :
  config_keys
    (run [SetParameter "exchange kraken"; SaveConfig "mine";
          ShowConfig EmptyString] (start ∅))
  = Some eight_keys
  /\ config
       (fst (do_load_config "mine"
               (start {[ "crypto_journey/mine.json" := Disk.File "{}" ]})))
     = VDict [].
Proof.
  split.
  - apply (proj1 key_set_preserved). reflexivity.
  - apply (proj2 key_set_preserved "mine" "{}"); vm_compute; reflexivity.
Defined.

(** C2.  The text [nan] is read as a NaN, which is no value of (0,1];
    [set_parameter cash_at_risk nan] stores it and prints that the
    parameter is set. *)
Theorem cash_at_risk_nan_accepted (files : gmap string Disk.node) :
  py_float "nan" = Some S754_nan
  /\ Rules.in_unit_interval S754_nan = false
  /\ do_set_parameter "cash_at_risk nan" (start files)
     = ({| config :=
             VDict [ ("exchange", VStr "coinbase");
                     ("strategy", VStr "random");
                     ("coin", VStr "BTC");
                     ("quote", VStr "USD");
                     ("cash_at_risk", VFloat S754_nan);
                     ("start_date", VStr "2023-06-01");
                     ("end_date", VStr "2023-12-31");
                     ("min_timestep", VStr "day") ];
           disk := files |},
        returns [MsgParameterSet "cash_at_risk" (VFloat S754_nan)]).
Proof. repeat split. Qed.

(** For instance: after [set_parameter cash_at_risk 0.5] on the default
    configuration, [show_config] prints [cash_at_risk: 0.5]. *)
Lemma set_parameter_then_show_config_witness :
  In (MsgItem "cash_at_risk" (VFloat (S754_finite false 4503599627370496 (-53))))
     (printed (snd (do_show_config EmptyString
                      (fst (do_set_parameter "cash_at_risk 0.5" (start ∅)))))).
Proof.
  destruct (set_parameter_then_show_config
              (start ∅)
              [ ("exchange", VStr "coinbase"); ("strategy", VStr "random");
                ("coin", VStr "BTC"); ("quote", VStr "USD");
                ("cash_at_risk", VFloat (S754_finite false 4503599627370496 (-54)));
                ("start_date", VStr "2023-06-01"); ("end_date", VStr "2023-12-31");
                ("min_timestep", VStr "day") ]
              "cash_at_risk" "0.5"
              (VFloat (S754_finite false 4503599627370496 (-53))))
    as (d' & _ & _ & Hshow & _ & _ & _ & Hin & _).
  - reflexivity.
  - apply (bool_decide_unpack _). vm_compute. exact I.
  - reflexivity.
  - reflexivity.
  - reflexivity.
  - vm_compute. reflexivity.
  - change ("cash_at_risk" +:+ " " +:+ "0.5") with "cash_at_risk 0.5" in Hshow.
    rewrite Hshow. cbn [snd printed returns]. right.
    apply (in_map (fun kv => MsgItem (fst kv) (snd kv)) d' _ Hin).
Defined.

(** C3 fails as written.  The rules accept any string for
    [min_timestep], but of [1 day] the handler stores the first token
    only, and [show_config] shows [1].  And after a [load_config] of a
    file that holds the empty object the configuration has no key:
    [set_parameter coin ETH] prints that the parameter is unknown, and
    [show_config] shows no item. *)
Lemma set_parameter_not_reflected :
  let sh := fst (do_set_parameter "min_timestep 1 day" (start ∅)) in
  let loaded :=
    fst (do_load_config EmptyString
           (start {[ "crypto_journey/crypto_config.json" := Disk.File "{}" ]})) in
  str_in "min_timestep" eight_keys = true
  /\ Rules.accepts "min_timestep" "1 day" = Some (VStr "1 day")
  /\ In (MsgItem "min_timestep" (VStr "1"))
        (printed (snd (do_show_config EmptyString sh)))
  /\ ~ In (MsgItem "min_timestep" (VStr "1 day"))
          (printed (snd (do_show_config EmptyString sh)))
  /\ str_in "coin" eight_keys = true
  /\ Rules.accepts "coin" "ETH" = Some (VStr "ETH")
  /\ surfaces_error (snd (do_set_parameter "coin ETH" loaded)) = true
  /\ printed (snd (do_show_config EmptyString
                     (fst (do_set_parameter "coin ETH" loaded))))
     = [MsgCurrentConfiguration].
Proof.
  vm_compute. repeat split; try tauto.
  intros Hin. repeat destruct Hin as [Hin|Hin]; try discriminate Hin. exact Hin.
Qed.

(** C4.  The rules reject [nan] for [cash_at_risk]; the handler prints
    no error for it and changes the configuration. *)
Theorem rejected_nan_changes_store (files : gmap string Disk.node) :
  Rules.accepts "cash_at_risk" "nan" = None
  /\ surfaces_error (snd (do_set_parameter "cash_at_risk nan" (start files))) = false
  /\ config (fst (do_set_parameter "cash_at_risk nan" (start files)))
     <> config (start files).
Proof. repeat split. discriminate. Qed.




(** C6 fails as written.  Under [crypto_journey/mine.json], a regular
    file, there is no file [x.json], and [load_config mine.json/x]
    prints the error of loading, with [NotADirectoryError], not the
    file-not-found error.  And for a file whose bytes are no text it
    prints the error of loading, with [UnicodeDecodeError], not the
    JSON-format error. *)
Lemma load_config_other_errors :
  let sh := start {[ "crypto_journey/mine.json" := Disk.File "{}" ]} in
  let sh' := start {[ "crypto_journey/crypto_config.json" := Disk.Undecodable ]} in
  disk sh !! "crypto_journey/mine.json/x.json" = None
  /\ config_path "mine.json/x" = "crypto_journey/mine.json/x.json"
  /\ do_load_config "mine.json/x" sh = (sh, returns [ErrLoading NotADirectoryError])
  /\ do_load_config EmptyString sh' = (sh', returns [ErrLoading UnicodeDecodeError]).
Proof. vm_compute. repeat split. Qed.

(** For instance: loading a file that is not there, from the directory
    [crypto_journey] and without it, and loading a file that holds an
    unfinished object. *)
Lemma load_config_failure_keeps_config_witness :
  do_load_config "nowhere" (start {[ "crypto_journey" := Disk.Directory ]})
  = (start {[ "crypto_journey" := Disk.Directory ]},
     returns [ErrFileNotFound "nowhere.json"])
  /\ do_load_config "nowhere" (start ∅)
     = (start ∅, returns [ErrFileNotFound "nowhere.json"])
  /\ do_load_config "bad"
       (start {[ "crypto_journey/bad.json" := Disk.File "{oops" ]})
     = (start {[ "crypto_journey/bad.json" := Disk.File "{oops" ]},
        returns [ErrInvalidJson "bad.json"])
  /\ do_load_config "crypto_journey"
       (start {[ "crypto_journey/crypto_journey.json" := Disk.Directory ]})
     = (start {[ "crypto_journey/crypto_journey.json" := Disk.Directory ]},
        returns [ErrLoading IsADirectoryError]).
Proof.
  split; [|split; [|split]].
  - apply (proj1 (proj2 (proj2 (proj2 (load_config_failure_keeps_config
             (start {[ "crypto_journey" := Disk.Directory ]}) "nowhere"))))
             "crypto_journey/nowhere.json");
      vm_compute; reflexivity.
  - apply (proj1 (proj2 (proj2 (load_config_failure_keeps_config
             (start ∅) "nowhere")))).
    vm_compute. reflexivity.
  - apply (proj1 (proj2 (proj2 (proj2 (proj2 (load_config_failure_keeps_config
             (start {[ "crypto_journey/bad.json" := Disk.File "{oops" ]})
             "bad"))))) "{oops");
      vm_compute; reflexivity.
  - apply (proj2 (proj2 (proj2 (proj2 (proj2 (load_config_failure_keeps_config
             (start {[ "crypto_journey/crypto_journey.json" := Disk.Directory ]})
             "crypto_journey"))))) IsADirectoryError);
      [vm_compute; reflexivity | discriminate].
Defined.

End ShellCases.

(* ===================================================================== *)
(** * Properties of the strategy                                          *)
(* ===================================================================== *)

Section TraderFacts.

Import PyFloat Randobot.

(** The iteration, case by case. *)
Lemma iteration_no_price (self : trader) (env : tick) :
  last_price env = None ->
  on_trading_iteration self env
  = (self, asked self ++ [PrintWarning (coin self) (quote self)], None).
Proof.
  intros Hp. unfold on_trading_iteration, position_sizing. now rewrite Hp.
Qed.

Lemma iteration_zero_price (self : trader) (env : tick) (p : float) :
  last_price env = Some p -> is_zero p = true ->
  on_trading_iteration self env = (self, asked self, Some ZeroDivisionError).
Proof.
  intros Hp Hz. unfold on_trading_iteration, position_sizing, truediv.
  now rewrite Hp, Hz.
Qed.

Lemma iteration_unaffordable (self : trader) (env : tick) (p : float) :
  last_price env = Some p -> is_zero p = false ->
  let quantity := fdiv (fmul (cash env) (cash_at_risk self)) p in
  fgt quantity fzero && fgt (cash env) (fmul quantity p) = false ->
  on_trading_iteration self env = (self, asked self, None).
Proof.
  intros Hp Hz quantity Hq.
  unfold on_trading_iteration, position_sizing, truediv.
  rewrite Hp, Hz. fold quantity.
  destruct (fgt quantity fzero); [|reflexivity].
  destruct (fgt (cash env) (fmul quantity p)); [discriminate | reflexivity].
Qed.

Lemma iteration_drawn (self : trader) (env : tick) (p : float) :
  last_price env = Some p -> is_zero p = false ->
  let quantity := fdiv (fmul (cash env) (cash_at_risk self)) p in
  fgt quantity fzero && fgt (cash env) (fmul quantity p) = true ->
  on_trading_iteration self env =
  if choice env =? 0 then
    (self, asked self ++ [RandomChoice [0; 1; 2]], None)
  else if choice env =? 1 then
    (set_last_trade self "buy",
     asked self ++ [RandomChoice [0; 1; 2]]
       ++ (if bool_decide (last_trade self = Some "sell") then [SellAll] else [])
       ++ [CreateOrder (market_order self quantity "buy");
           PrintOrder (market_order self quantity "buy");
           SubmitOrder (market_order self quantity "buy")],
     None)
  else if choice env =? 2 then
    (set_last_trade self "sell",
     asked self ++ [RandomChoice [0; 1; 2]]
       ++ (if bool_decide (last_trade self = Some "buy") then [SellAll] else [])
       ++ [CreateOrder (market_order self quantity "sell");
           PrintOrder (market_order self quantity "sell");
           SubmitOrder (market_order self quantity "sell")],
     None)
  else (self, asked self ++ [RandomChoice [0; 1; 2]], None).
Proof.
  intros Hp Hz quantity Hq. apply andb_prop in Hq as [Hq1 Hq2].
  unfold on_trading_iteration, position_sizing, truediv.
  rewrite Hp, Hz. fold quantity. rewrite Hq1, Hq2.
  destruct (choice env =? 0); [reflexivity|].
  destruct (choice env =? 1).
  { destruct (bool_decide _); now rewrite <- ?app_assoc. }
  destruct (choice env =? 2).
  { destruct (bool_decide _); now rewrite <- ?app_assoc. }
  reflexivity.
Qed.

(** An iteration that stops after [position_sizing] has neither drawn
    nor traded. *)
Lemma quiet_events (evs : list event) :
  forallb (fun e => match e with
                    | GetCash | GetLastPrice _ _ | PrintWarning _ _ => true
                    | _ => false
                    end) evs = true ->
  ~ (In (RandomChoice [0; 1; 2]) evs
     \/ (exists e, In e evs /\ is_trade e = true)).
Proof.
  rewrite forallb_forall. intros Hq [Hd|(e & He & Ht)].
  - now apply Hq in Hd.
  - apply Hq in He. destruct e; discriminate.
Qed.

(** C7.  Without a price, [position_sizing] returns the quantity zero,
    and the iteration does nothing but ask for the cash and the price
    and print the warning: no liquidation, no order, no exception, the
    strategy as before. *)
Theorem no_price_no_order (self : trader) (env : tick) :
  last_price env = None ->
  position_sizing self env
  = (asked self ++ [PrintWarning (coin self) (quote self)],
     inr (cash env, None, fzero))
  /\ on_trading_iteration self env
     = (self, asked self ++ [PrintWarning (coin self) (quote self)], None)
  /\ forallb (fun e => negb (is_trade e))
             (snd (fst (on_trading_iteration self env))) = true.
Proof.
  intros Hp. rewrite (iteration_no_price self env Hp).
  unfold position_sizing. rewrite Hp. repeat split.
Qed.

(** C8.  In an iteration that draws a decision, [position_sizing] has
    returned the quantity [cash * cash_at_risk / last_price].  When [1]
    (buy) or [2] (sell) is drawn: [sell_all] is called first exactly when
    the side remembered is the opposite one, then the market order of
    that side for that quantity, on the coin against the quote, is
    created, printed and submitted; afterwards the side remembered is
    the side drawn and the other attributes of the strategy are as
    before.  When [0] (hold) is drawn, nothing follows the draw and the
    strategy is as before.  No exception leaves the iteration. *)
Theorem decision_effects (self self' : trader) (env : tick)
    (evs : list event) (err : option exn) :
  on_trading_iteration self env = (self', evs, err) ->
  In (RandomChoice [0; 1; 2]) evs ->
  exists p quantity : float,
    last_price env = Some p
    /\ quantity = fdiv (fmul (cash env) (cash_at_risk self)) p
    /\ position_sizing self env
       = ([GetCash;
           GetLastPrice {| symbol := coin self; asset_type := "crypto" |}
                        {| symbol := quote self; asset_type := "crypto" |}],
          inr (cash env, Some p, quantity))
    /\ err = None
    /\ (choice env = 1 ->
        let buy := {| order_asset := {| symbol := coin self; asset_type := "crypto" |};
                      order_quantity := quantity;
                      order_side := "buy";
                      order_type := "market";
                      order_quote := {| symbol := quote self; asset_type := "crypto" |} |} in
        last_trade self' = Some "buy"
        /\ self' = {| sleeptime := sleeptime self; last_trade := Some "buy";
                      cash_at_risk := cash_at_risk self;
                      coin := coin self; quote := quote self |}
        /\ evs = [GetCash;
                  GetLastPrice {| symbol := coin self; asset_type := "crypto" |}
                               {| symbol := quote self; asset_type := "crypto" |};
                  RandomChoice [0; 1; 2]]
                 ++ (if bool_decide (last_trade self = Some "sell")
                     then [SellAll] else [])
                 ++ [CreateOrder buy; PrintOrder buy; SubmitOrder buy])
    /\ (choice env = 2 ->
        let sell := {| order_asset := {| symbol := coin self; asset_type := "crypto" |};
                       order_quantity := quantity;
                       order_side := "sell";
                       order_type := "market";
                       order_quote := {| symbol := quote self; asset_type := "crypto" |} |} in
        last_trade self' = Some "sell"
        /\ self' = {| sleeptime := sleeptime self; last_trade := Some "sell";
                      cash_at_risk := cash_at_risk self;
                      coin := coin self; quote := quote self |}
        /\ evs = [GetCash;
                  GetLastPrice {| symbol := coin self; asset_type := "crypto" |}
                               {| symbol := quote self; asset_type := "crypto" |};
                  RandomChoice [0; 1; 2]]
                 ++ (if bool_decide (last_trade self = Some "buy")
                     then [SellAll] else [])
                 ++ [CreateOrder sell; PrintOrder sell; SubmitOrder sell])
    /\ (choice env = 0 ->
        self' = self
        /\ evs = [GetCash;
                  GetLastPrice {| symbol := coin self; asset_type := "crypto" |}
                               {| symbol := quote self; asset_type := "crypto" |};
                  RandomChoice [0; 1; 2]]).
Proof.
  intros Hit Hdraw.
  assert (Hquiet : forall l, evs = l ->
            forallb (fun e => match e with
                              | GetCash | GetLastPrice _ _ | PrintWarning _ _ => true
                              | _ => false
                              end) l = true -> False).
  { intros l <- Hl. apply (quiet_events evs Hl). now left. }
  destruct (last_price env) as [p|] eqn:Hp.
  2:{ rewrite (iteration_no_price self env Hp) in Hit.
      injection Hit as <- <- <-. exfalso. now apply (Hquiet _ eq_refl). }
  destruct (is_zero p) eqn:Hz.
  { rewrite (iteration_zero_price self env p Hp Hz) in Hit.
    injection Hit as <- <- <-. exfalso. now apply (Hquiet _ eq_refl). }
  destruct (fgt (fdiv (fmul (cash env) (cash_at_risk self)) p) fzero
            && fgt (cash env)
                   (fmul (fdiv (fmul (cash env) (cash_at_risk self)) p) p))
    eqn:Hq.
  2:{ rewrite (iteration_unaffordable self env p Hp Hz Hq) in Hit.
      injection Hit as <- <- <-. exfalso. now apply (Hquiet _ eq_refl). }
  rewrite (iteration_drawn self env p Hp Hz Hq) in Hit.
  exists p, (fdiv (fmul (cash env) (cash_at_risk self)) p).
  split; [reflexivity|]. split; [reflexivity|].
  split; [|split; [|split; [|split]]].
  - unfold position_sizing, truediv. now rewrite Hp, Hz.
  - destruct (choice env =? 0); [congruence|].
    destruct (choice env =? 1); [congruence|].
    destruct (choice env =? 2); congruence.
  - intros Hc. rewrite Hc in Hit. change (1 =? 0) with false in Hit.
    change (1 =? 1) with true in Hit. cbv iota in Hit.
    injection Hit as <- <- <-. cbv zeta. repeat split.
  - intros Hc. rewrite Hc in Hit. change (2 =? 0) with false in Hit.
    change (2 =? 1) with false in Hit. change (2 =? 2) with true in Hit.
    cbv iota in Hit. injection Hit as <- <- <-. cbv zeta. repeat split.
  - intros Hc. rewrite Hc in Hit. change (0 =? 0) with true in Hit.
    cbv iota in Hit. injection Hit as <- <- <-. split; reflexivity.
Qed.

(** C9 fails as written: with [cash_at_risk = 1], a cash of [1] and a
    price of [49], the quotient [1 / 49] times [49] rounds to a float
    below [1]; the order is affordable and is submitted, though
    [cash * cash_at_risk] is not below [cash]. *)
Lemma full_risk_still_trades :
  let self := initialize fone "BTC" "USD" in
  let env := {| cash := fone;
                last_price := Some (of_decimal false 49 0);
                choice := 1 |} in
  flt (fmul (cash env) (cash_at_risk self)) (cash env) = false
  /\ In (SubmitOrder (market_order self (fdiv fone (of_decimal false 49 0)) "buy"))
        (snd (fst (on_trading_iteration self env))).
Proof. vm_compute. split; [reflexivity | tauto]. Qed.

(** C9, as the code has it.  A decision is drawn, and with it an order
    may be submitted, only when the price is there and not zero, the
    quantity [cash * cash_at_risk / last_price] is positive and the
    product [quantity * last_price], each operation rounded, is below
    the cash.  When that product is not below the cash the iteration
    stops after [position_sizing]. *)
Theorem order_needs_affordable (self : trader) (env : tick) :
  (In (RandomChoice [0; 1; 2]) (snd (fst (on_trading_iteration self env)))
   \/ (exists e, In e (snd (fst (on_trading_iteration self env)))
                 /\ is_trade e = true) ->
   exists p : float,
     last_price env = Some p /\ is_zero p = false
     /\ fgt (fdiv (fmul (cash env) (cash_at_risk self)) p) fzero = true
     /\ fgt (cash env)
            (fmul (fdiv (fmul (cash env) (cash_at_risk self)) p) p) = true)
  /\ (forall p : float,
         last_price env = Some p -> is_zero p = false ->
         fgt (cash env)
             (fmul (fdiv (fmul (cash env) (cash_at_risk self)) p) p) = false ->
         on_trading_iteration self env = (self, asked self, None)).
Proof.
  split.
  - intros Hev.
    destruct (last_price env) as [p|] eqn:Hp.
    2:{ rewrite (iteration_no_price self env Hp) in Hev.
        exfalso. revert Hev. now apply quiet_events. }
    destruct (is_zero p) eqn:Hz.
    { rewrite (iteration_zero_price self env p Hp Hz) in Hev.
      exfalso. revert Hev. now apply quiet_events. }
    destruct (fgt (fdiv (fmul (cash env) (cash_at_risk self)) p) fzero
              && fgt (cash env)
                     (fmul (fdiv (fmul (cash env) (cash_at_risk self)) p) p))
      eqn:Hq.
    2:{ rewrite (iteration_unaffordable self env p Hp Hz Hq) in Hev.
        exfalso. revert Hev. now apply quiet_events. }
    apply andb_prop in Hq as [Hq1 Hq2]. now exists p.
  - intros p Hp Hz Hnot.
    apply (iteration_unaffordable self env p Hp Hz).
    cbv zeta. rewrite Hnot. apply andb_false_r.
Qed.

(** C10.  With a price that is zero, the division of [position_sizing]
    raises [ZeroDivisionError], which leaves the iteration too; with any
    other price it returns the rounded quotient
    [cash * cash_at_risk / last_price]. *)
Theorem zero_price_raises (self : trader) (env : tick) (p : float) :
  last_price env = Some p ->
  (is_zero p = true ->
   position_sizing self env = (asked self, inl ZeroDivisionError)
   /\ on_trading_iteration self env = (self, asked self, Some ZeroDivisionError))
  /\ (is_zero p = false ->
      position_sizing self env
      = (asked self,
         inr (cash env, Some p, fdiv (fmul (cash env) (cash_at_risk self)) p))).
Proof.
  intros Hp. split; intros Hz.
  - split; [|now apply (iteration_zero_price self env p)].
    unfold position_sizing, truediv. now rewrite Hp, Hz.
  - unfold position_sizing, truediv. now rewrite Hp, Hz.
Qed.

End TraderFacts.

(** ** The strategy on concrete inputs *)

Section TraderCases.

Import PyFloat Randobot.

(** For instance: a quarter of 1000 at risk and no price. *)
Lemma no_price_no_order_witness :
  on_trading_iteration
    (initialize (of_decimal false 25 (-2)) "BTC" "USD")
    {| cash := of_decimal false 1000 0; last_price := None; choice := 1 |}
  = (initialize (of_decimal false 25 (-2)) "BTC" "USD",
     [GetCash; GetLastPrice (crypto "BTC") (crypto "USD");
      PrintWarning "BTC" "USD"],
     None).
Proof.
  apply (proj1 (proj2 (no_price_no_order
                         (initialize (of_decimal false 25 (-2)) "BTC" "USD")
                         {| cash := of_decimal false 1000 0;
                            last_price := None; choice := 1 |}
                         eq_refl))).
Defined.

(** For instance: a buy drawn after a sell, with 1000 of cash, a quarter
    of it at risk and a price of 49: the order is for [250 / 49]. *)
Lemma decision_effects_witness :
  let self := {| sleeptime := "1D"; last_trade := Some "sell";
                 cash_at_risk := of_decimal false 25 (-2);
                 coin := "BTC"; quote := "USD" |} in
  let env := {| cash := of_decimal false 1000 0;
                last_price := Some (of_decimal false 49 0);
                choice := 1 |} in
  let buy := {| order_asset := {| symbol := "BTC"; asset_type := "crypto" |};
                order_quantity := of_ratio false 250 49;
                order_side := "buy";
                order_type := "market";
                order_quote := {| symbol := "USD"; asset_type := "crypto" |} |} in
  on_trading_iteration self env
  = ({| sleeptime := "1D"; last_trade := Some "buy";
        cash_at_risk := of_decimal false 25 (-2);
        coin := "BTC"; quote := "USD" |},
     [GetCash;
      GetLastPrice {| symbol := "BTC"; asset_type := "crypto" |}
                   {| symbol := "USD"; asset_type := "crypto" |};
      RandomChoice [0; 1; 2]; SellAll;
      CreateOrder buy; PrintOrder buy; SubmitOrder buy],
     None).
Proof.
  intros self env buy.
  destruct (decision_effects self
              (fst (fst (on_trading_iteration self env))) env
              (snd (fst (on_trading_iteration self env)))
              (snd (on_trading_iteration self env)))
    as (p & quantity & Hp & Hq & _ & Herr & Hbuy & _).
  - vm_compute. reflexivity.
  - vm_compute. tauto.
  - destruct (Hbuy eq_refl) as (_ & Hself & Hevs).
    injection Hp as <-.
    assert (Hquantity : quantity = of_ratio false 250 49)
      by (rewrite Hq; vm_compute; reflexivity).
    rewrite Hquantity in Hevs.
    destruct (on_trading_iteration self env) as [[self' evs] err].
    cbn [fst snd] in *. now subst.
Defined.

(** For instance: all of a cash of 1 at risk, at a price of 49 (a
    decision is drawn) and at a price of 2 (none is). *)
Lemma order_needs_affordable_witness :
  (exists p : float,
      Some (of_decimal false 49 0) = Some p
      /\ fgt fone (fmul (fdiv (fmul fone fone) p) p) = true)
  /\ on_trading_iteration
       (initialize fone "BTC" "USD")
       {| cash := fone; last_price := Some (of_decimal false 2 0); choice := 1 |}
     = (initialize fone "BTC" "USD",
        [GetCash; GetLastPrice (crypto "BTC") (crypto "USD")],
        None).
Proof.
  split.
  - destruct (proj1 (order_needs_affordable
                       (initialize fone "BTC" "USD")
                       {| cash := fone;
                          last_price := Some (of_decimal false 49 0);
                          choice := 1 |}))
      as (p & Hp & _ & _ & Hq).
    + left. vm_compute. tauto.
    + exists p. split; [exact Hp | exact Hq].
  - apply (proj2 (order_needs_affordable
                    (initialize fone "BTC" "USD")
                    {| cash := fone;
                       last_price := Some (of_decimal false 2 0);
                       choice := 1 |})
             (of_decimal false 2 0));
      vm_compute; reflexivity.
Defined.

(** For instance: a price of zero, and a price of 50 for a quarter of
    1000 at risk. *)
Lemma zero_price_raises_witness :
  on_trading_iteration
    (initialize (of_decimal false 25 (-2)) "BTC" "USD")
    {| cash := of_decimal false 1000 0; last_price := Some fzero; choice := 1 |}
  = (initialize (of_decimal false 25 (-2)) "BTC" "USD",
     [GetCash; GetLastPrice (crypto "BTC") (crypto "USD")],
     Some ZeroDivisionError)
  /\ position_sizing
       (initialize (of_decimal false 25 (-2)) "BTC" "USD")
       {| cash := of_decimal false 1000 0;
          last_price := Some (of_decimal false 50 0); choice := 1 |}
     = ([GetCash; GetLastPrice (crypto "BTC") (crypto "USD")],
        inr (of_decimal false 1000 0, Some (of_decimal false 50 0),
             of_decimal false 5 0)).
Proof.
  split.
  - apply (proj1 (zero_price_raises
                    (initialize (of_decimal false 25 (-2)) "BTC" "USD")
                    {| cash := of_decimal false 1000 0;
                       last_price := Some fzero; choice := 1 |}
                    fzero eq_refl)).
    reflexivity.
  - apply (proj2 (zero_price_raises
                    (initialize (of_decimal false 25 (-2)) "BTC" "USD")
                    {| cash := of_decimal false 1000 0;
                       last_price := Some (of_decimal false 50 0); choice := 1 |}
                    (of_decimal false 50 0) eq_refl)).
    reflexivity.
Defined.

End TraderCases.

(* ===================================================================== *)
(** * Further properties of the shell                                     *)
(* ===================================================================== *)

Section FileNames.

Import CryptoShell.

Context `{Json}.

Lemma length_app_string (a b : string) :
  String.length (a +:+ b) = (String.length a + String.length b)%nat.
Proof.
  induction a as [|c a IH]; [reflexivity|].
  rewrite app_cons. cbn [String.length]. now rewrite IH.
Qed.

Lemma substring_all (p : string) : String.substring 0 (String.length p) p = p.
Proof. induction p as [|c p IH]; [reflexivity|]. cbn. now rewrite IH. Qed.

Lemma substring_skip (a p : string) :
  String.substring (String.length a) (String.length p) (a +:+ p) = p.
Proof.
  induction a as [|c a IH].
  - apply substring_all.
  - rewrite app_cons. cbn [String.length String.substring]. exact IH.
Qed.

(** A text with the suffix appended ends with it. *)
Lemma endswith_app (a p : string) : PyStr.endswith (a +:+ p) p = true.
Proof.
  unfold PyStr.endswith. rewrite length_app_string.
  replace (String.length a + String.length p - String.length p)%nat
    with (String.length a) by lia.
  rewrite substring_skip, String.eqb_refl, andb_true_r.
  apply Nat.leb_le. lia.
Qed.

(** X1.  The file name that [save_config] and [load_config] use always
    ends in [.json]; computing it from itself changes nothing, so naming
    a file with or without the extension, or naming the default file
    instead of giving no argument, is the same command. *)
Theorem config_filename_normal (arg : string) (sh : shell) :
  PyStr.endswith (config_filename arg) ".json" = true
  /\ config_filename (config_filename arg) = config_filename arg
  /\ do_save_config (config_filename arg) sh = do_save_config arg sh
  /\ do_load_config (config_filename arg) sh = do_load_config arg sh.
Proof.
  assert (Hends : PyStr.endswith (config_filename arg) ".json" = true).
  { unfold config_filename.
    destruct (String.eqb arg EmptyString); [reflexivity|].
    destruct (PyStr.endswith arg ".json") eqn:E; [exact E | apply endswith_app]. }
  assert (Hidem : config_filename (config_filename arg) = config_filename arg).
  { unfold config_filename at 1. rewrite Hends.
    destruct (String.eqb_spec (config_filename arg) EmptyString) as [E|_];
      [|reflexivity].
    rewrite E in Hends. discriminate. }
  repeat split; try assumption.
  - unfold do_save_config. now rewrite Hidem.
  - unfold do_load_config. now rewrite Hidem.
Qed.


End FileNames.

Section SetParameterFacts.

Import PyFloat CryptoShell.

Lemma no_space_app (a b : string) :
  PyStr.no_space (a +:+ b) = PyStr.no_space a && PyStr.no_space b.
Proof.
  induction a as [|c a IH]; [reflexivity|].
  rewrite app_cons. cbn [PyStr.no_space]. now rewrite IH, andb_assoc.
Qed.

Lemma token_no_space (w : string) :
  PyStr.is_token w = true -> PyStr.no_space w = true.
Proof. unfold PyStr.is_token. now intros [_ Hw]%andb_prop. Qed.

Lemma token_snoc (w : string) (c : ascii) :
  PyStr.no_space w = true -> PyStr.isspace c = false ->
  PyStr.is_token (w +:+ String c EmptyString) = true.
Proof.
  intros Hw Hc. unfold PyStr.is_token.
  rewrite no_space_app, Hw. cbn [PyStr.no_space]. rewrite Hc.
  destruct w; reflexivity.
Qed.

(** Every piece that [split] returns is a token. *)
Lemma split_from_tokens (s : string) (cur : option string) :
  (forall w, cur = Some w -> PyStr.is_token w = true) ->
  Forall (fun w => PyStr.is_token w = true) (PyStr.split_from cur s).
Proof.
  revert cur. induction s as [|c s IH]; intros cur Hcur; cbn [PyStr.split_from].
  - destruct cur as [w|]; [|constructor].
    constructor; [now apply Hcur | constructor].
  - destruct (PyStr.isspace c) eqn:Hc.
    + destruct cur as [w|].
      * constructor; [now apply Hcur|]. apply IH. discriminate.
      * apply IH. discriminate.
    + apply IH. intros w [= <-].
      apply token_snoc; [|exact Hc].
      destruct cur as [w|]; [|reflexivity].
      apply token_no_space. now apply Hcur.
Qed.

Lemma split_tokens (s : string) :
  Forall (fun w => PyStr.is_token w = true) (PyStr.split s).
Proof. apply split_from_tokens. discriminate. Qed.

(** [lower] keeps white space and the other characters apart, and
    lowering twice is lowering once. *)
Lemma lower_char_space (c : ascii) :
  PyStr.isspace (PyStr.lower_char c) = PyStr.isspace c.
Proof. destruct c as [[] [] [] [] [] [] [] []]; reflexivity. Qed.

Lemma lower_char_twice (c : ascii) :
  PyStr.lower_char (PyStr.lower_char c) = PyStr.lower_char c.
Proof. destruct c as [[] [] [] [] [] [] [] []]; reflexivity. Qed.

Lemma lower_twice (s : string) : PyStr.lower (PyStr.lower s) = PyStr.lower s.
Proof.
  induction s as [|c s IH]; [reflexivity|].
  cbn [PyStr.lower]. now rewrite lower_char_twice, IH.
Qed.

Lemma lower_token (s : string) :
  PyStr.is_token (PyStr.lower s) = PyStr.is_token s.
Proof.
  unfold PyStr.is_token. f_equal.
  - destruct s; reflexivity.
  - induction s as [|c s IH]; [reflexivity|].
    cbn [PyStr.lower PyStr.no_space]. now rewrite lower_char_space, IH.
Qed.

(** The state after [update] and after [do_set_parameter], as a function
    of the state before. *)
Lemma update_state (n : string) (w : pyval) (sh : shell) :
  fst (update n w sh)
  = match config sh with
    | VDict d =>
        if Dict.has n d
        then {| config := VDict (Dict.set n w d); disk := disk sh |}
        else sh
    | _ => sh
    end.
Proof.
  unfold update.
  destruct (config sh) as [| | | |s|l|d]; cbn [py_in py_setitem]; try reflexivity.
  - destruct (PyStr.contains s n); reflexivity.
  - destruct (existsb _ l); reflexivity.
  - destruct (Dict.has n d); reflexivity.
Qed.

Lemma set_parameter_state (arg : string) (sh : shell) :
  fst (do_set_parameter arg sh)
  = match PyStr.split arg with
    | name :: value :: _ =>
        match validate (PyStr.lower name) value with
        | Passed w => fst (update (PyStr.lower name) w sh)
        | Rejected _ => sh
        end
    | _ => sh
    end.
Proof.
  unfold do_set_parameter.
  destruct (PyStr.split arg) as [|name [|value rest]]; try reflexivity.
  cbv zeta. destruct (validate _ _); reflexivity.
Qed.

Lemma dict_has_set (k k0 : string) (v : pyval) (d : items) :
  Dict.has k d = true -> Dict.has k0 (Dict.set k v d) = Dict.has k0 d.
Proof.
  intros Hk. unfold Dict.has.
  destruct (String.eqb_spec k0 k) as [->|Hne].
  - rewrite dict_get_set_eq. unfold Dict.has in Hk.
    now destruct (Dict.get k d).
  - now rewrite dict_get_set_ne.
Qed.

Lemma dict_set_twice (k : string) (v w : pyval) (d : items) :
  Dict.set k w (Dict.set k v d) = Dict.set k w d.
Proof.
  induction d as [|[k' v'] d IH]; cbn [Dict.set].
  - now rewrite String.eqb_refl.
  - destruct (String.eqb k' k) eqn:E; cbn [Dict.set]; rewrite E;
      [reflexivity | now rewrite IH].
Qed.

Lemma dict_set_swap (k1 k2 : string) (v1 v2 : pyval) (d : items) :
  k1 <> k2 -> Dict.has k1 d = true -> Dict.has k2 d = true ->
  Dict.set k2 v2 (Dict.set k1 v1 d) = Dict.set k1 v1 (Dict.set k2 v2 d).
Proof.
  intros Hne. unfold Dict.has.
  induction d as [|[k v] d IH]; cbn [Dict.get Dict.set]; [discriminate|].
  destruct (String.eqb k k1) eqn:E1; destruct (String.eqb k k2) eqn:E2;
    cbn [Dict.set]; rewrite ?E1, ?E2; intros Hk1 Hk2.
  - apply String.eqb_eq in E1, E2. congruence.
  - reflexivity.
  - reflexivity.
  - now rewrite IH.
Qed.

(** X3.  [set_parameter] reads its first two tokens only: what follows
    the value on the command line is ignored, and so is the amount of
    white space around the tokens. *)
Theorem set_parameter_two_tokens
    (arg name value : string) (rest : list string) (sh : shell) :
  PyStr.split arg = name :: value :: rest ->
  do_set_parameter arg sh = do_set_parameter (name +:+ " " +:+ value) sh.
Proof.
  intros Hsplit. pose proof (split_tokens arg) as Htok. rewrite Hsplit in Htok.
  apply Forall_cons in Htok as [Hn Htok]. apply Forall_cons in Htok as [Hv _].
  unfold do_set_parameter.
  now rewrite Hsplit, (split_two_tokens name value Hn Hv).
Qed.

(** X4.  The name of a parameter is read without regard to letter case:
    a command that spells the name with capital letters is the command
    with the name in lower case. *)
Theorem set_parameter_name_case (n v : string) (sh : shell) :
  PyStr.is_token n = true ->
  PyStr.is_token v = true ->
  do_set_parameter (n +:+ " " +:+ v) sh
  = do_set_parameter (PyStr.lower n +:+ " " +:+ v) sh.
Proof.
  intros Hn Hv. unfold do_set_parameter.
  rewrite (split_two_tokens n v Hn Hv).
  rewrite (split_two_tokens (PyStr.lower n) v); [|now rewrite lower_token|exact Hv].
  cbv zeta. now rewrite lower_twice.
Qed.

(** X5.  Repeating a [set_parameter] command changes nothing more; and
    of two commands for the same parameter name the second wins, when it
    is one that prints no error. *)
Theorem set_parameter_last_wins (a1 a2 : string) (sh : shell) :
  fst (do_set_parameter a1 (fst (do_set_parameter a1 sh)))
  = fst (do_set_parameter a1 sh)
  /\ (PyStr.lower <$> head (PyStr.split a1) = PyStr.lower <$> head (PyStr.split a2) ->
      surfaces_error (snd (do_set_parameter a2 sh)) = false ->
      fst (do_set_parameter a2 (fst (do_set_parameter a1 sh)))
      = fst (do_set_parameter a2 sh)).
Proof.
  split.
  - rewrite !set_parameter_state.
    destruct (PyStr.split a1) as [|n1 [|v1 r1]]; try reflexivity.
    destruct (validate _ _) as [|w1]; [reflexivity|].
    rewrite !update_state.
    destruct (config sh) as [| | | | | |d] eqn:Hc; rewrite ?Hc; try reflexivity.
    destruct (Dict.has _ d) eqn:Hd; cbn [config disk]; rewrite ?Hc, ?Hd;
      [|reflexivity].
    now rewrite (dict_has_set _ _ _ _ Hd), Hd, dict_set_twice.
  - intros Hname Herr.
    rewrite !set_parameter_state.
    unfold do_set_parameter in Herr. revert Herr.
    destruct (PyStr.split a2) as [|n2 [|v2 r2]]; try discriminate.
    cbv zeta. destruct (validate (PyStr.lower n2) v2) as [out|w2] eqn:Hv2.
    { cbn [snd]. unfold surfaces_error. cbn [printed returns raised].
      unfold validate in Hv2.
      repeat match type of Hv2 with
             | context [if ?b then _ else _] => destruct b
             | context [match ?o with Some _ => _ | None => _ end] => destruct o
             end; first [discriminate Hv2 | injection Hv2 as <-; discriminate]. }
    destruct (PyStr.split a1) as [|n1 [|v1 r1]]; try reflexivity.
    cbn [head fmap option_fmap option_map] in Hname. injection Hname as Hname.
    rewrite <- Hname.
    destruct (validate (PyStr.lower n1) v1) as [|w1]; [reflexivity|].
    rewrite !update_state. intros _.
    destruct (config sh) as [| | | | | |d] eqn:Hc; rewrite ?Hc; try reflexivity.
    destruct (Dict.has _ d) eqn:Hd; cbn [config disk]; rewrite ?Hc, ?Hd;
      [|reflexivity].
    now rewrite (dict_has_set _ _ _ _ Hd), Hd, dict_set_twice.
Qed.

(** X6.  Two [set_parameter] commands for different parameter names give
    the same shell in either order. *)
Theorem set_parameter_commute (a1 a2 : string) (sh : shell) :
  PyStr.lower <$> head (PyStr.split a1) <> PyStr.lower <$> head (PyStr.split a2) ->
  fst (do_set_parameter a2 (fst (do_set_parameter a1 sh)))
  = fst (do_set_parameter a1 (fst (do_set_parameter a2 sh))).
Proof.
  intros Hname. rewrite !set_parameter_state.
  destruct (PyStr.split a1) as [|n1 [|v1 r1]];
    destruct (PyStr.split a2) as [|n2 [|v2 r2]]; try reflexivity.
  assert (Hne : PyStr.lower n1 <> PyStr.lower n2).
  { intros E. apply Hname. cbn. now rewrite E. }
  destruct (validate (PyStr.lower n1) v1) as [|w1];
    destruct (validate (PyStr.lower n2) v2) as [|w2]; try reflexivity.
  rewrite !update_state.
  destruct (config sh) as [| | | | | |d] eqn:Hc; rewrite ?Hc; try reflexivity.
  destruct (Dict.has (PyStr.lower n1) d) eqn:H1;
    destruct (Dict.has (PyStr.lower n2) d) eqn:H2;
    cbn [config disk]; rewrite ?Hc, ?H1, ?H2; cbn [config disk];
    rewrite ?(dict_has_set _ _ _ _ H1), ?(dict_has_set _ _ _ _ H2), ?H1, ?H2;
    try reflexivity.
  now rewrite (dict_set_swap _ _ w1 w2 d Hne H1 H2).
Qed.

End SetParameterFacts.

Section ValidConfig.

Import PyFloat CryptoShell Commands.

Context `{Json}.

(** A value that passes the validation is of the kind of its key. *)
Lemma validate_field_ok (n v : string) (w : pyval) :
  validate n v = Passed w -> field_ok n (Some w) = true.
Proof.
  unfold validate, field_ok.
  destruct (String.eqb n "exchange").
  { destruct (str_in v available_exchanges) eqn:E; cbn [negb]; [|discriminate].
    intros [= <-]. exact E. }
  destruct (String.eqb n "strategy").
  { destruct (str_in v available_strategies) eqn:E; cbn [negb]; [|discriminate].
    intros [= <-]. exact E. }
  destruct (String.eqb n "cash_at_risk").
  { destruct (py_float v) as [x|]; [|discriminate].
    destruct (fle x fzero || fgt x fone) eqn:E; [discriminate|].
    intros [= <-]. cbn [is_fraction]. now rewrite E. }
  destruct (str_in n ["start_date"; "end_date"]).
  { destruct (PyTime.strptime_ymd v) as [date|] eqn:E; [|discriminate].
    intros [= <-]. cbn [is_date]. rewrite E. reflexivity. }
  now intros [= <-].
Qed.

Lemma valid_config_keys (d : items) :
  valid_config (VDict d) = true -> Dict.keys d = eight_keys.
Proof.
  cbn [valid_config]. intros [Hk _]%andb_prop.
  now apply bool_decide_eq_true in Hk.
Qed.

Lemma valid_config_field (d : items) (key : string) :
  valid_config (VDict d) = true -> In key eight_keys ->
  field_ok key (Dict.get key d) = true.
Proof.
  cbn [valid_config]. intros [_ Hf]%andb_prop Hin.
  rewrite forallb_forall in Hf. now apply Hf.
Qed.

(** Assigning a value of the right kind keeps a configuration valid. *)
Lemma valid_config_set (d : items) (n : string) (w : pyval) :
  valid_config (VDict d) = true ->
  Dict.has n d = true ->
  field_ok n (Some w) = true ->
  valid_config (VDict (Dict.set n w d)) = true.
Proof.
  intros Hv Hn Hw. cbn [valid_config].
  rewrite (dict_keys_set n w d Hn), (valid_config_keys d Hv).
  apply andb_true_intro. split; [now apply bool_decide_eq_true|].
  apply forallb_forall. intros key Hkey.
  destruct (String.eqb_spec key n) as [->|Hne].
  - now rewrite dict_get_set_eq.
  - rewrite (dict_get_set_ne n key w d Hne). now apply valid_config_field.
Qed.

Lemma set_parameter_valid (arg : string) (sh : shell) :
  valid_config (config sh) = true ->
  valid_config (config (fst (do_set_parameter arg sh))) = true.
Proof.
  intros Hv. rewrite set_parameter_state.
  destruct (PyStr.split arg) as [|name [|value rest]]; try exact Hv.
  destruct (validate _ _) as [|w] eqn:Hw; [exact Hv|].
  rewrite update_state.
  destruct (config sh) as [| | | | | |d] eqn:Hc; rewrite ?Hc; try exact Hv.
  destruct (Dict.has _ d) eqn:Hd; cbn [config]; rewrite ?Hc; [|exact Hv].
  apply valid_config_set; [exact Hv | exact Hd |].
  now apply (validate_field_ok _ value).
Qed.

Lemma exec_valid (c : command) (sh : shell) :
  is_load c = false ->
  valid_config (config sh) = true ->
  valid_config (config (fst (exec c sh))) = true.
Proof.
  destruct c as [arg|arg|arg|arg]; cbn [is_load exec]; intros Hc Hv.
  - now rewrite show_config_same.
  - now apply set_parameter_valid.
  - now rewrite save_config_config.
  - discriminate.
Qed.

Lemma run_valid (cs : list command) (sh : shell) :
  forallb (fun c => negb (is_load c)) cs = true ->
  valid_config (config sh) = true ->
  valid_config (config (run cs sh)) = true.
Proof.
  revert sh. induction cs as [|c cs IH]; intros sh Hcs Hv; [exact Hv|].
  cbn [forallb] in Hcs. apply andb_prop in Hcs as [Hc Hcs].
  apply negb_true_iff in Hc.
  cbn [run]. pose proof (exec_valid c sh Hc Hv) as Hv'.
  destruct (exec c sh) as [sh' o]. cbn [fst] in Hv'.
  destruct (raised o); [exact Hv' | now apply IH].
Qed.

(** X7.  The default configuration has the eight keys with an exchange
    and a strategy of the two lists, strings for the coin, the quote and
    the time step, a float that passes the range test for [cash_at_risk]
    and two dates that parse; and every sequence of [show_config],
    [set_parameter] and [save_config] commands keeps it so. *)
Theorem valid_config_preserved (cs : list command) (files : gmap string Disk.node) :
  forallb (fun c => negb (is_load c)) cs = true ->
  valid_config (config (run cs (start files))) = true.
Proof. intros Hcs. apply run_valid; [exact Hcs | reflexivity]. Qed.

End ValidConfig.

Section Listings.

Import PyFloat CryptoShell Commands.

(** The lines of a listing for a dictionary that has the key. *)
Lemma list_lines_dict (names : list string) (d : items) (key : string) (v : pyval) :
  Dict.get key d = Some v ->
  list_lines names (VDict d) key
  = (map (fun name => ListLine name (if str_eq name v then "(current)"
                                     else EmptyString)) names,
     None).
Proof.
  intros Hv. induction names as [|name names IH]; [reflexivity|].
  cbn [list_lines py_getitem]. rewrite Hv.
  fold (py_getitem (VDict d) key). now rewrite IH.
Qed.

(** In a listing of distinct names, one line is marked when the current
    value is among the names, and none otherwise. *)
Lemma marked_lines (names : list string) (e : string) :
  NoDup names ->
  marked (map (fun name => ListLine name (if String.eqb name e then "(current)"
                                          else EmptyString)) names)
  = if str_in e names then 1%nat else 0%nat.
Proof.
  unfold marked, str_in. induction names as [|name names IH]; intros Hnd.
  - reflexivity.
  - apply NoDup_cons in Hnd as [Hname Hnd]. specialize (IH Hnd).
    cbn [map List.filter existsb]. rewrite (String.eqb_sym e name).
    destruct (String.eqb_spec name e) as [->|Hne].
    + cbn [String.eqb Ascii.eqb Bool.eqb orb length]. rewrite IH.
      destruct (existsb (String.eqb e) names) eqn:E; [|reflexivity].
      exfalso. apply Hname. apply existsb_exists in E as (x & Hx & Ex).
      apply String.eqb_eq in Ex. subst x. now apply list_elem_of_In.
    + cbn [String.eqb orb]. exact IH.
Qed.

(** X8.  For a configuration that holds a string under [exchange],
    [list_exchanges] shows the four exchanges in their order and marks
    the lines whose name is that string: one line when the string is one
    of the four, none otherwise.  [list_strategies] does the same with
    the strategies and the key [strategy]. *)
Theorem listing_marks_current (arg : string) (sh : shell) (d : items) (e : string) :
  config sh = VDict d ->
  (Dict.get "exchange" d = Some (VStr e) ->
   do_list_exchanges arg sh
   = (sh, done (Plain "Available exchanges:"
                  :: map (fun name => ListLine name (if String.eqb name e
                                                     then "(current)"
                                                     else EmptyString))
                         available_exchanges))
   /\ marked (shown (snd (do_list_exchanges arg sh)))
      = if str_in e available_exchanges then 1%nat else 0%nat)
  /\ (Dict.get "strategy" d = Some (VStr e) ->
      do_list_strategies arg sh
      = (sh, done (Plain "Available strategies:"
                     :: map (fun name => ListLine name (if String.eqb name e
                                                        then "(current)"
                                                        else EmptyString))
                            available_strategies))
      /\ marked (shown (snd (do_list_strategies arg sh)))
         = if str_in e available_strategies then 1%nat else 0%nat).
Proof.
  intros Hc. split; intros He.
  - unfold do_list_exchanges.
    rewrite Hc, (list_lines_dict _ d _ _ He). cbn [snd shown str_eq].
    split; [reflexivity|].
    change (marked (Plain "Available exchanges:" :: ?l)) with (marked l).
    apply marked_lines. apply (bool_decide_unpack _). vm_compute. exact I.
  - unfold do_list_strategies.
    rewrite Hc, (list_lines_dict _ d _ _ He). cbn [snd shown str_eq].
    split; [reflexivity|].
    change (marked (Plain "Available strategies:" :: ?l)) with (marked l).
    apply marked_lines. apply (bool_decide_unpack _). vm_compute. exact I.
Qed.

(** X9.  After a [set_parameter exchange v] with [v] one of the four
    exchanges, on a configuration that has the key, [list_exchanges]
    marks the line of [v] and no other. *)
Theorem set_exchange_then_list (sh : shell) (d : items) (v : string) :
  config sh = VDict d ->
  Dict.has "exchange" d = true ->
  str_in v available_exchanges = true ->
  let sh' := fst (do_set_parameter ("exchange" +:+ " " +:+ v) sh) in
  do_list_exchanges EmptyString sh'
  = (sh', done (Plain "Available exchanges:"
                  :: map (fun name => ListLine name (if String.eqb name v
                                                     then "(current)"
                                                     else EmptyString))
                         available_exchanges))
  /\ marked (shown (snd (do_list_exchanges EmptyString sh'))) = 1%nat.
Proof.
  intros Hc Hd Hv sh'.
  assert (Htok : PyStr.is_token v = true).
  { unfold str_in, available_exchanges in Hv. cbn [existsb] in Hv.
    repeat (apply orb_prop in Hv as [Hv|Hv]); try discriminate;
      apply String.eqb_eq in Hv; subst v; reflexivity. }
  assert (Hsh : sh' = {| config := VDict (Dict.set "exchange" (VStr v) d);
                         disk := disk sh |}).
  { subst sh'. rewrite set_parameter_state.
    rewrite (split_two_tokens "exchange" v eq_refl Htok).
    change (PyStr.lower "exchange") with "exchange".
    unfold validate. cbn [String.eqb Ascii.eqb Bool.eqb]. rewrite Hv. cbn [negb].
    now rewrite update_state, Hc, Hd. }
  assert (Hget : Dict.get "exchange" (Dict.set "exchange" (VStr v) d) = Some (VStr v))
    by apply dict_get_set_eq.
  unfold do_list_exchanges. rewrite Hsh. cbn [config].
  rewrite (list_lines_dict _ _ _ _ Hget). cbn [snd shown str_eq].
  split; [reflexivity|].
  change (marked (Plain "Available exchanges:" :: ?l)) with (marked l).
  rewrite marked_lines, Hv; [reflexivity|].
  apply (bool_decide_unpack _). vm_compute. exact I.
Qed.

(** X10.  A listing needs the key: for a configuration that is a
    dictionary without the key, [list_exchanges] and [list_strategies]
    print their first line and leave with a [KeyError]; for a
    configuration that is no dictionary, with a [TypeError]. *)
Theorem listing_without_key (arg : string) (sh : shell) :
  (forall d : items, config sh = VDict d ->
     (Dict.has "exchange" d = false ->
      do_list_exchanges arg sh
      = (sh, {| shown := [Plain "Available exchanges:"];
                failed := Some (KeyError "exchange"); stop := false |}))
     /\ (Dict.has "strategy" d = false ->
         do_list_strategies arg sh
         = (sh, {| shown := [Plain "Available strategies:"];
                   failed := Some (KeyError "strategy"); stop := false |})))
  /\ ((forall d : items, config sh <> VDict d) ->
      do_list_exchanges arg sh
      = (sh, {| shown := [Plain "Available exchanges:"];
                failed := Some (Builtin TypeError); stop := false |})
      /\ do_list_strategies arg sh
         = (sh, {| shown := [Plain "Available strategies:"];
                   failed := Some (Builtin TypeError); stop := false |})).
Proof.
  split.
  - intros d Hc. unfold do_list_exchanges, do_list_strategies, Dict.has.
    rewrite Hc. cbn [list_lines available_exchanges available_strategies py_getitem].
    split; intros Hd.
    + destruct (Dict.get "exchange" d); [discriminate | reflexivity].
    + destruct (Dict.get "strategy" d); [discriminate | reflexivity].
  - intros Hc. unfold do_list_exchanges, do_list_strategies.
    destruct (config sh) as [| | | | | |d]; try (split; reflexivity).
    now destruct (Hc d).
Qed.

End Listings.

Section Backtest.

Import PyFloat CryptoShell Commands.

Lemma field_str (d : items) (key : string) :
  is_str (Dict.get key d) = true -> exists s, Dict.get key d = Some (VStr s).
Proof. destruct (Dict.get key d) as [[]|]; try discriminate. eauto. Qed.

Lemma field_member (d : items) (key : string) (l : list string) :
  is_member l (Dict.get key d) = true -> exists s, Dict.get key d = Some (VStr s).
Proof. destruct (Dict.get key d) as [[]|]; try discriminate. eauto. Qed.

Lemma field_date (d : items) (key : string) :
  is_date (Dict.get key d) = true ->
  exists s date, Dict.get key d = Some (VStr s) /\ PyTime.strptime_ymd s = Some date.
Proof.
  destruct (Dict.get key d) as [[| | | |s| |]|]; try discriminate.
  cbn [is_date]. intros Hd. apply bool_decide_eq_true in Hd as [date Hd]. eauto.
Qed.

(** X11.  On a valid configuration [run_backtest] shows the
    configuration, reads the two dates and announces the run with the
    coin, the quote, the exchange and the dates, and ends with the note
    on the strategy: it prints no error, whatever the order of the two
    dates. *)
Theorem run_backtest_valid (arg : string) (sh : shell) (d : items) :
  config sh = VDict d ->
  valid_config (config sh) = true ->
  exists (coin quote exchange_id strategy start_text end_text : string)
         (start_date end_date : Z * Z * Z),
    Dict.get "coin" d = Some (VStr coin)
    /\ Dict.get "quote" d = Some (VStr quote)
    /\ Dict.get "exchange" d = Some (VStr exchange_id)
    /\ Dict.get "strategy" d = Some (VStr strategy)
    /\ Dict.get "start_date" d = Some (VStr start_text)
    /\ Dict.get "end_date" d = Some (VStr end_text)
    /\ PyTime.strptime_ymd start_text = Some start_date
    /\ PyTime.strptime_ymd end_text = Some end_date
    /\ do_run_backtest arg sh
       = (sh, done (Plain "Initializing backtest with configuration:"
                      :: Shown MsgCurrentConfiguration
                      :: map (fun kv => Shown (MsgItem (fst kv) (snd kv))) d
                      ++ [Plain (String (PyStr.chr 10)
                                   "Starting backtest... This may take a moment.");
                          BacktestRunning (VStr coin) (VStr quote) (VStr exchange_id)
                                          start_date end_date;
                          Plain (String (PyStr.chr 10)
                                   "Note: This is a placeholder for the backtest functionality.");
                          BacktestFuture (VStr strategy)])).
Proof.
  intros Hc Hv. rewrite Hc in Hv.
  assert (Hf : forall key, In key eight_keys -> field_ok key (Dict.get key d) = true)
    by (intros key; now apply valid_config_field).
  destruct (field_str d "coin") as [coin Hcoin];
    [apply (Hf "coin"); cbn; tauto|].
  destruct (field_str d "quote") as [quote Hquote];
    [apply (Hf "quote"); cbn; tauto|].
  destruct (field_member d "exchange" available_exchanges) as [ex Hex];
    [apply (Hf "exchange"); cbn; tauto|].
  destruct (field_member d "strategy" available_strategies) as [st Hst];
    [apply (Hf "strategy"); cbn; tauto|].
  destruct (field_date d "start_date") as (s1 & d1 & Hs1 & Hd1);
    [apply (Hf "start_date"); cbn; tauto|].
  destruct (field_date d "end_date") as (s2 & d2 & Hs2 & Hd2);
    [apply (Hf "end_date"); cbn; tauto|].
  exists coin, quote, ex, st, s1, s2, d1, d2. repeat split; try assumption.
  unfold do_run_backtest, do_show_config, parse_date, py_getitem. cbv zeta.
  rewrite Hc. cbn [snd raised returns printed].
  rewrite Hs1, Hd1, Hs2, Hd2, Hex, Hcoin, Hquote, Hst.
  unfold done. cbn [map]. rewrite map_map.
  do 2 f_equal. cbn [app]. do 2 f_equal.
  now rewrite <- !app_assoc.
Qed.

Lemma run_backtest_quiet (arg : string) (sh : shell) :
  fst (do_run_backtest arg sh) = sh
  /\ failed (snd (do_run_backtest arg sh)) = None
  /\ stop (snd (do_run_backtest arg sh)) = false.
Proof.
  unfold do_run_backtest. cbv zeta.
  repeat match goal with
         | |- context [match ?x with _ => _ end] =>
             lazymatch x with
             | raised _ => destruct x
             | parse_date _ _ => destruct x
             | py_getitem _ _ => destruct x
             end
         end; repeat split.
Qed.

(** X12.  [run_backtest] keeps every failure to itself: whatever the
    configuration, it returns without an exception, does not stop the
    loop and leaves the shell as it was.  A configuration that is no
    dictionary, or has no start date, or a start date that is no string
    or does not parse, makes it end with the error line of that
    failure. *)
Theorem run_backtest_contained (arg : string) (sh : shell) :
  fst (do_run_backtest arg sh) = sh
  /\ failed (snd (do_run_backtest arg sh)) = None
  /\ stop (snd (do_run_backtest arg sh)) = false
  /\ ((forall d : items, config sh <> VDict d) ->
      shown (snd (do_run_backtest arg sh))
      = [Plain "Initializing backtest with configuration:";
         Shown MsgCurrentConfiguration;
         ErrBacktest (Builtin AttributeError)])
  /\ (forall d : items, config sh = VDict d ->
        match Dict.get "start_date" d with
        | None =>
            last (shown (snd (do_run_backtest arg sh)))
            = Some (ErrBacktest (KeyError "start_date"))
        | Some (VStr s) =>
            PyTime.strptime_ymd s = None ->
            last (shown (snd (do_run_backtest arg sh)))
            = Some (ErrBacktest (Builtin ValueError))
        | Some _ =>
            last (shown (snd (do_run_backtest arg sh)))
            = Some (ErrBacktest (Builtin TypeError))
        end).
Proof.
  pose proof (run_backtest_quiet arg sh) as Hall.
  destruct Hall as (H1 & H2 & H3). repeat split; try assumption.
  - intros Hc. unfold do_run_backtest, do_show_config. cbv zeta.
    destruct (config sh) as [| | | | | |d]; try reflexivity.
    now destruct (Hc d).
  - intros d Hc.
    assert (Hlast : forall e, parse_date (VDict d) "start_date" = inl e ->
              last (shown (snd (do_run_backtest arg sh))) = Some (ErrBacktest e)).
    { intros e He. unfold do_run_backtest, do_show_config. cbv zeta.
      rewrite Hc. cbn [snd raised returns printed]. rewrite He.
      cbn [snd shown backtest_error done]. now rewrite last_snoc. }
    unfold parse_date, py_getitem in Hlast.
    destruct (Dict.get "start_date" d) as [[| | | |s| |]|];
      try (now apply Hlast).
    intros Hs. rewrite Hs in Hlast. now apply Hlast.
Qed.

End Backtest.

(* ===================================================================== *)
(** * Properties of the command loop                                      *)
(* ===================================================================== *)

Section StripFacts.

Import Commands.

Lemma rev_string_app (s acc : string) :
  PyStr.rev_string acc s = PyStr.rev_string EmptyString s +:+ acc.
Proof.
  revert acc. induction s as [|c s IH]; intros acc; [reflexivity|].
  cbn [PyStr.rev_string]. rewrite (IH (String c acc)), (IH (String c EmptyString)).
  now rewrite app_assoc_string.
Qed.

Lemma rev_snoc (s : string) (c : ascii) :
  PyStr.rev_string EmptyString (s +:+ String c EmptyString)
  = String c (PyStr.rev_string EmptyString s).
Proof.
  induction s as [|x s IH]; [reflexivity|].
  rewrite app_cons. cbn [PyStr.rev_string].
  rewrite (rev_string_app (s +:+ _)), IH, (rev_string_app s (String x EmptyString)).
  reflexivity.
Qed.

Lemma lstrip_app (a b : string) :
  PyStr.lstrip PyStr.isspace (a +:+ b)
  = match PyStr.lstrip PyStr.isspace a with
    | EmptyString => PyStr.lstrip PyStr.isspace b
    | t => t +:+ b
    end.
Proof.
  induction a as [|c a IH]; [reflexivity|].
  rewrite app_cons. cbn [PyStr.lstrip].
  destruct (PyStr.isspace c); [exact IH | reflexivity].
Qed.

(** Stripping at the end, read from the start of the text. *)
Lemma rstrip_cons (c : ascii) (s : string) :
  rstrip (String c s)
  = match rstrip s with
    | EmptyString => if PyStr.isspace c then EmptyString else String c EmptyString
    | t => String c t
    end.
Proof.
  unfold rstrip. cbn [PyStr.rev_string].
  rewrite (rev_string_app s (String c EmptyString)), lstrip_app.
  destruct (PyStr.lstrip PyStr.isspace (PyStr.rev_string EmptyString s)) as [|x t].
  - cbn [PyStr.lstrip PyStr.rev_string]. destruct (PyStr.isspace c); reflexivity.
  - rewrite rev_snoc.
    destruct (PyStr.rev_string EmptyString (String x t)) eqn:E; [|reflexivity].
    exfalso. cbn [PyStr.rev_string] in E. rewrite rev_string_app in E.
    destruct (PyStr.rev_string EmptyString t); discriminate.
Qed.

Lemma rstrip_nonspace (c : ascii) (s : string) :
  PyStr.isspace c = false -> rstrip (String c s) = String c (rstrip s).
Proof. intros Hc. rewrite rstrip_cons, Hc. now destruct (rstrip s). Qed.

(** Tokens in front of a text stay in front of its stripped form. *)
Lemma rstrip_word (w x : string) :
  PyStr.no_space w = true -> rstrip (w +:+ x) = w +:+ rstrip x.
Proof.
  induction w as [|c w IH]; intros Hw; [reflexivity|].
  cbn [PyStr.no_space] in Hw. apply andb_prop in Hw as [Hc Hw].
  apply negb_true_iff in Hc.
  rewrite !app_cons, (rstrip_nonspace c _ Hc). now rewrite IH.
Qed.

Lemma rstrip_empty_lstrip (s : string) :
  rstrip s = EmptyString -> PyStr.lstrip PyStr.isspace s = EmptyString.
Proof.
  induction s as [|c s IH]; [reflexivity|].
  rewrite rstrip_cons. cbn [PyStr.lstrip].
  destruct (rstrip s); [|discriminate].
  destruct (PyStr.isspace c); [intros _; now apply IH | discriminate].
Qed.

Lemma rstrip_twice (s : string) : rstrip (rstrip s) = rstrip s.
Proof.
  induction s as [|c s IH]; [reflexivity|].
  rewrite rstrip_cons. destruct (rstrip s) as [|x t] eqn:E.
  - destruct (PyStr.isspace c) eqn:Hc; [reflexivity|].
    now rewrite rstrip_cons, Hc.
  - rewrite rstrip_cons, IH. reflexivity.
Qed.

Lemma lstrip_rstrip (s : string) :
  PyStr.lstrip PyStr.isspace (rstrip s) = rstrip (PyStr.lstrip PyStr.isspace s).
Proof.
  induction s as [|c s IH]; [reflexivity|].
  cbn [PyStr.lstrip]. destruct (PyStr.isspace c) eqn:Hc.
  - rewrite rstrip_cons, Hc. destruct (rstrip s) as [|x t] eqn:E.
    + now rewrite (rstrip_empty_lstrip s E).
    + rewrite <- IH. cbn [PyStr.lstrip]. now rewrite Hc.
  - rewrite (rstrip_nonspace c s Hc). cbn [PyStr.lstrip]. now rewrite Hc.
Qed.

Lemma strip_rstrip_lstrip (s : string) :
  PyStr.strip PyStr.isspace s = rstrip (PyStr.lstrip PyStr.isspace s).
Proof. reflexivity. Qed.

(** What [strip] makes of a space followed by a text, stripped at its
    end: the text stripped. *)
Lemma strip_after_space (x : string) :
  PyStr.strip PyStr.isspace (rstrip (String " " x)) = PyStr.strip PyStr.isspace x.
Proof.
  rewrite !strip_rstrip_lstrip, lstrip_rstrip, rstrip_twice.
  reflexivity.
Qed.

Lemma rstrip_after_space (x : string) :
  rstrip (String " " x) = EmptyString
  \/ exists t, rstrip (String " " x) = String " " t.
Proof. rewrite rstrip_cons. destruct (rstrip x); eauto. Qed.

Lemma span_word (w y : string) :
  forallb identchar (list_ascii_of_string w) = true ->
  match y with
  | EmptyString => True
  | String c _ => identchar c = false
  end ->
  span identchar (w +:+ y) = (w, y).
Proof.
  intros Hw Hy. induction w as [|c w IH].
  - change (EmptyString +:+ y) with y.
    destruct y as [|c y]; [reflexivity|]. cbn [span]. now rewrite Hy.
  - cbn [list_ascii_of_string forallb] in Hw. apply andb_prop in Hw as [Hc Hw].
    rewrite app_cons. cbn [span]. rewrite Hc. now rewrite (IH Hw).
Qed.

End StripFacts.

Section Dispatch.

Import PyFloat CryptoShell Commands.

Context `{Json}.

(** The names that have a handler are plain lower-case identifiers, and
    the handlers are the eleven methods. *)
Lemma handler_name (cmd : string) (func : string -> shell -> shell * result) :
  handler cmd = Some func ->
  forallb identchar (list_ascii_of_string cmd) = true
  /\ PyStr.is_token cmd = true
  /\ PyStr.lower cmd = cmd
  /\ match cmd with
     | String c _ => Ascii.eqb c "!" = false /\ Ascii.eqb c "?" = false
     | EmptyString => False
     end.
Proof.
  unfold handler.
  repeat match goal with
         | |- context [String.eqb cmd ?name] =>
             destruct (String.eqb_spec cmd name) as [->|_];
             [intros _; repeat split; reflexivity|]
         end.
  discriminate.
Qed.

Lemma handler_cases (cmd : string) (func : string -> shell -> shell * result) :
  handler cmd = Some func ->
  (cmd = "exit" /\ func = do_exit)
  \/ (cmd = "quit" /\ func = do_quit)
  \/ (cmd = "help" /\ func = do_help)
  \/ (cmd = "version" /\ func = do_version)
  \/ (cmd = "list_exchanges" /\ func = do_list_exchanges)
  \/ (cmd = "list_strategies" /\ func = do_list_strategies)
  \/ (cmd = "show_config" /\ func = fun arg sh => lifted (do_show_config arg sh))
  \/ (cmd = "set_parameter" /\ func = fun arg sh => lifted (do_set_parameter arg sh))
  \/ (cmd = "save_config" /\ func = fun arg sh => lifted (do_save_config arg sh))
  \/ (cmd = "load_config" /\ func = fun arg sh => lifted (do_load_config arg sh))
  \/ (cmd = "run_backtest" /\ func = do_run_backtest).
Proof.
  unfold handler.
  repeat match goal with
         | |- context [String.eqb cmd ?name] =>
             destruct (String.eqb_spec cmd name) as [->|_];
             [intros [= <-]; tauto|]
         end.
  discriminate.
Qed.

(** A line that [parseline] splits is not empty. *)
Lemma parseline_some (text cmd arg t : string) :
  parseline text = (Some (cmd, arg), t) -> t <> EmptyString.
Proof.
  unfold parseline. destruct (PyStr.strip PyStr.isspace text) as [|c rest];
    [discriminate|].
  destruct (Ascii.eqb c "!"); [discriminate|].
  destruct (span identchar _). intros [= _ _ <-].
  destruct (Ascii.eqb c "?"); discriminate.
Qed.

(** What [onecmd] does with a line, by the way the line parses. *)
Lemma onecmd_parsed (text cmd arg t : string) (sh : shell) :
  parseline text = (Some (cmd, arg), t) ->
  onecmd text sh
  = match handler cmd with
    | Some func => func arg sh
    | None => default t sh
    end.
Proof.
  intros Hp. unfold onecmd. rewrite Hp.
  pose proof (parseline_some _ _ _ _ Hp) as Ht.
  destruct t as [|c t]; [congruence|].
  destruct (String.eqb_spec cmd EmptyString) as [->|_]; reflexivity.
Qed.

Lemma onecmd_unparsed (text t : string) (sh : shell) :
  parseline text = (None, t) ->
  onecmd text sh = (sh, done []) \/ onecmd text sh = default t sh.
Proof.
  intros Hp. unfold onecmd. rewrite Hp. destruct t; [left | right]; reflexivity.
Qed.

(** The line of a command name followed by a space and a text. *)
Lemma parseline_command (cmd rest : string)
    (func : string -> shell -> shell * result) :
  handler cmd = Some func ->
  parseline (cmd +:+ " " +:+ rest)
  = (Some (cmd, PyStr.strip PyStr.isspace rest), cmd +:+ rstrip (String " " rest))
  /\ parseline cmd = (Some (cmd, EmptyString), cmd).
Proof.
  intros Hf. destruct (handler_name cmd func Hf) as (Hid & Htok & _ & Hfirst).
  pose proof (token_no_space cmd Htok) as Hns.
  assert (Hparse : forall y,
             match y with
             | EmptyString => True
             | String c _ => identchar c = false
             end ->
             PyStr.strip PyStr.isspace (cmd +:+ y) = cmd +:+ rstrip y ->
             (rstrip y = EmptyString \/ exists t, rstrip y = String " " t) ->
             parseline (cmd +:+ y)
             = (Some (cmd, PyStr.strip PyStr.isspace (rstrip y)), cmd +:+ rstrip y)).
  { intros y Hy Hstrip Hry. unfold parseline. rewrite Hstrip.
    destruct cmd as [|c cmd']; [destruct Hfirst|]. destruct Hfirst as [H1 H2].
    rewrite app_cons, H1, H2. rewrite <- app_cons.
    rewrite span_word; [reflexivity | exact Hid |].
    destruct Hry as [-> | [t ->]]; [exact I | reflexivity]. }
  assert (Hstrip : forall y,
             PyStr.strip PyStr.isspace (cmd +:+ y) = cmd +:+ rstrip y).
  { intros y. rewrite strip_rstrip_lstrip.
    destruct cmd as [|c cmd']; [destruct Hfirst|].
    cbn [PyStr.no_space] in Hns. apply andb_prop in Hns as [Hc Hns'].
    apply negb_true_iff in Hc. rewrite app_cons. cbn [PyStr.lstrip]. rewrite Hc.
    rewrite <- app_cons. apply rstrip_word. cbn [PyStr.no_space].
    now rewrite Hc, Hns'. }
  split.
  - change (cmd +:+ " " +:+ rest) with (cmd +:+ String " " rest).
    rewrite (Hparse (String " " rest)).
    + now rewrite strip_after_space.
    + reflexivity.
    + apply Hstrip.
    + apply rstrip_after_space.
  - pose proof (Hparse EmptyString I (Hstrip EmptyString)) as Hp.
    change (rstrip EmptyString) with EmptyString in Hp.
    rewrite app_empty_r in Hp. apply Hp. now left.
Qed.

(** X13.  A line made of the name of a command, a space and a text runs
    the handler of that name on the text stripped of the white space
    around it; the name alone runs it on the empty text. *)
Theorem onecmd_dispatches (cmd rest : string)
    (func : string -> shell -> shell * result) (sh : shell) :
  handler cmd = Some func ->
  onecmd (cmd +:+ " " +:+ rest) sh = func (PyStr.strip PyStr.isspace rest) sh
  /\ onecmd cmd sh = func EmptyString sh.
Proof.
  intros Hf. destruct (parseline_command cmd rest func Hf) as [H1 H2].
  rewrite (onecmd_parsed _ _ _ _ sh H1), (onecmd_parsed _ _ _ _ sh H2).
  now rewrite Hf.
Qed.

(** Every handler but [do_exit] and [do_quit] lets the loop go on. *)
Lemma handler_stop (cmd arg : string)
    (func : string -> shell -> shell * result) (sh : shell) :
  handler cmd = Some func ->
  stop (snd (func arg sh)) = true ->
  (cmd = "exit" \/ cmd = "quit")
  /\ func arg sh = (sh, {| shown := [Plain "Goodbye!"]; failed := None; stop := true |}).
Proof.
  intros Hf.
  destruct (handler_cases cmd func Hf)
    as [[-> ->]|[[-> ->]|[[-> ->]|[[-> ->]|[[-> ->]|[[-> ->]|[[-> ->]|[[-> ->]|
        [[-> ->]|[[-> ->]|[-> ->]]]]]]]]]]];
    try (intros _; split; [tauto | reflexivity]);
    try discriminate.
  - unfold do_help. destruct (negb _); [destruct (docstring arg)|]; discriminate.
  - unfold do_list_exchanges. destruct (list_lines _ _ _). discriminate.
  - unfold do_list_strategies. destruct (list_lines _ _ _). discriminate.
  - destruct (run_backtest_quiet arg sh) as (_ & _ & Hs). congruence.
Qed.

(** X14.  The loop stops on the commands [exit] and [quit] and on no
    other line; it then prints the farewell, leaves the shell as it was
    and reads no further line. *)
Theorem loop_stops_on_exit (text : string) (rest : list string) (sh : shell) :
  (stop (snd (onecmd text sh)) = true <->
   exists cmd arg t,
     parseline text = (Some (cmd, arg), t) /\ (cmd = "exit" \/ cmd = "quit"))
  /\ (stop (snd (onecmd text sh)) = true ->
      loop (text :: rest) sh = (sh, [Prompt; Plain "Goodbye!"], Stopped)).
Proof.
  assert (Hstop : stop (snd (onecmd text sh)) = true ->
            (exists cmd arg t,
                parseline text = (Some (cmd, arg), t) /\ (cmd = "exit" \/ cmd = "quit"))
            /\ onecmd text sh
               = (sh, {| shown := [Plain "Goodbye!"]; failed := None; stop := true |})).
  { destruct (parseline text) as [[[cmd arg]|] t] eqn:Hp.
    - rewrite (onecmd_parsed _ _ _ _ sh Hp).
      destruct (handler cmd) as [func|] eqn:Hf; [|discriminate].
      intros Hs. destruct (handler_stop cmd arg func sh Hf Hs) as [Hc Hr].
      split; [now exists cmd, arg, t | exact Hr].
    - destruct (onecmd_unparsed _ _ sh Hp) as [-> | ->]; discriminate. }
  split; [split|].
  - intros Hs. now apply Hstop.
  - intros (cmd & arg & t & Hp & Hc). rewrite (onecmd_parsed _ _ _ _ sh Hp).
    destruct Hc as [-> | ->]; reflexivity.
  - intros Hs. destruct (Hstop Hs) as [_ Hr]. cbn [loop]. now rewrite Hr.
Qed.

(** X15.  Command names are matched exactly: a line whose command word
    has a capital letter, like [EXIT] or [Show_Config], only gets the
    message for an unknown command, with the shell unchanged and the loop
    going on. *)
Theorem command_names_case_sensitive (text cmd arg t : string) (sh : shell) :
  parseline text = (Some (cmd, arg), t) ->
  PyStr.lower cmd <> cmd ->
  onecmd text sh
  = (sh, done [UnknownCommand t; Plain "Type 'help' to see available commands."]).
Proof.
  intros Hp Hcase. rewrite (onecmd_parsed _ _ _ _ sh Hp).
  destruct (handler cmd) as [func|] eqn:Hf; [|reflexivity].
  destruct (handler_name cmd func Hf) as (_ & _ & Hlow & _). contradiction.
Qed.

Lemma split_from_some (s w : string) : PyStr.split_from (Some w) s <> [].
Proof.
  revert w. induction s as [|c s IH]; intros w; cbn [PyStr.split_from].
  - discriminate.
  - destruct (PyStr.isspace c); [discriminate | apply IH].
Qed.

Lemma split_nil_lstrip (s : string) :
  PyStr.split s = [] -> PyStr.lstrip PyStr.isspace s = EmptyString.
Proof.
  unfold PyStr.split. induction s as [|c s IH]; [reflexivity|].
  cbn [PyStr.split_from PyStr.lstrip].
  destruct (PyStr.isspace c); [exact IH|].
  intros Hs. now apply split_from_some in Hs.
Qed.

(** X16.  A line without a token, empty or of white space only, does
    nothing: the shell is unchanged, nothing is printed, and the loop
    goes on to the next line. *)
Theorem blank_line_no_op (text : string) (rest : list string) (sh : shell) :
  PyStr.split text = [] ->
  onecmd text sh = (sh, done [])
  /\ loop (text :: rest) sh
     = (fst (fst (loop rest sh)), Prompt :: snd (fst (loop rest sh)), snd (loop rest sh)).
Proof.
  intros Hs.
  assert (Ho : onecmd text sh = (sh, done [])).
  { unfold onecmd, parseline. rewrite strip_rstrip_lstrip.
    now rewrite (split_nil_lstrip text Hs). }
  split; [exact Ho|].
  cbn [loop]. rewrite Ho. cbn [failed stop done shown].
  destruct (loop rest sh) as [[sh' out] st]. reflexivity.
Qed.

(** One command that is no [load_config] keeps a valid configuration
    valid, and no exception leaves its handler. *)
Lemma onecmd_valid (text : string) (sh : shell) :
  is_load_line text = false ->
  valid_config (config sh) = true ->
  valid_config (config (fst (onecmd text sh))) = true
  /\ failed (snd (onecmd text sh)) = None.
Proof.
  intros Hload Hv. unfold is_load_line in Hload.
  destruct (parseline text) as [[[cmd arg]|] t] eqn:Hp.
  2:{ destruct (onecmd_unparsed _ _ sh Hp) as [-> | ->]; now split. }
  rewrite (onecmd_parsed _ _ _ _ sh Hp).
  destruct (handler cmd) as [func|] eqn:Hf; [|now split].
  destruct (config sh) as [| | | | | |d] eqn:Hc; try discriminate.
  assert (Hex : exists v, Dict.get "exchange" d = Some v).
  { assert (Hk : field_ok "exchange" (Dict.get "exchange" d) = true)
      by (apply valid_config_field; [exact Hv | cbn; tauto]).
    destruct (Dict.get "exchange" d); [eauto | discriminate]. }
  assert (Hst : exists v, Dict.get "strategy" d = Some v).
  { assert (Hk : field_ok "strategy" (Dict.get "strategy" d) = true)
      by (apply valid_config_field; [exact Hv | cbn; tauto]).
    destruct (Dict.get "strategy" d); [eauto | discriminate]. }
  destruct (handler_cases cmd func Hf)
    as [[-> ->]|[[-> ->]|[[-> ->]|[[-> ->]|[[-> ->]|[[-> ->]|[[-> ->]|[[-> ->]|
        [[-> ->]|[[-> ->]|[-> ->]]]]]]]]]]].
  - cbn [do_exit fst snd failed]. now rewrite Hc.
  - cbn [do_quit do_exit fst snd failed]. now rewrite Hc.
  - unfold do_help. destruct (negb _); [destruct (docstring arg)|];
      cbn [fst snd failed done]; now rewrite Hc.
  - cbn [do_version fst snd failed done]. now rewrite Hc.
  - destruct Hex as [v Hex]. unfold do_list_exchanges.
    rewrite Hc, (list_lines_dict _ d _ v Hex). cbn [fst snd failed]. now rewrite Hc.
  - destruct Hst as [v Hst]. unfold do_list_strategies.
    rewrite Hc, (list_lines_dict _ d _ v Hst). cbn [fst snd failed]. now rewrite Hc.
  - unfold lifted, do_show_config. rewrite Hc. cbn [fst snd failed raised returns].
    now rewrite Hc.
  - unfold lifted. cbn [fst snd failed]. split.
    + apply set_parameter_valid. now rewrite Hc.
    + unfold do_set_parameter.
      destruct (PyStr.split arg) as [|name [|value rest]]; try reflexivity.
      cbv zeta. destruct (validate _ _); [reflexivity|].
      unfold update. rewrite Hc. cbn [py_in py_setitem].
      destruct (Dict.has _ d); reflexivity.
  - unfold lifted. cbn [fst snd failed]. rewrite save_config_config. split.
    + now rewrite Hc.
    + unfold do_save_config. destruct (Disk.write _ _ _); reflexivity.
  - rewrite String.eqb_refl in Hload. discriminate.
  - destruct (run_backtest_quiet arg sh) as (Hs & Hfail & _).
    rewrite Hs, Hfail, Hc. now split.
Qed.

Lemma loop_valid (texts : list string) (sh : shell) :
  forallb (fun text => negb (is_load_line text)) texts = true ->
  valid_config (config sh) = true ->
  valid_config (config (fst (fst (loop texts sh)))) = true
  /\ (forall e, snd (loop texts sh) <> Crashed e).
Proof.
  revert sh. induction texts as [|text texts IH]; intros sh Hts Hv.
  - now split.
  - cbn [forallb] in Hts. apply andb_prop in Hts as [Ht Hts].
    apply negb_true_iff in Ht.
    destruct (onecmd_valid text sh Ht Hv) as [Hv' Hf].
    cbn [loop]. destruct (onecmd text sh) as [sh' r]. cbn [fst snd] in Hv', Hf.
    rewrite Hf. destruct (stop r).
    + now split.
    + specialize (IH sh' Hts Hv'). destruct (loop texts sh') as [[sh'' out] st].
      exact IH.
Qed.

(** X17.  A session that starts from the default configuration and has
    no [load_config] line never ends by an exception: whatever is typed,
    the shell waits at its prompt or has stopped on [exit] or [quit],
    [main] has no error to report, and the configuration is valid. *)
Theorem session_without_load_is_safe
    (texts : list string) (files : gmap string Disk.node) :
  forallb (fun text => negb (is_load_line text)) texts = true ->
  valid_config (config (fst (fst (main texts files)))) = true
  /\ (snd (main texts files) = Waiting \/ snd (main texts files) = Stopped)
  /\ main texts files = cmdloop texts (start files).
Proof.
  intros Hts.
  destruct (loop_valid texts (start files) Hts eq_refl) as [Hv Hst].
  unfold main, cmdloop.
  destruct (loop texts (start files)) as [[sh out] st]. cbn [fst snd] in *.
  destruct st as [| |e]; [| |now destruct (Hst e)]; cbn [fst snd];
    (split; [exact Hv|]); split; tauto.
Qed.

(** X18.  With a configuration that is no dictionary, as a
    [load_config] leaves it after a file that holds a list or a number,
    the commands [show_config], [list_exchanges] and [list_strategies]
    end the loop by an exception, and the lines typed after them are not
    read. *)
Theorem non_dict_config_ends_session
    (text cmd arg t : string) (rest : list string) (sh : shell) :
  (forall d : items, config sh <> VDict d) ->
  parseline text = (Some (cmd, arg), t) ->
  (cmd = "show_config" ->
   loop (text :: rest) sh
   = (sh, [Prompt; Shown MsgCurrentConfiguration], Crashed (Builtin AttributeError)))
  /\ (cmd = "list_exchanges" ->
      loop (text :: rest) sh
      = (sh, [Prompt; Plain "Available exchanges:"], Crashed (Builtin TypeError)))
  /\ (cmd = "list_strategies" ->
      loop (text :: rest) sh
      = (sh, [Prompt; Plain "Available strategies:"], Crashed (Builtin TypeError))).
Proof.
  intros Hc Hp.
  repeat split; intros ->; cbn [loop]; rewrite (onecmd_parsed _ _ _ _ sh Hp);
    cbn [handler String.eqb Ascii.eqb Bool.eqb];
    unfold lifted, do_show_config, do_list_exchanges, do_list_strategies;
    destruct (config sh) as [| | | | | |d]; try reflexivity;
    now destruct (Hc d).
Qed.

End Dispatch.

(* ===================================================================== *)
(** * Further properties of the strategy                                  *)
(* ===================================================================== *)

Section RunFacts.

Import PyFloat Randobot Runs.

(** The three forms of one iteration: it stops after [position_sizing],
    with or without an exception, or it draws. *)
Lemma iteration_forms (self : trader) (env : tick) :
  (exists evs err,
      on_trading_iteration self env = (self, evs, err)
      /\ (evs = asked self
          \/ evs = asked self ++ [PrintWarning (coin self) (quote self)])
      /\ (err = None
          \/ err = Some ZeroDivisionError
             /\ exists p, last_price env = Some p /\ is_zero p = true))
  \/ (exists quantity,
        on_trading_iteration self env
        = (self, asked self ++ [RandomChoice [0; 1; 2]], None)
        \/ on_trading_iteration self env
           = (set_last_trade self "buy",
              asked self ++ [RandomChoice [0; 1; 2]]
                ++ (if bool_decide (last_trade self = Some "sell")
                    then [SellAll] else [])
                ++ [CreateOrder (market_order self quantity "buy");
                    PrintOrder (market_order self quantity "buy");
                    SubmitOrder (market_order self quantity "buy")],
              None)
        \/ on_trading_iteration self env
           = (set_last_trade self "sell",
              asked self ++ [RandomChoice [0; 1; 2]]
                ++ (if bool_decide (last_trade self = Some "buy")
                    then [SellAll] else [])
                ++ [CreateOrder (market_order self quantity "sell");
                    PrintOrder (market_order self quantity "sell");
                    SubmitOrder (market_order self quantity "sell")],
              None)).
Proof.
  destruct (last_price env) as [p|] eqn:Hp.
  2:{ left. rewrite (iteration_no_price self env Hp). eauto 10. }
  destruct (is_zero p) eqn:Hz.
  { left. rewrite (iteration_zero_price self env p Hp Hz). eauto 10. }
  destruct (fgt (fdiv (fmul (cash env) (cash_at_risk self)) p) fzero
            && fgt (cash env)
                   (fmul (fdiv (fmul (cash env) (cash_at_risk self)) p) p))
    eqn:Hq.
  2:{ left. rewrite (iteration_unaffordable self env p Hp Hz Hq). eauto 10. }
  right. exists (fdiv (fmul (cash env) (cash_at_risk self)) p).
  rewrite (iteration_drawn self env p Hp Hz Hq).
  destruct (choice env =? 0); [tauto|].
  destruct (choice env =? 1); [tauto|].
  destruct (choice env =? 2); tauto.
Qed.

Lemma last_submitted_app (prev : option string) (a b : list event) :
  last_submitted prev (a ++ b) = last_submitted (last_submitted prev a) b.
Proof.
  revert prev. induction a as [|e a IH]; intros prev; [reflexivity|].
  destruct e; cbn [app last_submitted]; apply IH.
Qed.

Lemma liquidates_app (prev : option string) (pending : bool) (a b : list event) :
  liquidates_on_change prev pending a = true ->
  liquidates_on_change prev pending (a ++ b)
  = liquidates_on_change (last_submitted prev a) false b.
Proof.
  revert prev pending. induction a as [|e a IH]; intros prev pending.
  - cbn. now intros ->%negb_true_iff.
  - destruct e; cbn [app liquidates_on_change last_submitted];
      intros [H1 H2]%andb_prop; rewrite H1; cbn [andb]; now apply IH.
Qed.

(** One iteration liquidates on a change of side only, and leaves in
    [last_trade] the side of the order it submitted, if it did. *)
Lemma iteration_trace (self : trader) (env : tick) :
  liquidates_on_change (last_trade self) false
    (snd (fst (on_trading_iteration self env))) = true
  /\ last_submitted (last_trade self) (snd (fst (on_trading_iteration self env)))
     = last_trade (fst (fst (on_trading_iteration self env))).
Proof.
  destruct (iteration_forms self env)
    as [(evs & err & -> & [-> | ->] & _) | (quantity & [-> | [-> | ->]])];
    cbn [fst snd]; unfold asked;
    try (split; reflexivity).
  - destruct (bool_decide (last_trade self = Some "sell")) eqn:Hs;
      cbn [app liquidates_on_change last_submitted negb andb
           market_order order_side set_last_trade last_trade];
      unfold opposite; rewrite Hs; cbn [String.eqb Ascii.eqb Bool.eqb andb orb];
      rewrite ?andb_false_r; split; reflexivity.
  - destruct (bool_decide (last_trade self = Some "buy")) eqn:Hs;
      cbn [app liquidates_on_change last_submitted negb andb
           market_order order_side set_last_trade last_trade];
      unfold opposite; rewrite Hs; cbn [String.eqb Ascii.eqb Bool.eqb andb orb];
      rewrite ?andb_false_r; split; reflexivity.
Qed.

Lemma iteration_parameters (self : trader) (env : tick) :
  let self' := fst (fst (on_trading_iteration self env)) in
  cash_at_risk self' = cash_at_risk self /\ coin self' = coin self
  /\ quote self' = quote self /\ sleeptime self' = sleeptime self.
Proof.
  destruct (iteration_forms self env)
    as [(evs & err & -> & _) | (quantity & [-> | [-> | ->]])];
    cbn; repeat split.
Qed.

(** X19.  Whatever the ticks, a run keeps the parameters of the strategy
    as [initialize] set them, and the side it remembers at the end is
    the side of the last order it submitted, or the side remembered at
    the start when it submitted none. *)
Theorem run_remembers_last_order (self : trader) (envs : list tick) :
  let self' := fst (fst (iterations self envs)) in
  let evs := snd (fst (iterations self envs)) in
  cash_at_risk self' = cash_at_risk self
  /\ coin self' = coin self
  /\ quote self' = quote self
  /\ sleeptime self' = sleeptime self
  /\ last_trade self' = last_submitted (last_trade self) evs.
Proof.
  revert self. induction envs as [|env envs IH]; intros self.
  - cbn. repeat split.
  - cbn [iterations].
    destruct (iteration_parameters self env) as (P1 & P2 & P3 & P4).
    destruct (iteration_trace self env) as [_ Hl].
    destruct (on_trading_iteration self env) as [[self1 evs1] [e|]];
      cbn [fst snd] in *.
    + repeat split; try assumption. now symmetry.
    + specialize (IH self1). cbv zeta in IH.
      destruct (iterations self1 envs) as [[self2 evs2] err]. cbn [fst snd] in *.
      destruct IH as (Q1 & Q2 & Q3 & Q4 & Q5).
      rewrite last_submitted_app, Hl. repeat split; congruence.
Qed.

(** X20.  In the trace of a run, [sell_all] is called exactly on a
    change of side: it comes directly before the creation of an order
    whose side is opposite to that of the last order submitted, before
    every such creation, and at no other place. *)
Theorem run_liquidates_on_change (self : trader) (envs : list tick) :
  liquidates_on_change (last_trade self) false
    (snd (fst (iterations self envs))) = true.
Proof.
  revert self. induction envs as [|env envs IH]; intros self; [reflexivity|].
  cbn [iterations].
  destruct (iteration_trace self env) as [Hliq Hl].
  destruct (on_trading_iteration self env) as [[self1 evs1] [e|]];
    cbn [fst snd] in *; [exact Hliq|].
  specialize (IH self1).
  destruct (iterations self1 envs) as [[self2 evs2] err]. cbn [fst snd] in *.
  now rewrite (liquidates_app _ _ _ _ Hliq), Hl.
Qed.

(** X21.  A run is ended by an exception only at a tick whose price is
    zero, and the exception is [ZeroDivisionError]; with no such tick the
    run goes through all its ticks. *)
Theorem run_raises_on_zero_price (self : trader) (envs : list tick) :
  (forall e, snd (iterations self envs) = Some e ->
     e = ZeroDivisionError
     /\ exists env p, In env envs /\ last_price env = Some p /\ is_zero p = true)
  /\ ((forall env p, In env envs -> last_price env = Some p -> is_zero p = false) ->
      snd (iterations self envs) = None).
Proof.
  assert (Hraise : forall e, snd (iterations self envs) = Some e ->
            e = ZeroDivisionError
            /\ exists env p, In env envs /\ last_price env = Some p /\ is_zero p = true).
  { revert self. induction envs as [|env envs IH]; intros self e; [discriminate|].
    cbn [iterations].
    destruct (iteration_forms self env)
      as [(evs & err & -> & _ & [-> | [-> (p & Hp & Hz)]])
         | (quantity & [-> | [-> | ->]])].
    2:{ cbn [snd]. intros [= <-]. split; [reflexivity|].
        exists env, p. cbn [In]. tauto. }
    all: match goal with
         | |- context [iterations ?s ?l] =>
             specialize (IH s e); destruct (iterations s l) as [[s2 evs2] err2]
         end; cbn [snd] in *; intros He;
         destruct (IH He) as [-> (env' & p & Hin & Hp & Hz)];
         split; [reflexivity|]; exists env', p; cbn [In]; tauto. }
  split; [exact Hraise|].
  intros Hnz. destruct (snd (iterations self envs)) as [e|] eqn:He; [|reflexivity].
  destruct (Hraise e eq_refl) as [_ (env & p & Hin & Hp & Hz)].
  rewrite (Hnz env p Hin Hp) in Hz. discriminate.
Qed.

(** The result of a rounding has the sign it was given, or is a NaN. *)
Lemma round_sign (s : bool) (m e : Z) (l : location) :
  binary_round_aux prec emax s m e l = S754_zero s
  \/ binary_round_aux prec emax s m e l = S754_infinity s
  \/ binary_round_aux prec emax s m e l = S754_nan
  \/ exists m' e', binary_round_aux prec emax s m e l = S754_finite s m' e'.
Proof.
  unfold binary_round_aux.
  destruct (shr_fexp prec emax m e l) as [mrs e'].
  destruct (shr_fexp prec emax _ e' loc_Exact) as [mrs' e''].
  destruct (shr_m mrs'); [tauto | | tauto].
  destruct (e'' <=? emax - prec); eauto 6.
Qed.

(** A float that is zero, negative or a NaN. *)
Lemma not_positive_cases (x : float) :
  fgt x fzero = false <->
  x = S754_nan \/ (exists s, x = S754_zero s) \/ x = S754_infinity true
  \/ exists m e, x = S754_finite true m e.
Proof.
  split.
  - destruct x as [s|[]| |[] m e]; try discriminate; eauto 6.
  - intros [-> | [[s ->] | [-> | (m & e & ->)]]]; reflexivity.
Qed.

Lemma positive_cases (x : float) :
  fgt x fzero = true ->
  x = S754_infinity false \/ exists m e, x = S754_finite false m e.
Proof. destruct x as [s|[]| |[] m e]; try discriminate; eauto. Qed.

Lemma fmul_not_positive (x y : float) :
  fgt x fzero = false -> fgt y fzero = true -> fgt (fmul x y) fzero = false.
Proof.
  intros Hx Hy. apply not_positive_cases in Hx. apply positive_cases in Hy.
  apply not_positive_cases. unfold fmul.
  destruct Hx as [-> | [[s ->] | [-> | (m & e & ->)]]];
    destruct Hy as [-> | (m' & e' & ->)]; cbn [SFmul xorb]; eauto 6.
  destruct (round_sign true (Z.pos (m * m')) (e + e') loc_Exact)
    as [-> | [-> | [-> | (m2 & e2 & ->)]]]; eauto 6.
Qed.

Lemma fdiv_not_positive (x y : float) :
  fgt x fzero = false -> fgt y fzero = true -> fgt (fdiv x y) fzero = false.
Proof.
  intros Hx Hy. apply not_positive_cases in Hx. apply positive_cases in Hy.
  apply not_positive_cases. unfold fdiv.
  destruct Hx as [-> | [[s ->] | [-> | (m & e & ->)]]];
    destruct Hy as [-> | (m' & e' & ->)]; cbn [SFdiv xorb]; eauto 6.
  destruct (SFdiv_core_binary prec emax (Z.pos m) e (Z.pos m') e') as [[mz ez] lz].
  destruct (round_sign true mz ez lz)
    as [-> | [-> | [-> | (m2 & e2 & ->)]]]; eauto 6.
Qed.

(** X22.  Without cash there is no trade: when the cash is zero,
    negative or a NaN, with a positive [cash_at_risk] and a positive
    price, the iteration asks for the cash and the price and does
    nothing else. *)
Theorem no_cash_no_trade (self : trader) (env : tick) (p : float) :
  last_price env = Some p ->
  fgt (cash env) fzero = false ->
  fgt (cash_at_risk self) fzero = true ->
  fgt p fzero = true ->
  on_trading_iteration self env = (self, asked self, None).
Proof.
  intros Hp Hcash Hcar Hprice.
  assert (Hz : is_zero p = false).
  { apply positive_cases in Hprice as [-> | (m & e & ->)]; reflexivity. }
  apply (iteration_unaffordable self env p Hp Hz). cbv zeta.
  rewrite (fdiv_not_positive _ p); [reflexivity | | exact Hprice].
  now apply fmul_not_positive.
Qed.

(** X23.  A NaN never trades: when the cash, [cash_at_risk] or the price
    is a NaN, as [cash_at_risk] is after [set_parameter cash_at_risk
    nan], the events of the iteration are the two questions of
    [position_sizing] and the strategy is as before. *)
Theorem nan_never_trades (self : trader) (env : tick) (p : float) :
  last_price env = Some p ->
  is_nan (cash env) || is_nan (cash_at_risk self) || is_nan p = true ->
  fst (on_trading_iteration self env) = (self, asked self).
Proof.
  intros Hp Hnan.
  destruct (is_zero p) eqn:Hz.
  { now rewrite (iteration_zero_price self env p Hp Hz). }
  rewrite (iteration_unaffordable self env p Hp Hz); [reflexivity|].
  cbv zeta.
  assert (Hq : fdiv (fmul (cash env) (cash_at_risk self)) p = S754_nan).
  { unfold fdiv, fmul.
    destruct (cash env) as [?|?| |? ? ?], (cash_at_risk self) as [?|?| |? ? ?],
             p as [?|?| |? ? ?]; try discriminate; try reflexivity;
      cbn [SFmul]; try reflexivity;
      match goal with
      | |- SFdiv _ _ ?x S754_nan = _ => now destruct x
      end. }
  now rewrite Hq.
Qed.

End RunFacts.

(* ===================================================================== *)
(** * What a session writes                                               *)
(* ===================================================================== *)

Section DiskFrame.

Import CryptoShell Commands.

Context `{Json}.

Lemma run_backtest_state (arg : string) (sh : shell) :
  fst (do_run_backtest arg sh) = sh.
Proof.
  unfold do_run_backtest.
  destruct (raised (snd (do_show_config EmptyString sh))); [reflexivity|].
  repeat match goal with
         | |- fst (match ?x with _ => _ end) = _ => destruct x
         end; reflexivity.
Qed.

Lemma set_parameter_disk (arg : string) (sh : shell) :
  disk (fst (do_set_parameter arg sh)) = disk sh.
Proof.
  rewrite set_parameter_state.
  destruct (PyStr.split arg) as [|name [|value rest]]; try reflexivity.
  destruct (validate (PyStr.lower name) value); [reflexivity|].
  rewrite update_state.
  destruct (config sh) as [| | | | | |d]; try reflexivity.
  destruct (Dict.has (PyStr.lower name) d); reflexivity.
Qed.

Lemma load_config_disk (arg : string) (sh : shell) :
  disk (fst (do_load_config arg sh)) = disk sh.
Proof.
  unfold do_load_config.
  destruct (Disk.read _ (disk sh)) as [[]|text]; try reflexivity.
  destruct (json_loads text); reflexivity.
Qed.

Lemma onecmd_disk (text : string) (sh : shell) :
  (forall arg t, parseline text <> (Some ("save_config", arg), t)) ->
  disk (fst (onecmd text sh)) = disk sh.
Proof.
  intros Hsave.
  destruct (parseline text) as [[[cmd arg]|] t] eqn:Hp.
  2:{ destruct (onecmd_unparsed _ _ sh Hp) as [-> | ->]; reflexivity. }
  rewrite (onecmd_parsed _ _ _ _ sh Hp).
  destruct (handler cmd) as [func|] eqn:Hf; [|reflexivity].
  destruct (handler_cases _ _ Hf)
    as [[-> ->] | [[-> ->] | [[-> ->] | [[-> ->] | [[-> ->] | [[-> ->]
       | [[-> ->] | [[-> ->] | [[-> ->] | [[-> ->] | [-> ->]]]]]]]]]]].
  - reflexivity.
  - reflexivity.
  - unfold do_help. destruct (negb _); [destruct (docstring arg)|]; reflexivity.
  - reflexivity.
  - unfold do_list_exchanges. now destruct (list_lines _ _ _).
  - unfold do_list_strategies. now destruct (list_lines _ _ _).
  - unfold do_show_config, lifted. now destruct (config sh).
  - unfold lifted. cbn [fst]. now rewrite set_parameter_disk.
  - now destruct (Hsave arg t).
  - unfold lifted. cbn [fst]. now rewrite load_config_disk.
  - now rewrite run_backtest_state.
Qed.

(** X24.  Only [save_config] writes: a session without a [save_config]
    line leaves the disk as it was, whatever its lines are and however
    it ends. *)
Theorem session_without_save_keeps_disk (texts : list string) (sh : shell) :
  (forall text arg t,
     In text texts -> parseline text <> (Some ("save_config", arg), t)) ->
  disk (fst (fst (loop texts sh))) = disk sh.
Proof.
  revert sh. induction texts as [|text texts' IH]; intros sh Hsave; [reflexivity|].
  cbn [loop].
  assert (H1 := onecmd_disk text sh
                  (fun arg t => Hsave text arg t (or_introl eq_refl))).
  destruct (onecmd text sh) as [sh' r]. cbn [fst] in H1.
  destruct (failed r); [exact H1|].
  destruct (stop r); [exact H1|].
  specialize (IH sh' (fun text' arg t Hin => Hsave text' arg t (or_intror Hin))).
  destruct (loop texts' sh') as [[sh'' out] st]. cbn [fst] in *.
  now rewrite IH.
Qed.

End DiskFrame.

(* ===================================================================== *)
(** * The values of a configuration                                       *)
(* ===================================================================== *)

Section ConfigurationValues.

Import PyFloat CryptoShell Commands PyJson.

Lemma validate_values (n v : string) (x : pyval) :
  validate n v = Passed x -> python_value x = true.
Proof.
  unfold validate.
  repeat match goal with
         | |- context [if ?b then _ else _] => destruct b
         | |- context [match py_float v with _ => _ end] =>
             destruct (py_float v) as [y|] eqn:Hy
         | |- context [match PyTime.strptime_ymd v with _ => _ end] =>
             destruct (PyTime.strptime_ymd v)
         end;
    try discriminate; intros [= <-]; try reflexivity.
  exact (py_float_valid _ _ Hy).
Qed.

Lemma set_parameter_values (arg : string) (sh : shell) :
  python_value (config sh) = true ->
  python_value (config (fst (do_set_parameter arg sh))) = true.
Proof.
  intros Hsh. unfold do_set_parameter.
  destruct (PyStr.split arg) as [|name [|value rest]]; try exact Hsh.
  destruct (validate _ _) as [out|v] eqn:Hv; [exact Hsh|].
  apply validate_values in Hv.
  unfold update.
  destruct (py_in _ _) as [[]|]; [| |exact Hsh].
  - destruct (config sh) as [| | | | | |d] eqn:Hc;
      try (cbn [py_setitem fst]; now rewrite Hc).
    cbn [py_setitem fst config]. now apply set_valid.
  - destruct (config sh) eqn:Hc; cbn [fst]; now rewrite Hc.
Qed.

Lemma load_config_values (arg : string) (sh : shell) :
  python_value (config sh) = true ->
  python_value (config (fst (do_load_config arg sh))) = true.
Proof.
  intros Hsh. unfold do_load_config.
  destruct (Disk.read _ _) as [[]|text]; try exact Hsh.
  change (json_loads text) with (loads text).
  destruct (loads text) as [v|] eqn:Hv; [|exact Hsh].
  exact (loads_valid _ _ Hv).
Qed.

Lemma onecmd_values (text : string) (sh : shell) :
  python_value (config sh) = true ->
  python_value (config (fst (onecmd text sh))) = true.
Proof.
  intros Hsh.
  destruct (parseline text) as [[[cmd arg]|] t] eqn:Hp.
  2:{ destruct (onecmd_unparsed _ _ sh Hp) as [-> | ->]; exact Hsh. }
  rewrite (onecmd_parsed _ _ _ _ sh Hp).
  destruct (handler cmd) as [func|] eqn:Hf; [|exact Hsh].
  destruct (handler_cases _ _ Hf)
    as [[-> ->] | [[-> ->] | [[-> ->] | [[-> ->] | [[-> ->] | [[-> ->]
       | [[-> ->] | [[-> ->] | [[-> ->] | [[-> ->] | [-> ->]]]]]]]]]]].
  - exact Hsh.
  - exact Hsh.
  - unfold do_help. destruct (negb _); [destruct (docstring arg)|]; exact Hsh.
  - exact Hsh.
  - unfold do_list_exchanges. now destruct (list_lines _ _ _).
  - unfold do_list_strategies. now destruct (list_lines _ _ _).
  - assert (E : fst (do_show_config arg sh) = sh)
      by (unfold do_show_config; now destruct (config sh)).
    unfold lifted. cbn [fst]. now rewrite E.
  - unfold lifted. cbn [fst]. now apply set_parameter_values.
  - unfold lifted. cbn [fst]. now rewrite save_config_config.
  - unfold lifted. cbn [fst]. now apply load_config_values.
  - now rewrite run_backtest_state.
Qed.

Lemma loop_values (texts : list string) (sh : shell) :
  python_value (config sh) = true ->
  python_value (config (fst (fst (loop texts sh)))) = true.
Proof.
  revert sh. induction texts as [|text texts' IH]; intros sh Hsh; [exact Hsh|].
  cbn [loop].
  assert (H1 := onecmd_values text sh Hsh).
  destruct (onecmd text sh) as [sh' r]. cbn [fst] in H1.
  destruct (failed r); [exact H1|].
  destruct (stop r); [exact H1|].
  specialize (IH sh' H1).
  now destruct (loop texts' sh') as [[sh'' out] st].
Qed.

(** X25.  Every configuration of a session is a value of Python: from
    the start on, whatever the lines typed and the files loaded, the
    dictionaries of the configuration have distinct keys and its floats
    are binary64 numbers. *)
Theorem session_configuration_values (texts : list string)
    (files : gmap string Disk.node) :
  python_value (config (fst (fst (loop texts (start files))))) = true.
Proof. apply loop_values. vm_compute. reflexivity. Qed.

End ConfigurationValues.

(* ===================================================================== *)
(** * The further properties on concrete inputs                           *)
(* ===================================================================== *)

Section ShellExamples.

Import PyFloat CryptoShell Commands PyJson.

(** For instance: white space around the tokens and two more tokens. *)
Lemma set_parameter_two_tokens_witness :
  do_set_parameter "  coin   ETH  and more" (start ∅)
  = do_set_parameter "coin ETH" (start ∅).
Proof.
  apply (set_parameter_two_tokens "  coin   ETH  and more" "coin" "ETH"
           ["and"; "more"] (start ∅)).
  vm_compute. reflexivity.
Defined.

(** For instance: the name of the exchange parameter in capital letters. *)
Lemma set_parameter_name_case_witness :
  do_set_parameter "EXCHANGE kraken" (start ∅)
  = do_set_parameter "exchange kraken" (start ∅).
Proof.
  apply (set_parameter_name_case "EXCHANGE" "kraken" (start ∅));
    vm_compute; reflexivity.
Defined.

(** For instance: the coin set twice, the second time with the name in
    capital letters. *)
Lemma set_parameter_last_wins_witness :
  fst (do_set_parameter "COIN SOL" (fst (do_set_parameter "coin ETH" (start ∅))))
  = fst (do_set_parameter "COIN SOL" (start ∅)).
Proof.
  apply (proj2 (set_parameter_last_wins "coin ETH" "COIN SOL" (start ∅)));
    vm_compute; reflexivity.
Defined.

(** For instance: the coin and the quote. *)
Lemma set_parameter_commute_witness :
  fst (do_set_parameter "quote EUR" (fst (do_set_parameter "coin ETH" (start ∅))))
  = fst (do_set_parameter "coin ETH" (fst (do_set_parameter "quote EUR" (start ∅)))).
Proof.
  apply (set_parameter_commute "coin ETH" "quote EUR" (start ∅)).
  vm_compute. discriminate.
Defined.

(** For instance: a NaN for [cash_at_risk] and a rejected date leave a
    configuration that is valid in this sense. *)
Lemma valid_config_preserved_witness :
  valid_config
    (config (run [SetParameter "cash_at_risk nan";
                  SetParameter "start_date 2023-13-01";
                  SaveConfig "mine"; ShowConfig EmptyString] (start ∅)))
  = true.
Proof.
  apply (valid_config_preserved
           [SetParameter "cash_at_risk nan"; SetParameter "start_date 2023-13-01";
            SaveConfig "mine"; ShowConfig EmptyString] ∅).
  vm_compute. reflexivity.
Defined.

(** For instance: the default configuration marks one exchange. *)
Lemma listing_marks_current_witness :
  marked (shown (snd (do_list_exchanges EmptyString (start ∅)))) = 1%nat.
Proof.
  destruct (listing_marks_current EmptyString (start ∅)
              [ ("exchange", VStr "coinbase"); ("strategy", VStr "random");
                ("coin", VStr "BTC"); ("quote", VStr "USD");
                ("cash_at_risk", VFloat (S754_finite false 4503599627370496 (-54)));
                ("start_date", VStr "2023-06-01"); ("end_date", VStr "2023-12-31");
                ("min_timestep", VStr "day") ]
              "coinbase" eq_refl) as [Hexchange _].
  destruct (Hexchange eq_refl) as [_ Hmarked].
  exact Hmarked.
Defined.

(** For instance: the exchange set to [kraken]. *)
Lemma set_exchange_then_list_witness :
  marked (shown (snd (do_list_exchanges EmptyString
                        (fst (do_set_parameter "exchange kraken" (start ∅))))))
  = 1%nat.
Proof.
  apply (proj2 (set_exchange_then_list (start ∅)
                  [ ("exchange", VStr "coinbase"); ("strategy", VStr "random");
                    ("coin", VStr "BTC"); ("quote", VStr "USD");
                    ("cash_at_risk", VFloat (S754_finite false 4503599627370496 (-54)));
                    ("start_date", VStr "2023-06-01"); ("end_date", VStr "2023-12-31");
                    ("min_timestep", VStr "day") ]
                  "kraken" eq_refl eq_refl eq_refl)).
Defined.

(** For instance: the empty dictionary and the empty list as the
    configuration. *)
Lemma listing_without_key_witness :
  do_list_exchanges EmptyString {| config := VDict []; disk := ∅ |}
  = ({| config := VDict []; disk := ∅ |},
     {| shown := [Plain "Available exchanges:"];
        failed := Some (KeyError "exchange"); stop := false |})
  /\ do_list_strategies EmptyString {| config := VList []; disk := ∅ |}
     = ({| config := VList []; disk := ∅ |},
        {| shown := [Plain "Available strategies:"];
           failed := Some (Builtin TypeError); stop := false |}).
Proof.
  split.
  - apply (proj1 (proj1 (listing_without_key
                           EmptyString {| config := VDict []; disk := ∅ |})
                    [] eq_refl)).
    reflexivity.
  - apply (proj2 (listing_without_key
                    EmptyString {| config := VList []; disk := ∅ |})).
    intros d. discriminate.
Defined.

(** For instance: the default configuration. *)
Lemma run_backtest_valid_witness :
  failed (snd (do_run_backtest EmptyString (start ∅))) = None
  /\ last (shown (snd (do_run_backtest EmptyString (start ∅))))
     = Some (BacktestFuture (VStr "random")).
Proof.
  destruct (run_backtest_valid EmptyString (start ∅)
              [ ("exchange", VStr "coinbase"); ("strategy", VStr "random");
                ("coin", VStr "BTC"); ("quote", VStr "USD");
                ("cash_at_risk", VFloat (S754_finite false 4503599627370496 (-54)));
                ("start_date", VStr "2023-06-01"); ("end_date", VStr "2023-12-31");
                ("min_timestep", VStr "day") ]
              eq_refl eq_refl)
    as (c & q & e & s & t1 & t2 & d1 & d2 & _ & _ & _ & Hs & _ & _ & _ & _ & Hrun).
  rewrite Hrun. vm_compute in Hs. injection Hs as <-.
  split; reflexivity.
Defined.

(** For instance: a list as the configuration, and a dictionary without
    dates. *)
Lemma run_backtest_contained_witness :
  shown (snd (do_run_backtest EmptyString {| config := VList []; disk := ∅ |}))
  = [Plain "Initializing backtest with configuration:";
     Shown MsgCurrentConfiguration;
     ErrBacktest (Builtin AttributeError)]
  /\ last (shown (snd (do_run_backtest EmptyString
                         {| config := VDict [("coin", VStr "BTC")]; disk := ∅ |})))
     = Some (ErrBacktest (KeyError "start_date")).
Proof.
  split.
  - apply (proj1 (proj2 (proj2 (proj2
             (run_backtest_contained EmptyString
                {| config := VList []; disk := ∅ |}))))).
    intros d. discriminate.
  - apply (proj2 (proj2 (proj2 (proj2
             (run_backtest_contained EmptyString
                {| config := VDict [("coin", VStr "BTC")]; disk := ∅ |}))))
             [("coin", VStr "BTC")] eq_refl).
Defined.

(** For instance: [set_parameter] with white space around its argument,
    and [show_config] alone. *)
Lemma onecmd_dispatches_witness :
  onecmd "set_parameter   coin ETH  " (start ∅)
  = lifted (do_set_parameter "coin ETH" (start ∅))
  /\ onecmd "show_config" (start ∅)
     = lifted (do_show_config EmptyString (start ∅)).
Proof.
  split.
  - apply (proj1 (onecmd_dispatches "set_parameter" "  coin ETH  "
                    (fun arg sh => lifted (do_set_parameter arg sh))
                    (start ∅) eq_refl)).
  - apply (proj2 (onecmd_dispatches "show_config" EmptyString
                    (fun arg sh => lifted (do_show_config arg sh))
                    (start ∅) eq_refl)).
Defined.

(** For instance: [exit] before a further line. *)
Lemma loop_stops_on_exit_witness :
  loop ["exit"; "show_config"] (start ∅)
  = (start ∅, [Prompt; Plain "Goodbye!"], Stopped).
Proof.
  apply (proj2 (loop_stops_on_exit "exit" ["show_config"] (start ∅))).
  vm_compute. reflexivity.
Defined.

(** For instance: [EXIT]. *)
Lemma command_names_case_sensitive_witness :
  onecmd "EXIT now" (start ∅)
  = (start ∅,
     done [UnknownCommand "EXIT now"; Plain "Type 'help' to see available commands."]).
Proof.
  apply (command_names_case_sensitive "EXIT now" "EXIT" "now" "EXIT now" (start ∅)).
  - vm_compute. reflexivity.
  - vm_compute. discriminate.
Defined.

(** For instance: a line of three spaces. *)
Lemma blank_line_no_op_witness :
  onecmd "   " (start ∅) = (start ∅, done []).
Proof.
  apply (proj1 (blank_line_no_op "   " [] (start ∅) eq_refl)).
Defined.

(** For instance: a session with a rejected value, an unknown command, a
    save and an exit. *)
Lemma session_without_load_is_safe_witness :
  let texts := ["set_parameter exchange nowhere"; "frobnicate";
                "save_config mine"; "run_backtest"; "exit"; "show_config"] in
  valid_config (config (fst (fst (main texts ∅)))) = true
  /\ main texts ∅ = cmdloop texts (start ∅).
Proof.
  intros texts.
  destruct (session_without_load_is_safe texts ∅) as (Hvalid & _ & Hmain).
  - vm_compute. reflexivity.
  - split; assumption.
Defined.

(** For instance: [show_config] on a list. *)
Lemma non_dict_config_ends_session_witness :
  loop ["show_config"; "exit"] {| config := VList []; disk := ∅ |}
  = ({| config := VList []; disk := ∅ |},
     [Prompt; Shown MsgCurrentConfiguration], Crashed (Builtin AttributeError)).
Proof.
  apply (proj1 (non_dict_config_ends_session
                  "show_config" "show_config" EmptyString "show_config" ["exit"]
                  {| config := VList []; disk := ∅ |}
                  (fun d Hd => eq_ind (VList []) (fun v => match v with
                                                           | VList _ => True
                                                           | _ => False
                                                           end) I _ Hd)
                  eq_refl)).
  reflexivity.
Defined.

(** For instance: a session that loads, sets, lists and exits. *)
Lemma session_without_save_keeps_disk_witness :
  disk (fst (fst (loop ["load_config"; "set_parameter coin ETH"; "list_exchanges";
                        "run_backtest"; "exit"]
                       (start {[ "crypto_journey/crypto_config.json" := Disk.File "{}" ]}))))
  = disk (start {[ "crypto_journey/crypto_config.json" := Disk.File "{}" ]}).
Proof.
  apply (session_without_save_keeps_disk
           ["load_config"; "set_parameter coin ETH"; "list_exchanges";
            "run_backtest"; "exit"]
           (start {[ "crypto_journey/crypto_config.json" := Disk.File "{}" ]})).
  intros text arg t Hin Hp.
  repeat (destruct Hin as [<- | Hin]; [vm_compute in Hp; discriminate Hp|]).
  destruct Hin.
Defined.

End ShellExamples.

Section TraderExamples.

Import PyFloat Randobot Runs.

(** For instance: a run of one tick at a price of 49. *)
Lemma run_raises_on_zero_price_witness :
  snd (iterations
         (initialize (of_decimal false 25 (-2)) "BTC" "USD")
         [ {| cash := of_decimal false 1000 0;
              last_price := Some (of_decimal false 49 0); choice := 1 |} ])
  = None.
Proof.
  apply (proj2 (run_raises_on_zero_price
                  (initialize (of_decimal false 25 (-2)) "BTC" "USD")
                  [ {| cash := of_decimal false 1000 0;
                       last_price := Some (of_decimal false 49 0);
                       choice := 1 |} ])).
  intros env p [<- | []] [= <-]. reflexivity.
Defined.

(** For instance: no cash, a quarter of it at risk and a price of 49. *)
Lemma no_cash_no_trade_witness :
  on_trading_iteration
    (initialize (of_decimal false 25 (-2)) "BTC" "USD")
    {| cash := fzero; last_price := Some (of_decimal false 49 0); choice := 1 |}
  = (initialize (of_decimal false 25 (-2)) "BTC" "USD",
     [GetCash; GetLastPrice (crypto "BTC") (crypto "USD")],
     None).
Proof.
  apply (no_cash_no_trade
           (initialize (of_decimal false 25 (-2)) "BTC" "USD")
           {| cash := fzero; last_price := Some (of_decimal false 49 0); choice := 1 |}
           (of_decimal false 49 0));
    vm_compute; reflexivity.
Defined.

(** For instance: a NaN as [cash_at_risk], with 1000 of cash and a price
    of 49. *)
Lemma nan_never_trades_witness :
  fst (on_trading_iteration
         (initialize S754_nan "BTC" "USD")
         {| cash := of_decimal false 1000 0;
            last_price := Some (of_decimal false 49 0); choice := 1 |})
  = (initialize S754_nan "BTC" "USD",
     [GetCash; GetLastPrice (crypto "BTC") (crypto "USD")]).
Proof.
  apply (nan_never_trades
           (initialize S754_nan "BTC" "USD")
           {| cash := of_decimal false 1000 0;
              last_price := Some (of_decimal false 49 0); choice := 1 |}
           (of_decimal false 49 0));
    vm_compute; reflexivity.
Defined.

End TraderExamples.
